(** * The tabular log parser of read.py

    [read_and_parse_dat] scans a solver log line by line, finds the header
    line (the first one containing [Inner_Iter]), skips the rule under it
    and converts every following line into a row of one integer and
    floating-point numbers, dropping the lines that do not fit. *)

From Stdlib Require Import Bool Arith ZArith Ascii String List Lia.
From Stdlib Require Import Orders Mergesort Sorted Permutation.
Import ListNotations.
Local Open Scope string_scope.
Local Open Scope list_scope.

(** ** Python's string operations

    A text is a [string] whose characters are code points below 256. *)

Module PyStr.

(** [str.isspace] on one character: the white space of Python's [str]
    among the code points below 256. *)
Definition isspace (c : ascii) : bool :=
  let n := nat_of_ascii c in
  (((9 <=? n) && (n <=? 13)) || ((28 <=? n) && (n <=? 32))
   || (n =? 133) || (n =? 160))%nat.

(** [s.lstrip()] *)
Fixpoint lstrip (s : string) : string :=
  match s with
  | EmptyString => EmptyString
  | String c s' => if isspace c then lstrip s' else s
  end.

(** [s.rstrip()] *)
Fixpoint rstrip (s : string) : string :=
  match s with
  | EmptyString => EmptyString
  | String c s' =>
      match rstrip s' with
      | EmptyString => if isspace c then EmptyString else String c EmptyString
      | r => String c r
      end
  end.

(** [s.strip()] *)
Definition strip (s : string) : string := rstrip (lstrip s).

(** [s.startswith(p)] *)
Fixpoint startswith (p s : string) : bool :=
  match p, s with
  | EmptyString, _ => true
  | String a p', String b s' => Ascii.eqb a b && startswith p' s'
  | String _ _, EmptyString => false
  end.

(** [m in s] *)
Fixpoint contains (m s : string) : bool :=
  startswith m s ||
  match s with
  | EmptyString => false
  | String _ s' => contains m s'
  end.

(** [s.split(sep)] for a separator of one character; the result is never
    empty: a text without the separator is its own single piece. *)
Fixpoint split (sep : ascii) (s : string) : list string :=
  match s with
  | EmptyString => [EmptyString]
  | String c s' =>
      if Ascii.eqb c sep then EmptyString :: split sep s'
      else match split sep s' with
           | [] => [String c EmptyString]
           | p :: ps => String c p :: ps
           end
  end.

(** Truth value of a text: [bool(s)], false for the empty text only. *)
Definition truthy (s : string) : bool :=
  match s with
  | EmptyString => false
  | String _ _ => true
  end.

(** The characters of a text. *)
Fixpoint chars (s : string) : list ascii :=
  match s with
  | EmptyString => []
  | String c s' => c :: chars s'
  end.

(** *** Shapes of a text, for the facts about these operations *)

(** No character of [m] is [sep]. *)
Definition free_of (sep : ascii) (m : string) : bool :=
  forallb (fun c => negb (Ascii.eqb c sep)) (chars m).

(** [m] does not start with white space. *)
Definition starts_solid (m : string) : bool :=
  match m with
  | EmptyString => true
  | String a _ => negb (isspace a)
  end.

(** [m] does not end with white space. *)
Fixpoint ends_solid (m : string) : bool :=
  match m with
  | EmptyString => true
  | String a EmptyString => negb (isspace a)
  | String _ m' => ends_solid m'
  end.

End PyStr.
Import PyStr.

(** ** Values and conversions

    The parser converts fields with Python's [int] and [float] and never
    computes with the results, so the development is parametric in the type
    of floating-point values and in the two conversions: [None] stands for
    the [ValueError] the conversion raises. *)

Class Conversions := {
  pyfloat : Type;
  int : string -> option Z;
  float : string -> option pyfloat
}.

(** *** A model of the two conversions on decimal text *)

Module Decimal.

Definition is_digit (c : ascii) : bool :=
  let n := nat_of_ascii c in ((48 <=? n) && (n <=? 57))%nat.

Definition digit_value (c : ascii) : N := N.of_nat (nat_of_ascii c - 48).

(** A digit part [digit (["_"] digit)*]: [after_digit] tells whether the
    previous character was a digit, which an underscore and the end of the
    text both need. The result is the number read and the count of digits. *)
Fixpoint digitpart (after_digit : bool) (acc : N) (count : nat) (s : string)
  : option (N * nat) :=
  match s with
  | EmptyString => if after_digit then Some (acc, count) else None
  | String c s' =>
      if is_digit c then
        digitpart true (acc * 10 + digit_value c)%N (S count) s'
      else if Ascii.eqb c "_" && after_digit then
        digitpart false acc count s'
      else None
  end.

(** An optional sign: [true] for a minus, and the rest of the text. *)
Definition sign (s : string) : bool * string :=
  match s with
  | EmptyString => (false, s)
  | String c s' =>
      if Ascii.eqb c "+" then (false, s')
      else if Ascii.eqb c "-" then (true, s')
      else (false, s)
  end.

(** [int(s)] in base 10: white space around, an optional sign, a digit
    part. The limit that recent CPython versions put on the number of
    digits is left out. *)
Definition py_int (s : string) : option Z :=
  let (neg, body) := sign (strip s) in
  match digitpart false 0 0 body with
  | Some (n, _) => Some (if neg then (- Z.of_N n)%Z else Z.of_N n)
  | None => None
  end.

(** The number a decimal literal denotes, [mantissa * 10 ^ exponent] with
    its sign, or one of the special values; [float] rounds it to the
    nearest binary64 number, which is not modelled. *)
Inductive literal : Type :=
| Finite (negative : bool) (mantissa : N) (exponent : Z)
| Infinity (negative : bool)
| NaN.

(** The longest prefix of digits and underscores, and what follows it. *)
Fixpoint span_digits (s : string) : string * string :=
  match s with
  | EmptyString => (EmptyString, EmptyString)
  | String c s' =>
      if is_digit c || Ascii.eqb c "_" then
        let (d, rest) := span_digits s' in (String c d, rest)
      else (EmptyString, s)
  end.

(** ASCII lower case of a character and of a text. *)
Definition lower (c : ascii) : ascii :=
  let n := nat_of_ascii c in
  if ((65 <=? n) && (n <=? 90))%nat then ascii_of_nat (n + 32) else c.

Fixpoint lowercase (s : string) : string :=
  match s with
  | EmptyString => EmptyString
  | String c s' => String (lower c) (lowercase s')
  end.

(** A digit part that may be absent: the number, and the count of digits. *)
Definition opt_digitpart (s : string) : option (N * nat) :=
  match s with
  | EmptyString => Some (0%N, 0)
  | _ => digitpart false 0 0 s
  end.

(** The exponent [("e" | "E") [sign] digitpart], or nothing. *)
Definition exponent_part (s : string) : option Z :=
  match s with
  | EmptyString => Some 0%Z
  | String c s' =>
      if Ascii.eqb (lower c) "e" then
        let (neg, digits) := sign s' in
        match digitpart false 0 0 digits with
        | Some (n, _) => Some (if neg then (- Z.of_N n)%Z else Z.of_N n)
        | None => None
        end
      else None
  end.

(** A number without a point: a digit part and an optional exponent. *)
Definition pointless (neg : bool) (ip rest : string) : option literal :=
  match digitpart false 0 0 ip, exponent_part rest with
  | Some (i, _), Some e => Some (Finite neg i e)
  | _, _ => None
  end.

(** A number with a point: digit parts before and after it, not both
    absent, and an optional exponent. *)
Definition pointed (neg : bool) (ip rest : string) : option literal :=
  let (fp, rest') := span_digits rest in
  match opt_digitpart ip, opt_digitpart fp, exponent_part rest' with
  | Some (i, ni), Some (f, nf), Some e =>
      if (ni + nf =? 0)%nat then None
      else Some (Finite neg (i * 10 ^ N.of_nat nf + f)%N (e - Z.of_nat nf)%Z)
  | _, _, _ => None
  end.

(** [[digitpart] "." digitpart | digitpart ["."]] followed by an optional
    exponent. *)
Definition floatnumber (neg : bool) (s : string) : option literal :=
  let (ip, rest) := span_digits s in
  match rest with
  | EmptyString => pointless neg ip rest
  | String c rest' =>
      if Ascii.eqb c "." then pointed neg ip rest' else pointless neg ip rest
  end.

(** [float(s)]: white space around, an optional sign, then [inf],
    [infinity] or [nan] in any case, or a decimal number. *)
Definition py_float (s : string) : option literal :=
  let (neg, body) := sign (strip s) in
  let low := lowercase body in
  if String.eqb low "inf" || String.eqb low "infinity" then Some (Infinity neg)
  else if String.eqb low "nan" then Some NaN
  else floatnumber neg body.

(** *** Shapes of a number, for the facts about the conversions *)

(** A character a decimal number is written with. *)
Definition number_char (c : ascii) : bool :=
  is_digit c || Ascii.eqb c "_" || Ascii.eqb c "." || Ascii.eqb (lower c) "e"
  || Ascii.eqb c "+" || Ascii.eqb c "-".

(** The letter [r] of the marker is in no text that converts. *)
Definition letter : ascii := "r".

End Decimal.

#[export] Instance decimal_conversions : Conversions := {|
  pyfloat := Decimal.literal;
  int := Decimal.py_int;
  float := Decimal.py_float
|}.

(** ** The parser *)

Section Parser.
Context {conv : Conversions}.

(** A cell of the table: the first field of a row is converted by [int],
    the others by [float]. *)
Inductive value : Type :=
| VInt (z : Z)
| VFloat (x : pyfloat).

(** What [pd.DataFrame(data, columns=columns)] holds: the column names and
    the rows, in the order given. *)
Record DataFrame : Type := {
  df_columns : list string;
  df_data : list (list value)
}.

Inductive conversion : Type := ToInt | ToFloat.

(** What a [ValueError] says: one of the two texts of the source, what
    [int] or [float] report about a field, or pandas about a list of rows
    that does not fit the column names. *)
Inductive message : Type :=
| Text (s : string)
| InvalidLiteral (c : conversion) (field : string)
| ShapeMismatch.

Inductive exn : Type :=
| ValueError (m : message)
| TypeError
| IndexError.

Inductive result (A : Type) : Type :=
| Ok (a : A)
| Raised (e : exn).
Arguments Ok {A} a.
Arguments Raised {A} e.

(** The lines the function prints. *)
Inductive diag : Type :=
| HeaderFound (line_number : nat) (columns : list string)
| SkippedCount (line_number : nat) (expected got : nat)
| SkippedInvalid (line_number : nat) (e : message).

(** The line number a printed line shows, and whether the line is about a
    skipped row. *)
Definition reported (d : diag) : nat :=
  match d with
  | HeaderFound n _ => n
  | SkippedCount n _ _ => n
  | SkippedInvalid n _ => n
  end.

Definition is_skip (d : diag) : bool :=
  match d with
  | HeaderFound _ _ => false
  | _ => true
  end.

(** The local variables of [read_and_parse_dat], the file iterator [f]
    (the lines not read yet) and what has been printed. *)
Record state : Type := mkState {
  f : list string;
  data : list (list value);
  columns : option (list string);
  in_data_section : bool;
  line_number : nat;
  stdout : list diag
}.

Definition initial (file : list string) : state :=
  {| f := file; data := []; columns := None; in_data_section := false;
     line_number := 0; stdout := [] |}.

Definition set_f (v : list string) (s : state) : state :=
  mkState v (data s) (columns s) (in_data_section s) (line_number s)
          (stdout s).

Definition set_columns (v : option (list string)) (s : state) : state :=
  mkState (f s) (data s) v (in_data_section s) (line_number s) (stdout s).

Definition set_in_data_section (v : bool) (s : state) : state :=
  mkState (f s) (data s) (columns s) v (line_number s) (stdout s).

Definition set_line_number (v : nat) (s : state) : state :=
  mkState (f s) (data s) (columns s) (in_data_section s) v (stdout s).

(** [data.append(row)] *)
Definition data_append (row : list value) (s : state) : state :=
  mkState (f s) (data s ++ [row]) (columns s) (in_data_section s)
          (line_number s) (stdout s).

(** [print(...)] *)
Definition print (d : diag) (s : state) : state :=
  mkState (f s) (data s) (columns s) (in_data_section s) (line_number s)
          (stdout s ++ [d]).

(** [next(f, None)], also what the [for] statement does to get a line. *)
Definition next (s : state) : option string * state :=
  match f s with
  | [] => (None, s)
  | line :: rest => (Some line, set_f rest s)
  end.

Definition marker : string := "Inner_Iter".

(** [[x.strip() for x in stripped_line.split('|') if x.strip()]], the
    comprehension that gives [columns] and [values]. *)
Definition fields (stripped_line : string) : list string :=
  filter truthy (map strip (split "|" stripped_line)).

(** [[float(val) for val in vals]]: the first field that [float] refuses
    raises. *)
Fixpoint floats (vals : list string) : result (list value) :=
  match vals with
  | [] => Ok []
  | val :: rest =>
      match float val with
      | None => Raised (ValueError (InvalidLiteral ToFloat val))
      | Some x =>
          match floats rest with
          | Ok xs => Ok (VFloat x :: xs)
          | Raised e => Raised e
          end
      end
  end.

(** [[int(values[0])] + [float(val) for val in values[1:]]] *)
Definition parsed_values (values : list string) : result (list value) :=
  match values with
  | [] => Raised IndexError
  | v0 :: rest =>
      match int v0 with
      | None => Raised (ValueError (InvalidLiteral ToInt v0))
      | Some z =>
          match floats rest with
          | Ok xs => Ok (VInt z :: xs)
          | Raised e => Raised e
          end
      end
  end.

(** The body of the [for] loop on one line: the state it leaves, and the
    exception that leaves the loop, if any. [len(columns)] raises a
    [TypeError] while [columns] is [None]; only a [ValueError] is caught. *)
Definition for_body (line : string) (s0 : state) : state * option exn :=
  let s := set_line_number (S (line_number s0)) s0 in
  let stripped_line := strip line in
  if contains marker stripped_line && negb (in_data_section s) then
    let cols := fields stripped_line in
    let s := set_columns (Some cols) s in
    let s := print (HeaderFound (line_number s) cols) s in
    let s := set_in_data_section true s in
    let s := snd (next s) in
    (s, None)
  else if in_data_section s then
    if negb (truthy stripped_line) || startswith "+" stripped_line then
      (s, None)
    else
      let values := fields stripped_line in
      match columns s with
      | None => (s, Some TypeError)
      | Some cols =>
          if negb (length values =? length cols)%nat then
            (print (SkippedCount (line_number s) (length cols)
                                 (length values)) s, None)
          else
            match parsed_values values with
            | Ok row => (data_append row s, None)
            | Raised (ValueError e) =>
                (print (SkippedInvalid (line_number s) e) s, None)
            | Raised e => (s, Some e)
            end
      end
  else (s, None).

(** [for line in f: ...]: ask the iterator for a line until it has none.
    [None] when the fuel runs out before the loop is left. *)
Fixpoint for_loop (fuel : nat) (s : state) : option (state * option exn) :=
  match fuel with
  | 0 => None
  | S fuel' =>
      match next s with
      | (None, s') => Some (s', None)
      | (Some line, s') =>
          match for_body line s' with
          | (s'', None) => for_loop fuel' s''
          | (s'', Some e) => Some (s'', Some e)
          end
      end
  end.

(** pandas takes rows that are as long as the list of column names; any
    other shape counts as refused here. *)
Definition pd_DataFrame (rows : list (list value)) (names : list string)
  : result DataFrame :=
  if forallb (fun row => (length row =? length names)%nat) rows
  then Ok {| df_columns := names; df_data := rows |}
  else Raised (ValueError ShapeMismatch).

Definition header_not_found : exn :=
  ValueError (Text "Header with 'Inner_Iter' not found.").

Definition no_valid_data : exn :=
  ValueError (Text "No valid data found after the header.").

(** The statements after the loop. *)
Definition after_loop (s : state) : result DataFrame :=
  match columns s with
  | None => Raised header_not_found
  | Some cols =>
      match data s with
      | [] => Raised no_valid_data
      | _ :: _ => pd_DataFrame (data s) cols
      end
  end.

(** A call of the function: what it printed, and what it returned or
    raised. *)
Record run : Type := {
  printed : list diag;
  outcome : result DataFrame
}.

Definition read_with (fuel : nat) (file : list string) : option run :=
  match for_loop fuel (initial file) with
  | None => None
  | Some (s, Some e) => Some {| printed := stdout s; outcome := Raised e |}
  | Some (s, None) => Some {| printed := stdout s; outcome := after_loop s |}
  end.

(** [read_and_parse_dat(file_path)], on the lines of the file. The loop
    gets one more unit of fuel than there are lines. *)
Definition read_and_parse_dat (file : list string) : option run :=
  read_with (S (length file)) file.

(** What a call returns or raises, and what it prints. *)
Definition result_of (file : list string) : option (result DataFrame) :=
  option_map outcome (read_and_parse_dat file).

Definition log_of (file : list string) : option (list diag) :=
  option_map printed (read_and_parse_dat file).

End Parser.


Arguments Ok {A} a.
Arguments Raised {A} e.

(** *** A log to run the parser on *)

Module Example.

(** A line as the file iterator gives it, with its end of line. *)
Definition eol (s : string) : string :=
  String.append s (String (ascii_of_nat 10) EmptyString).

Definition pre : list string :=
  map eol ["Solver log"; ""].

Definition hdr : string := eol "|  Inner_Iter|    rms[Rho]|".

Definition sep : string := eol "+---------------------------+".

Definition before : list string :=
  map eol ["|          0|   -1.548|"; "|          0|   -1.6e0|"].

Definition rule : string := eol "+---------------------------+".

Definition bad : string := eol "|          x|      bad|".

Definition after : list string :=
  map eol [""; "|   1 |   2 |   3 |"; "|          2|   -1.7|"].

Definition file : list string :=
  pre ++ hdr :: sep :: before ++ bad :: after.

Definition frame : DataFrame :=
  {| df_columns := ["Inner_Iter"; "rms[Rho]"];
     df_data := [[VInt 0; VFloat (Decimal.Finite true 1548 (-3))];
                 [VInt 0; VFloat (Decimal.Finite true 16 (-1))];
                 [VInt 2; VFloat (Decimal.Finite true 17 (-1))]] |}.

End Example.

(** ** Reading the input as the specification does

    The definitions of this section say what a line is for the parser
    without running the loop; the loop is proved to agree with them. *)

Section Reading.
Context {conv : Conversions}.

(** A line that has the marker in it. *)
Definition is_header (line : string) : bool := contains marker (strip line).

(** A line that is empty after trimming, or starts with [+] then. *)
Definition blank_or_rule (line : string) : bool :=
  negb (truthy (strip line)) || startswith "+" (strip line).

(** The fields of a line: split on [|], trimmed, empty pieces dropped. *)
Definition line_fields (line : string) : list string := fields (strip line).

Fixpoint all_floats (vals : list string) : option (list pyfloat) :=
  match vals with
  | [] => Some []
  | val :: rest =>
      match float val, all_floats rest with
      | Some x, Some xs => Some (x :: xs)
      | _, _ => None
      end
  end.

(** The row of a list of fields: the first converted to an integer, the
    others to floating-point numbers; [None] when one of them does not
    convert or when there is no field. *)
Definition convert (values : list string) : option (list value) :=
  match values with
  | [] => None
  | v0 :: rest =>
      match int v0, all_floats rest with
      | Some z, Some xs => Some (VInt z :: map VFloat xs)
      | _, _ => None
      end
  end.

(** A valid data row for the column names [cols]: a data line (neither
    blank nor a rule) with as many fields as there are names, all of which
    convert. *)
Definition valid_row (cols : list string) (line : string) : bool :=
  negb (blank_or_rule line)
  && (length (line_fields line) =? length cols)%nat
  && match convert (line_fields line) with Some _ => true | None => false end.

(** The row a line of the data section gives, if it gives one. *)
Definition row_of (cols : list string) (line : string)
  : option (list value) :=
  if valid_row cols line then convert (line_fields line) else None.

(** The rows of the lines of a data section, in the order of the lines. *)
Definition rows (cols : list string) (lines : list string)
  : list (list value) :=
  flat_map (fun line => match row_of cols line with
                        | Some row => [row]
                        | None => []
                        end) lines.

(** What is printed about a line of the data section when the line counter
    shows [n]: nothing for a blank line, a rule or a row. *)
Definition complaint (cols : list string) (n : nat) (line : string)
  : option diag :=
  if blank_or_rule line then None
  else if negb (length (line_fields line) =? length cols)%nat then
    Some (SkippedCount n (length cols) (length (line_fields line)))
  else match parsed_values (line_fields line) with
       | Raised (ValueError e) => Some (SkippedInvalid n e)
       | _ => None
       end.

(** What is printed about the lines of a data section read when the line
    counter shows [n]. *)
Fixpoint complaints (cols : list string) (n : nat) (lines : list string)
  : list diag :=
  match lines with
  | [] => []
  | line :: rest =>
      match complaint cols (S n) line with
      | Some d => d :: complaints cols (S n) rest
      | None => complaints cols (S n) rest
      end
  end.

(** No line of [lines] is a header line. *)
Definition no_header (lines : list string) : bool :=
  forallb (fun line => negb (is_header line)) lines.

(** The same with the test on the line as it is in the file. *)
Definition no_marker (lines : list string) : bool :=
  forallb (fun line => negb (contains marker line)) lines.

(** The line at a position of the input, counted from 1. *)
Definition line_at (file : list string) (pos : nat) : option string :=
  match pos with
  | 0 => None
  | S k => nth_error file k
  end.

(** A line whose number of fields is not the number of column names, or
    whose first field is not an integer, or one of whose later fields is
    not a floating-point number. *)
Definition malformed (cols : list string) (line : string) : Prop :=
  length (line_fields line) <> length cols
  \/ (exists v0 vs, line_fields line = v0 :: vs /\ int v0 = None)
  \/ (exists v0 vs v,
        line_fields line = v0 :: vs /\ In v vs /\ float v = None).

(** The table of a list of rows under column names, or the failure for no
    row. *)
Definition table (cols : list string) (rs : list (list value))
  : result DataFrame :=
  match rs with
  | [] => Raised no_valid_data
  | _ :: _ => Ok {| df_columns := cols; df_data := rs |}
  end.

(** The lines of [lines] with their positions in the input, when the
    first of them is at position [pos]. *)
Definition positioned (pos : nat) (lines : list string)
  : list (nat * string) :=
  combine (seq pos (length lines)) lines.

(** The input cut at its first header line: the lines before it, the
    header line and the lines after it. *)
Fixpoint split_at_header (file : list string)
  : option (list string * string * list string) :=
  match file with
  | [] => None
  | line :: rest =>
      if is_header line then Some ([], line, rest)
      else match split_at_header rest with
           | Some (pre, hdr, post) => Some (line :: pre, hdr, post)
           | None => None
           end
  end.

(** The table of a header line [hdr] followed by the lines [post], the
    first of which is the rule under the header. *)
Definition table_of (hdr : string) (post : list string) : result DataFrame :=
  table (line_fields hdr) (rows (line_fields hdr) (tl post)).

(** The parse as the specification describes it. *)
Definition parse (file : list string) : result DataFrame :=
  match split_at_header file with
  | None => Raised header_not_found
  | Some (_, hdr, post) => table_of hdr post
  end.

(** What the specified parse prints. *)
Definition parse_log (file : list string) : list diag :=
  match split_at_header file with
  | None => []
  | Some (pre, hdr, post) =>
      HeaderFound (S (length pre)) (line_fields hdr)
      :: complaints (line_fields hdr) (S (length pre)) (tl post)
  end.

(** The one row of a line, or none, and the one message about it. *)
Definition row_list (cols : list string) (line : string)
  : list (list value) :=
  match row_of cols line with
  | Some row => [row]
  | None => []
  end.

Definition complaint_list (cols : list string) (n : nat) (line : string)
  : list diag :=
  match complaint cols n line with
  | Some d => [d]
  | None => []
  end.

(** The state the loop leaves on the lines [file], from the state [s]
    that still looks for the header. *)
Definition final_state (s : state) (file : list string) : state :=
  match split_at_header file with
  | None =>
      mkState [] (data s) None false (line_number s + length file) (stdout s)
  | Some (pre, hdr, post) =>
      let n := line_number s + S (length pre) in
      mkState [] (data s ++ rows (line_fields hdr) (tl post))
              (Some (line_fields hdr)) true (n + length (tl post))
              (stdout s ++ HeaderFound n (line_fields hdr)
                        :: complaints (line_fields hdr) n (tl post))
  end.

End Reading.

(** *** Further readings of a log *)

Section Messages.
Context {conv : Conversions}.

(** A printed line with its line number moved up by [k]. *)
Definition shift (k : nat) (d : diag) : diag :=
  match d with
  | HeaderFound n cols => HeaderFound (k + n) cols
  | SkippedCount n expected got => SkippedCount (k + n) expected got
  | SkippedInvalid n e => SkippedInvalid (k + n) e
  end.

(** A column name as the parser leaves it: not empty, without [|], and
    without white space at either end. *)
Definition clean_name (name : string) : bool :=
  truthy name && free_of "|" name && starts_solid name && ends_solid name.

End Messages.

(** ** The plots of read.py

    [plot_data] draws every column but [Inner_Iter] in a subplot of its
    own. A figure is modelled by the subplots made for it, each with the
    calls made on it, and by the list of those still in the figure. *)

Module Plot.
Section Plotting.
Context {conv : Conversions}.

(** What the plotting code raises: [sys.exit], the missing attribute
    [flatten], the missing column, the modulo by the length of an empty
    color cycle, and what matplotlib and the indexing of the subplots can
    raise on a grid without rows or columns. *)
Inductive plot_exn : Type :=
| SystemExit (code : nat)
| AttributeError
| KeyError (key : string)
| ZeroDivisionError
| SubplotsValueError
| AxesIndexError.

(** A call [ax.plot(df[x], df[y], color=..., label=...)]. *)
Record plot_call : Type := {
  x_of : string;
  y_of : string;
  color : string;
  label : string
}.

Inductive scale : Type := Linear | Log.

(** A subplot: the calls made on it. *)
Record axes : Type := mkAxes {
  plots : list plot_call;
  yscale : scale;
  ylabel : option string;
  title : option string;
  xlabel : option string;
  legend : bool;
  grid : bool
}.

Definition new_axes : axes :=
  mkAxes [] Linear None None None false false.

Definition ax_plot (c : plot_call) (a : axes) : axes :=
  mkAxes (plots a ++ [c]) (yscale a) (ylabel a) (title a) (xlabel a)
         (legend a) (grid a).

Definition ax_set_yscale (v : scale) (a : axes) : axes :=
  mkAxes (plots a) v (ylabel a) (title a) (xlabel a) (legend a) (grid a).

Definition ax_set_ylabel (v : string) (a : axes) : axes :=
  mkAxes (plots a) (yscale a) (Some v) (title a) (xlabel a) (legend a)
         (grid a).

Definition ax_set_title (v : string) (a : axes) : axes :=
  mkAxes (plots a) (yscale a) (ylabel a) (Some v) (xlabel a) (legend a)
         (grid a).

Definition ax_set_xlabel (v : string) (a : axes) : axes :=
  mkAxes (plots a) (yscale a) (ylabel a) (title a) (Some v) (legend a)
         (grid a).

Definition ax_legend (a : axes) : axes :=
  mkAxes (plots a) (yscale a) (ylabel a) (title a) (xlabel a) true (grid a).

Definition ax_grid (v : bool) (a : axes) : axes :=
  mkAxes (plots a) (yscale a) (ylabel a) (title a) (xlabel a) (legend a) v.

(** A figure: the subplots made for it, which a number names from then
    on, and [fig.axes], the numbers of those still in the figure. *)
Record figure : Type := {
  made : list axes;
  fig_axes : list nat
}.

Fixpoint update_nth {A : Type} (i : nat) (g : A -> A) (l : list A)
  : list A :=
  match l, i with
  | [], _ => []
  | a :: l', 0 => g a :: l'
  | a :: l', S i' => a :: update_nth i' g l'
  end.

(** A method call on the subplot [ax]. *)
Definition on (ax : nat) (g : axes -> axes) (fig : figure) : figure :=
  {| made := update_nth ax g (made fig); fig_axes := fig_axes fig |}.

(** [fig.delaxes(ax)] *)
Definition delaxes (ax : nat) (fig : figure) : figure :=
  {| made := made fig;
     fig_axes := filter (fun a => negb (a =? ax)%nat) (fig_axes fig) |}.

(** What the name [axes] is bound to in [plot_data]: one subplot, an
    array of them with one or two dimensions, or a Python list. *)
#[warnings="-register-all"]
Inductive axes_value : Type :=
| AxesObject (ax : nat)
| Array1 (l : list nat)
| Array2 (ll : list (list nat))
| PyList (l : list axes_value).

(** [plt.subplots(nrows, ncols, ...)]: the subplots are made row by
    row; a single one is returned as it is, one row or one column as an
    array of one dimension, a grid as an array of two. *)
Definition subplots (nrows ncols : nat) : plot_exn + figure * axes_value :=
  if ((nrows =? 0) || (ncols =? 0))%nat then inl SubplotsValueError
  else
    let n := nrows * ncols in
    let fig := {| made := repeat new_axes n; fig_axes := seq 0 n |} in
    inr (fig,
         if ((nrows =? 1) && (ncols =? 1))%nat then AxesObject 0
         else if ((nrows =? 1) || (ncols =? 1))%nat then Array1 (seq 0 n)
         else Array2 (map (fun r => seq (r * ncols) ncols) (seq 0 nrows))).

(** [axes.flatten()]: arrays have it, a list or a subplot does not. *)
Definition flatten (v : axes_value) : plot_exn + list nat :=
  match v with
  | Array1 l => inr l
  | Array2 ll => inr (concat ll)
  | AxesObject _ => inl AttributeError
  | PyList _ => inl AttributeError
  end.

(** [l[a:b]] *)
Definition slice {A : Type} (a b : nat) (l : list A) : list A :=
  firstn (b - a) (skipn a l).

(** [math.ceil(n / 2)]; the division is exact for the numbers of columns
    a table can have. *)
Definition ceil_half (n : nat) : nat := Nat.div2 (S n).

Definition inner_iter : string := "Inner_Iter".

(** [[col for col in df.columns if col != 'Inner_Iter']] *)
Definition columns_to_plot (df : DataFrame) : list string :=
  filter (fun col => negb (String.eqb col inner_iter)) (df_columns df).

(** The lines [plot_data] prints. *)
Inductive plot_msg : Type :=
| NoColumnsToPlot
| PlottingColumns (cols : list string).

(** The loop [for i, col in enumerate(columns_to_plot)], from the index
    [i] on. [df['Inner_Iter']] raises when the table has no such column,
    and is looked up before the color. *)
Fixpoint plot_columns (df : DataFrame) (log_scale : bool)
    (flat : list nat) (colors : list string) (i : nat) (cols : list string)
    (fig : figure) : plot_exn + figure :=
  match cols with
  | [] => inr fig
  | col :: rest =>
      match nth_error flat i with
      | None => inl AxesIndexError
      | Some ax =>
          if negb (existsb (String.eqb inner_iter) (df_columns df)) then
            inl (KeyError inner_iter)
          else
            match colors with
            | [] => inl ZeroDivisionError
            | _ :: _ =>
                let c := nth (i mod length colors) colors EmptyString in
                let fig :=
                  on ax (ax_plot {| x_of := inner_iter; y_of := col;
                                    color := c; label := col |}) fig in
                let fig :=
                  if log_scale then on ax (ax_set_yscale Log) fig
                  else fig in
                let fig := on ax (ax_set_ylabel col) fig in
                let fig :=
                  on ax (ax_set_title (String.append col " vs Inner_Iter"))
                     fig in
                let fig := on ax ax_legend fig in
                let fig := on ax (ax_grid true) fig in
                plot_columns df log_scale flat colors (S i) rest fig
            end
      end
  end.

(** [for ax in bottom_axes: if ax in fig.axes: ax.set_xlabel(...)] *)
Definition label_bottom (bottom : list nat) (fig : figure) : figure :=
  fold_left (fun fg ax =>
               if existsb (Nat.eqb ax) (fig_axes fg)
               then on ax (ax_set_xlabel inner_iter) fg
               else fg)
            bottom fig.

(** [for j in range(first, stop): fig.delaxes(axes[j])] *)
Fixpoint remove_unused (flat : list nat) (js : list nat) (fig : figure)
  : plot_exn + figure :=
  match js with
  | [] => inr fig
  | j :: rest =>
      match nth_error flat j with
      | None => inl AxesIndexError
      | Some ax => remove_unused flat rest (delaxes ax fig)
      end
  end.

(** [range(a, b)] *)
Definition range (a b : nat) : list nat := seq a (b - a).

(** [plot_data(df, log_scale)] with the color cycle [colors] of
    matplotlib: the lines it prints, and the figure it shows or what it
    raises. *)
Definition plot_data (colors : list string) (df : DataFrame)
    (log_scale : bool) : list plot_msg * (plot_exn + figure) :=
  let cols := columns_to_plot df in
  match cols with
  | [] => ([NoColumnsToPlot], inl (SystemExit 1))
  | _ :: _ =>
      let out := [PlottingColumns cols] in
      let n_plots := length cols in
      let (n_rows, max_cols) :=
        if (n_plots <=? 2)%nat then (1, n_plots)
        else (2, ceil_half n_plots) in
      match subplots n_rows max_cols with
      | inl e => (out, inl e)
      | inr (fig, axs) =>
          let axs :=
            if (n_rows =? 1)%nat then
              if (n_plots =? 1)%nat then PyList [axs] else axs
            else axs in
          match flatten axs with
          | inl e => (out, inl e)
          | inr flat =>
              match plot_columns df log_scale flat colors 0 cols fig with
              | inl e => (out, inl e)
              | inr fig =>
                  let i := n_plots - 1 in
                  let bottom :=
                    if (n_rows =? 1)%nat then flat
                    else slice ((n_rows - 1) * max_cols)
                               (n_rows * max_cols) flat in
                  let fig := label_bottom bottom fig in
                  match remove_unused flat
                          (range (i + 1) (n_rows * max_cols)) fig with
                  | inl e => (out, inl e)
                  | inr fig => (out, inr fig)
                  end
              end
          end
      end
  end.

(** *** Reading a figure *)

(** All that one turn of the plotting loop does to the subplot of the
    column [col] at index [i]. *)
Definition draw (log_scale : bool) (colors : list string) (i : nat)
    (col : string) (a : axes) : axes :=
  ax_grid true
    (ax_legend
       (ax_set_title (String.append col " vs Inner_Iter")
          (ax_set_ylabel col
             ((if log_scale then ax_set_yscale Log else fun x => x)
                (ax_plot {| x_of := inner_iter; y_of := col;
                            color := nth (i mod length colors) colors
                                         EmptyString;
                            label := col |} a))))).

(** The number of subplots made for [n] columns. *)
Definition total_axes (n : nat) : nat :=
  if (n <=? 2)%nat then n else 2 * ceil_half n.

(** Whether the subplot [k] is in the bottom row of the grid made for
    [n] columns. *)
Definition in_bottom_row (n k : nat) : bool :=
  if (n <=? 2)%nat then true else (ceil_half n <=? k)%nat.

(** The subplot at which the bottom row starts. *)
Definition bottom_start (n : nat) : nat :=
  if (n <=? 2)%nat then 0 else ceil_half n.

(** The color of the first line plotted in the subplot [i]. *)
Definition line_color (fig : figure) (i : nat) : option string :=
  match nth_error (made fig) i with
  | Some a => option_map color (hd_error (plots a))
  | None => None
  end.

(** The label under the subplot [i], if it has one. *)
Definition xlabel_of (fig : figure) (i : nat) : option string :=
  match nth_error (made fig) i with
  | Some a => xlabel a
  | None => None
  end.

(** The subplot [k] as [plot_data] leaves it for the columns [cols]. *)
Definition final_axes (log_scale : bool) (colors : list string)
    (cols : list string) (k : nat) : axes :=
  (if in_bottom_row (length cols) k then ax_set_xlabel inner_iter
   else fun x => x)
    ((if (k <? length cols)%nat
      then draw log_scale colors k (nth k cols EmptyString)
      else fun x => x) new_axes).

End Plotting.
End Plot.

(** ** The script of read.py

    The statements after the two functions: the arguments, the test that
    the file is there, the parse and the plot under one [try]. *)

Module Script.
Section Script.
Context {conv : Conversions}.

(** What is at a path: nothing that [os.path.isfile] accepts, a file that
    cannot be opened or read, or a file with its lines. *)
Inductive file_state : Type :=
| Absent
| Unreadable
| Content (lines : list string).

(** An exception that [except Exception] catches. *)
Inductive caught : Type :=
| OSError
| ParseError (e : exn)
| PlotError (e : Plot.plot_exn).

(** The lines the script prints. *)
Inductive line : Type :=
| NotFound (file_path : string)
| ReadingFile (file_path : string)
| FromParser (d : diag)
| FirstRows
| Head (rows : list (list value))
| FromPlot (m : Plot.plot_msg)
| ErrorProcessing (e : caught).

(** How a run of the script ends: what it printed, the exit status of
    the process and the figure shown, if one was. *)
Record ending : Type := {
  out : list line;
  status : nat;
  shown : option Plot.figure
}.

Definition default_file : string := "screen.dat".

(** [sys.argv[1] if len(sys.argv) > 1 else default_file] *)
Definition file_path (argv : list string) : string :=
  if (1 <? length argv)%nat then nth 1 argv EmptyString else default_file.

(** ['--log' in sys.argv[2:]] *)
Definition log_scale (argv : list string) : bool :=
  existsb (String.eqb "--log") (skipn 2 argv).

(** The [try] statement on the lines of the file: [sys.exit] passes
    through [except Exception], every other exception is printed.
    [df.head()] is the first five rows. [None] when the parser is out of
    fuel. *)
Definition process (colors : list string) (log : bool)
    (path : string) (lines : list string) : option ending :=
  match read_and_parse_dat lines with
  | None => None
  | Some r =>
      let out := ReadingFile path :: map FromParser (printed r) in
      match outcome r with
      | Raised e =>
          Some {| out := out ++ [ErrorProcessing (ParseError e)];
                  status := 0; shown := None |}
      | Ok df =>
          let out := out ++ [FirstRows; Head (firstn 5 (df_data df))] in
          let (msgs, res) := Plot.plot_data colors df log in
          let out := out ++ map FromPlot msgs in
          match res with
          | inr fig => Some {| out := out; status := 0; shown := Some fig |}
          | inl (Plot.SystemExit code) =>
              Some {| out := out; status := code; shown := None |}
          | inl e =>
              Some {| out := out ++ [ErrorProcessing (PlotError e)];
                      status := 0; shown := None |}
          end
      end
  end.

(** The script, run with the arguments [argv] (the name of the script
    first) on the files [fs] and with the color cycle [colors]. *)
Definition main (fs : string -> file_state) (colors : list string)
    (argv : list string) : option ending :=
  let path := file_path argv in
  match fs path with
  | Absent => Some {| out := [NotFound path]; status := 1; shown := None |}
  | Unreadable =>
      Some {| out := [ReadingFile path; ErrorProcessing OSError];
              status := 0; shown := None |}
  | Content lines => process colors (log_scale argv) path lines
  end.

End Script.
End Script.

(** ** Python dicts *)

Module PyDict.

(** A Python [dict] with texts as keys: the items in the order the keys
    came in. *)
Definition dict (V : Type) : Type := list (string * V).

(** [d[k] = v] *)
Fixpoint dict_set {V : Type} (k : string) (v : V) (d : dict V) : dict V :=
  match d with
  | [] => [(k, v)]
  | (k', v') :: d' =>
      if String.eqb k' k then (k, v) :: d' else (k', v') :: dict_set k v d'
  end.

(** [d[k]], [None] for the [KeyError]. *)
Fixpoint dict_get {V : Type} (k : string) (d : dict V) : option V :=
  match d with
  | [] => None
  | (k', v') :: d' => if String.eqb k' k then Some v' else dict_get k d'
  end.

End PyDict.

(** ** The script analyze_surface_file.py

    The script loads a [surface.csv] from every subdirectory, and makes a
    figure with one trace per variable and subdirectory and one button per
    variable. Of a table only the column names matter to it, so a table is
    its list of column names. *)

Module Surface.
Import PyDict.

(** What is at [subdir/surface.csv]: nothing, a file that [pd.read_csv]
    raises on, or a table with its columns and with the columns of
    [df.groupby('x').mean()], if that does not raise. *)
Inductive csv : Type :=
| NoFile
| Unreadable
| Frame (columns : list string) (means : option (list string)).

Inductive exn : Type :=
| KeyError (key : string)
| IndexError.

(** The lines the script prints. *)
Inductive msg : Type :=
| WarningNoX (subdir : string)
| ErrorReading (subdir : string)
| NoDataFound
| NoVariablesFound
| PlotSaved.

(** The first loop on one subdirectory: [reset_index] puts the column
    [x] back in front of the means. *)
Definition load_one (env : string -> csv)
    (st : dict (list string) * list msg) (subdir : string)
  : dict (list string) * list msg :=
  let (data, out) := st in
  match env subdir with
  | NoFile => (data, out)
  | Unreadable => (data, out ++ [ErrorReading subdir])
  | Frame columns means =>
      if existsb (String.eqb "x") columns then
        match means with
        | Some cols => (dict_set subdir ("x" :: cols) data, out)
        | None => (data, out ++ [ErrorReading subdir])
        end
      else (data, out ++ [WarningNoX subdir])
  end.

Definition load (env : string -> csv) (subdirs : list string)
  : dict (list string) * list msg :=
  fold_left (load_one env) subdirs ([], []).

(** [s.replace(old, new)] for a text [old] that is not empty: the
    occurrences are taken from left to right and do not overlap; [skip]
    counts the characters of an occurrence still to pass. *)
Fixpoint replace_from (old new : string) (skip : nat) (s : string)
  : string :=
  match s with
  | EmptyString => EmptyString
  | String c s' =>
      match skip with
      | S k => replace_from old new k s'
      | 0 =>
          if startswith old s
          then String.append new
                 (replace_from old new (String.length old - 1) s')
          else String c (replace_from old new 0 s')
      end
  end.

Definition replace (old new s : string) : string := replace_from old new 0 s.

(** A trace [go.Scatter(x=..., y=..., name=..., visible=...)]: the
    columns are named by subdirectory and column name. *)
Record trace : Type := {
  x_of : string * string;
  y_of : string * string;
  name : string;
  visible : bool
}.

(** The loop over the subdirectories for one variable. *)
Fixpoint add_traces (data : dict (list string)) (var_idx : nat)
    (variable : string) (subdirs : list string) (traces : list trace)
  : exn + list trace :=
  match subdirs with
  | [] => inr traces
  | subdir :: rest =>
      match dict_get subdir data with
      | None => inl (KeyError subdir)
      | Some cols =>
          if existsb (String.eqb variable) cols then
            if existsb (String.eqb "x") cols then
              add_traces data var_idx variable rest
                (traces ++ [{| x_of := (subdir, "x");
                               y_of := (subdir, variable);
                               name := replace "wedge_" "" subdir;
                               visible := (var_idx =? 0)%nat |}])
            else inl (KeyError "x")
          else add_traces data var_idx variable rest traces
      end
  end.

(** The loop over the variables, from the index [var_idx] on. *)
Fixpoint add_all_traces (data : dict (list string)) (subdirs : list string)
    (var_idx : nat) (variables : list string) (traces : list trace)
  : exn + list trace :=
  match variables with
  | [] => inr traces
  | variable :: rest =>
      match add_traces data var_idx variable subdirs traces with
      | inl e => inl e
      | inr traces' => add_all_traces data subdirs (S var_idx) rest traces'
      end
  end.

(** [l[i] = v], [None] for the [IndexError]. *)
Fixpoint list_set {A : Type} (i : nat) (v : A) (l : list A)
  : option (list A) :=
  match l, i with
  | [], _ => None
  | _ :: l', 0 => Some (v :: l')
  | a :: l', S i' => option_map (cons a) (list_set i' v l')
  end.

(** [for i in range(...): visible_list[i] = True] *)
Fixpoint set_visible (idxs : list nat) (l : list bool)
  : exn + list bool :=
  match idxs with
  | [] => inr l
  | i :: rest =>
      match list_set i true l with
      | None => inl IndexError
      | Some l' => set_visible rest l'
      end
  end.

(** [var_labels], with the code point 178 for the raised 2. *)
Definition var_labels : dict string :=
  [("Heat_Flux",
    String.append "Heat Flux (W/m"
                  (String (ascii_of_nat 178) (String ")" EmptyString)));
   ("Temperature_tr", "Temperature (K)");
   ("Pressure", "Pressure (Pa)")].

(** [var_labels.get(variable, variable)] *)
Definition var_label (variable : string) : string :=
  match dict_get variable var_labels with
  | Some l => l
  | None => variable
  end.

Record button : Type := {
  label : string;
  shows : list bool;
  title : string;
  yaxis_title : string
}.

Definition comparison_title (variable : string) : string :=
  String.append variable " Comparison Across Simulations".

(** The loop that makes the buttons, from the index [var_idx] on. *)
Fixpoint add_buttons (n_subdirs total_traces : nat) (var_idx : nat)
    (variables : list string) (buttons : list button)
  : exn + list button :=
  match variables with
  | [] => inr buttons
  | variable :: rest =>
      let start_idx := var_idx * n_subdirs in
      let end_idx := start_idx + n_subdirs in
      match set_visible (seq start_idx (end_idx - start_idx))
                        (repeat false total_traces) with
      | inl e => inl e
      | inr visible_list =>
          add_buttons n_subdirs total_traces (S var_idx) rest
            (buttons ++ [{| label := variable;
                            shows := visible_list;
                            title := comparison_title variable;
                            yaxis_title := var_label variable |}])
      end
  end.

(** The figure written to [interactive_plot.html]. *)
Record figure : Type := {
  traces : list trace;
  buttons : list button;
  fig_title : string;
  fig_yaxis_title : string
}.

(** How the script ends: by [exit()], by an exception or with the figure
    written. *)
Inductive ending : Type :=
| Exited
| Raised (e : exn)
| Written (fig : figure).

(** The script on the subdirectories [subdirs] of the working directory. *)
Definition script (env : string -> csv) (subdirs : list string)
  : list msg * ending :=
  let (data, out) := load env subdirs in
  match data with
  | [] => (out ++ [NoDataFound], Exited)
  | (_, first_df) :: _ =>
      let variables :=
        filter (fun col => negb (String.eqb col "x")) first_df in
      match variables with
      | [] => (out ++ [NoVariablesFound], Exited)
      | first_variable :: _ =>
          match add_all_traces data subdirs 0 variables [] with
          | inl e => (out, Raised e)
          | inr trs =>
              let total_traces := length subdirs * length variables in
              match add_buttons (length subdirs) total_traces 0 variables
                                [] with
              | inl e => (out, Raised e)
              | inr bts =>
                  (out ++ [PlotSaved],
                   Written {| traces := trs; buttons := bts;
                              fig_title := comparison_title first_variable;
                              fig_yaxis_title := var_label first_variable |})
              end
          end
      end
  end.

(** *** Reading the script *)

(** The table the first loop keeps for a subdirectory, if it keeps one. *)
Definition loaded (env : string -> csv) (subdir : string)
  : option (list string) :=
  match env subdir with
  | Frame columns (Some cols) =>
      if existsb (String.eqb "x") columns then Some ("x" :: cols) else None
  | _ => None
  end.

(** The variables: the columns but [x] of the first table kept. *)
Definition variables_of (env : string -> csv) (subdirs : list string)
  : list string :=
  match flat_map (fun s => match loaded env s with
                           | Some cols => [cols]
                           | None => []
                           end) subdirs with
  | [] => []
  | first_df :: _ => filter (fun col => negb (String.eqb col "x")) first_df
  end.

(** The trace of a variable and a subdirectory. *)
Definition trace_of (var_idx : nat) (variable subdir : string) : trace :=
  {| x_of := (subdir, "x");
     y_of := (subdir, variable);
     name := replace "wedge_" "" subdir;
     visible := (var_idx =? 0)%nat |}.

(** Whether the table in the dict for [subdir] has the column. *)
Definition in_frame (data : dict (list string)) (variable subdir : string)
  : bool :=
  match dict_get subdir data with
  | Some cols => existsb (String.eqb variable) cols
  | None => false
  end.

(** Whether the table kept for [subdir] has the column. *)
Definition has_column (env : string -> csv) (subdir variable : string)
  : bool :=
  match loaded env subdir with
  | Some cols => existsb (String.eqb variable) cols
  | None => false
  end.

(** The traces of one variable, and of the variables numbered from
    [var_idx] on. *)
Definition traces_of (data : dict (list string)) (subdirs : list string)
    (var_idx : nat) (variable : string) : list trace :=
  flat_map (fun subdir =>
              if in_frame data variable subdir
              then [trace_of var_idx variable subdir] else [])
           subdirs.

Fixpoint all_traces (data : dict (list string)) (subdirs : list string)
    (var_idx : nat) (variables : list string) : list trace :=
  match variables with
  | [] => []
  | variable :: rest =>
      traces_of data subdirs var_idx variable
      ++ all_traces data subdirs (S var_idx) rest
  end.

End Surface.

(** ** The function of heat_flux_plotter.py

    [process_simulation_directories] goes through the entries of a
    directory in sorted order, plots the heat flux of every [surface.csv]
    found in a directory named [wedge_r...] and keeps a summary of each.
    The numbers [np.mean] and [np.max] give are of a type [num] left
    open. *)

Module StringOrder <: Orders.TotalLeBool.
Definition t : Type := string.
Definition leb : t -> t -> bool := String.leb.
Definition leb_total : forall x y, leb x y = true \/ leb y x = true :=
  String.leb_total.
End StringOrder.

(** [sorted] on a list of texts. *)
Module StringSort := Mergesort.Sort StringOrder.

Module HeatFlux.
Import PyDict.
Section HeatFlux.
Variable num : Type.

(** What [pd.read_csv] gives for a [surface.csv]: an exception, or a
    table with its columns, the mean and the maximum of its column
    [Heat_Flux] when numpy can compute them, its number of rows, and
    whether [plt.plot] takes its data. *)
Inductive csv : Type :=
| Unreadable
| Frame (columns : list string) (stats : option (num * num))
        (points : nat) (plots : bool).

(** An entry of the base directory: whether it is a directory, whether
    its listing has [surface.csv], and what that file reads as. *)
Record entry : Type := {
  is_dir : bool;
  has_csv : bool;
  file : csv
}.

Inductive exn : Type := UnboundLocalError.

(** The lines the function prints. *)
Inductive msg : Type :=
| ErrorProcessing (dir_name : string)
| PlotSavedAs
| SummarySavedAs.

(** A call [plt.plot(x_data, df['Heat_Flux'], label=dir_name, ...)]:
    [x_data] is the index of the table or one of its columns. *)
Record line : Type := {
  x_data : option string;
  label : string
}.

(** A row of the summary: mean, maximum and number of points. *)
Definition summary_row : Type := (num * num * nat)%type.

(** The local variables of the function that the loop changes. *)
Record state : Type := mkState {
  x_label : option string;
  data_summary : dict summary_row;
  lines : list line;
  out : list msg
}.

Definition starts_wedge_r (dir_name : string) : bool :=
  startswith "wedge_r" dir_name.

Definition has (col : string) (columns : list string) : bool :=
  existsb (String.eqb col) columns.

(** The body of the loop for one entry. The label of the horizontal axis
    is set before the summary is computed, so it stays set when the
    summary or the plot raises. *)
Definition body (env : string -> entry) (x_variable : string)
    (st : state) (dir_name : string) : state :=
  if is_dir (env dir_name) && starts_wedge_r dir_name
     && has_csv (env dir_name)
  then
    match file (env dir_name) with
    | Unreadable =>
        mkState (x_label st) (data_summary st) (lines st)
                (out st ++ [ErrorProcessing dir_name])
    | Frame columns stats points plots =>
        if has "Heat_Flux" columns then
          let by_index :=
            String.eqb x_variable "index" || negb (has x_variable columns) in
          let x := if by_index then None else Some x_variable in
          let lbl := if by_index then "Surface Point Index"
                     else x_variable in
          match stats with
          | None =>
              mkState (Some lbl) (data_summary st) (lines st)
                      (out st ++ [ErrorProcessing dir_name])
          | Some (mean, max) =>
              let summary :=
                dict_set dir_name (mean, max, points) (data_summary st) in
              if plots then
                mkState (Some lbl) summary
                        (lines st ++ [{| x_data := x; label := dir_name |}])
                        (out st)
              else
                mkState (Some lbl) summary (lines st)
                        (out st ++ [ErrorProcessing dir_name])
          end
        else st
    end
  else st.

(** What the function leaves when it returns: the label of the
    horizontal axis, the lines plotted and the rows of the summary
    written, in their order. *)
Record saved : Type := {
  xlabel : string;
  plotted : list line;
  summary : dict summary_row
}.

(** [process_simulation_directories(base_path, x_variable)] on the
    entries [names] of the base directory: [plt.xlabel(x_label)] raises
    when the loop never set the label. *)
Definition process_simulation_directories (env : string -> entry)
    (names : list string) (x_variable : string)
  : list msg * (exn + saved) :=
  let st := fold_left (body env x_variable) (StringSort.sort names)
                      (mkState None [] [] []) in
  match x_label st with
  | None => (out st, inl UnboundLocalError)
  | Some lbl =>
      (out st ++ [PlotSavedAs; SummarySavedAs],
       inr {| xlabel := lbl; plotted := lines st;
              summary := data_summary st |})
  end.

(** [main()] *)
Definition main (env : string -> entry) (names : list string)
  : list msg * (exn + saved) :=
  process_simulation_directories env names "index".

(** *** Reading the function *)

(** The entry gets as far as the choice of the horizontal axis. *)
Definition reaches (env : string -> entry) (dir_name : string) : bool :=
  is_dir (env dir_name) && starts_wedge_r dir_name && has_csv (env dir_name)
  && match file (env dir_name) with
     | Frame columns _ _ _ => has "Heat_Flux" columns
     | Unreadable => false
     end.

(** The entry gets a row in the summary. *)
Definition summarised (env : string -> entry) (dir_name : string) : bool :=
  reaches env dir_name
  && match file (env dir_name) with
     | Frame _ (Some _) _ _ => true
     | _ => false
     end.

(** The row of an entry. *)
Definition row_of (env : string -> entry) (dir_name : string)
  : option summary_row :=
  match file (env dir_name) with
  | Frame _ (Some (mean, max)) points _ => Some (mean, max, points)
  | _ => None
  end.

(** Whether the table of an entry is plotted against its index. *)
Definition by_index (env : string -> entry) (x_variable dir_name : string)
  : bool :=
  match file (env dir_name) with
  | Frame columns _ _ _ =>
      String.eqb x_variable "index" || negb (has x_variable columns)
  | Unreadable => true
  end.

(** The label the loop sets for an entry that gets that far. *)
Definition label_for (env : string -> entry) (x_variable dir_name : string)
  : string :=
  if by_index env x_variable dir_name then "Surface Point Index"
  else x_variable.

(** The line of an entry, and whether the entry gets one. *)
Definition line_of (env : string -> entry) (x_variable dir_name : string)
  : line :=
  {| x_data := if by_index env x_variable dir_name then None
               else Some x_variable;
     label := dir_name |}.

Definition drawn (env : string -> entry) (dir_name : string) : bool :=
  summarised env dir_name
  && match file (env dir_name) with
     | Frame _ _ _ plots => plots
     | Unreadable => false
     end.

End HeatFlux.
End HeatFlux.

(** *** Directories to run the two other scripts on *)

Module DirExample.

Definition subdirs : list string := ["wedge_r1"; "wedge_r2"].

(** Both directories have the same columns. *)
Definition same (subdir : string) : Surface.csv :=
  if String.eqb subdir "wedge_r1" || String.eqb subdir "wedge_r2"
  then Surface.Frame ["x"; "Heat_Flux"; "Pressure"]
                     (Some ["Heat_Flux"; "Pressure"])
  else Surface.NoFile.

(** The second directory has no pressure. *)
Definition uneven (subdir : string) : Surface.csv :=
  if String.eqb subdir "wedge_r1"
  then Surface.Frame ["x"; "Heat_Flux"; "Pressure"]
                     (Some ["Heat_Flux"; "Pressure"])
  else if String.eqb subdir "wedge_r2"
  then Surface.Frame ["x"; "Heat_Flux"] (Some ["Heat_Flux"])
  else Surface.NoFile.

(** The entries of a base directory, with whole numbers for the mean and
    the maximum. *)
Definition names : list string := ["wedge_r2"; "notes.txt"; "wedge_r1"].

Definition entries (dir_name : string) : HeatFlux.entry Z :=
  if String.eqb dir_name "wedge_r1" then
    {| HeatFlux.is_dir := true; HeatFlux.has_csv := true;
       HeatFlux.file :=
         HeatFlux.Frame Z ["x"; "Heat_Flux"] (Some (10, 20)%Z) 3 true |}
  else if String.eqb dir_name "wedge_r2" then
    {| HeatFlux.is_dir := true; HeatFlux.has_csv := true;
       HeatFlux.file :=
         HeatFlux.Frame Z ["Heat_Flux"] (Some (11, 21)%Z) 5 true |}
  else
    {| HeatFlux.is_dir := false; HeatFlux.has_csv := false;
       HeatFlux.file := HeatFlux.Unreadable Z |}.

(** What the function leaves on these entries, asked for the column
    [x] and asked for the index. *)
Definition saved_x : HeatFlux.saved Z :=
  Eval vm_compute in
    match snd (HeatFlux.process_simulation_directories Z entries names "x")
    with
    | inr r => r
    | inl _ => {| HeatFlux.xlabel := EmptyString; HeatFlux.plotted := [];
                  HeatFlux.summary := [] |}
    end.

Definition saved_index : HeatFlux.saved Z :=
  Eval vm_compute in
    match snd (HeatFlux.main Z entries names) with
    | inr r => r
    | inl _ => {| HeatFlux.xlabel := EmptyString; HeatFlux.plotted := [];
                  HeatFlux.summary := [] |}
    end.

End DirExample.

(** *** A table and a run to plot *)

Module PlotExample.
Import Plot Script.

(** The first colors of matplotlib's default cycle. *)
Definition colors : list string := ["#1f77b4"; "#ff7f0e"].

Definition lines : list string :=
  ["|  Inner_Iter|  rms[Rho]|  rms[RhoE]|  CL|";
   "+-------------------------------------+";
   "|  0|  -1.5|  2.5|  0.1|";
   "|  1|  -1.6|  2.4|  0.2|"].

Definition frame : DataFrame :=
  {| df_columns := ["Inner_Iter"; "rms[Rho]"; "rms[RhoE]"; "CL"];
     df_data := [[VInt 0; VFloat (Decimal.Finite true 15 (-1));
                  VFloat (Decimal.Finite false 25 (-1));
                  VFloat (Decimal.Finite false 1 (-1))];
                 [VInt 1; VFloat (Decimal.Finite true 16 (-1));
                  VFloat (Decimal.Finite false 24 (-1));
                  VFloat (Decimal.Finite false 2 (-1))]] |}.

(** The figure [plot_data] shows for this table. *)
Definition fig : figure :=
  Eval vm_compute in
    match snd (plot_data colors frame true) with
    | inr shown => shown
    | inl _ => {| made := []; fig_axes := [] |}
    end.

(** A log whose header has the marker inside a longer name only. *)
Definition other_lines : list string :=
  ["log of My_Inner_Iterations | CFL"; "-----"; "7 | 2"].

Definition other_frame : DataFrame :=
  {| df_columns := ["log of My_Inner_Iterations"; "CFL"];
     df_data := [[VInt 7; VFloat (Decimal.Finite false 2 0)]] |}.

End PlotExample.

(** ** Facts about the string operations *)

Module StrFacts.

Lemma split_not_nil sep s : split sep s <> [].
Proof.
  destruct s as [|c s]; simpl; [discriminate|].
  destruct (Ascii.eqb c sep); [discriminate|].
  destruct (split sep s); discriminate.
Qed.

Lemma startswith_contains m s : startswith m s = true -> contains m s = true.
Proof. intros H. destruct s; simpl; rewrite H; reflexivity. Qed.

Lemma contains_cons m c s :
  contains m s = true -> contains m (String c s) = true.
Proof. intros H. cbn [contains]. rewrite H. apply orb_true_r. Qed.

Lemma contains_truthy m s :
  truthy m = true -> contains m s = true -> truthy s = true.
Proof.
  destruct m; [discriminate|]. destruct s; [|reflexivity].
  simpl. discriminate.
Qed.

Lemma startswith_split_head sep m s :
  free_of sep m = true -> startswith m s = true ->
  exists p ps, split sep s = p :: ps /\ startswith m p = true.
Proof.
  revert m. induction s as [|b s IH]; intros m Hfree Hm.
  - destruct m; [|discriminate]. exists EmptyString, []. auto.
  - destruct m as [|a m].
    + destruct (split sep (String b s)) as [|p ps] eqn:E.
      * exfalso. eapply split_not_nil; eauto.
      * exists p, ps. auto.
    + simpl in Hm. apply andb_true_iff in Hm as [Hab Hm].
      unfold free_of in Hfree. simpl in Hfree.
      apply andb_true_iff in Hfree as [Ha Hfree].
      apply Ascii.eqb_eq in Hab. subst b.
      destruct (IH m Hfree Hm) as (p & ps & E & Hp).
      simpl. apply negb_true_iff in Ha. rewrite Ha, E.
      exists (String a p), ps. split; [reflexivity|].
      simpl. rewrite Ascii.eqb_refl. exact Hp.
Qed.

Lemma contains_split sep m s :
  free_of sep m = true -> contains m s = true ->
  exists p, In p (split sep s) /\ contains m p = true.
Proof.
  intros Hfree. induction s as [|c s IH]; intros H.
  - exists EmptyString. split; [left; reflexivity | exact H].
  - cbn [contains] in H. apply orb_true_iff in H as [H|H].
    + destruct (startswith_split_head sep m _ Hfree H) as (p & ps & E & Hp).
      exists p. rewrite E. split; [left; reflexivity|].
      apply startswith_contains, Hp.
    + destruct (IH H) as (p & Hin & Hp). simpl.
      destruct (Ascii.eqb c sep).
      * exists p. split; [right; exact Hin | exact Hp].
      * destruct (split sep s) as [|p0 ps]; [contradiction|].
        destruct Hin as [->|Hin].
        -- exists (String c p). split; [left; reflexivity|].
           apply contains_cons, Hp.
        -- exists p. split; [right; exact Hin | exact Hp].
Qed.

Lemma contains_lstrip m s :
  truthy m = true -> starts_solid m = true ->
  contains m s = true -> contains m (lstrip s) = true.
Proof.
  intros Hm Hs. destruct m as [|a m]; [discriminate|]. simpl in Hs.
  induction s as [|c s IH]; intros H; [exact H|].
  simpl. destruct (isspace c) eqn:Ec; [|exact H].
  apply IH. cbn [contains startswith] in H.
  destruct (Ascii.eqb a c) eqn:Eac.
  - apply Ascii.eqb_eq in Eac. subst c. rewrite Ec in Hs. discriminate.
  - exact H.
Qed.

Lemma startswith_rstrip m s :
  truthy m = true -> ends_solid m = true ->
  startswith m s = true -> startswith m (rstrip s) = true.
Proof.
  revert m. induction s as [|b s IH]; intros m Hm He H.
  - exact H.
  - destruct m as [|a m]; [discriminate|].
    simpl in H. apply andb_true_iff in H as [Hab H].
    apply Ascii.eqb_eq in Hab. subst b.
    destruct m as [|a' m].
    + simpl in He. apply negb_true_iff in He. simpl. rewrite He.
      destruct (rstrip s); simpl; rewrite Ascii.eqb_refl; reflexivity.
    + assert (Hr : startswith (String a' m) (rstrip s) = true)
        by (apply IH; auto).
      simpl. destruct (rstrip s) as [|r0 r]; [discriminate|].
      cbn [startswith]. rewrite Ascii.eqb_refl. exact Hr.
Qed.

Lemma contains_rstrip m s :
  truthy m = true -> ends_solid m = true ->
  contains m s = true -> contains m (rstrip s) = true.
Proof.
  intros Hm He. induction s as [|c s IH]; intros H.
  - destruct m; [discriminate|]. simpl in H. discriminate.
  - cbn [contains] in H. apply orb_true_iff in H as [H|H].
    + apply startswith_contains, startswith_rstrip; auto.
    + specialize (IH H). simpl.
      destruct (rstrip s) as [|r0 r].
      * destruct m; [discriminate|]. simpl in IH. discriminate.
      * apply contains_cons, IH.
Qed.

Lemma contains_strip m s :
  truthy m = true -> starts_solid m = true -> ends_solid m = true ->
  contains m s = true -> contains m (strip s) = true.
Proof.
  intros. unfold strip. apply contains_rstrip; auto.
  apply contains_lstrip; auto.
Qed.

Lemma lstrip_contains m s :
  contains m (lstrip s) = true -> contains m s = true.
Proof.
  induction s as [|c s IH]; intros H; [exact H|].
  simpl in H. destruct (isspace c); [|exact H].
  apply contains_cons, IH, H.
Qed.

Lemma rstrip_startswith m s :
  startswith m (rstrip s) = true -> startswith m s = true.
Proof.
  revert m. induction s as [|b s IH]; intros m H; [exact H|].
  destruct m as [|a m]; [reflexivity|].
  simpl in H. destruct (rstrip s) as [|r0 r] eqn:E.
  - destruct (isspace b); [discriminate|].
    simpl in H. apply andb_true_iff in H as [Hab H].
    destruct m; [|discriminate]. simpl. rewrite Hab. reflexivity.
  - cbn [startswith] in H. apply andb_true_iff in H as [Hab H].
    simpl. rewrite Hab. apply IH, H.
Qed.

Lemma rstrip_contains m s :
  truthy m = true -> contains m (rstrip s) = true -> contains m s = true.
Proof.
  intros Hm. induction s as [|c s IH]; intros H; [exact H|].
  cbn [contains]. apply orb_true_iff.
  destruct (contains m s) eqn:Ec; [right; reflexivity|left].
  apply rstrip_startswith.
  simpl in H |- *. destruct (rstrip s) as [|r0 r].
  - destruct (isspace c).
    + destruct m; [discriminate|]. simpl in H. discriminate.
    + cbn [contains] in H. apply orb_true_iff in H as [H|H]; [exact H|].
      destruct m; [discriminate|]. simpl in H. discriminate.
  - cbn [contains] in H. apply orb_true_iff in H as [H|H]; [exact H|].
    specialize (IH H). discriminate.
Qed.

Lemma strip_contains m s :
  truthy m = true -> contains m (strip s) = true -> contains m s = true.
Proof.
  intros Hm H. apply lstrip_contains, rstrip_contains; assumption.
Qed.

(** Trimming does not change whether a text has the marker in it. *)
Lemma contains_marker_strip s : contains marker (strip s) = contains marker s.
Proof.
  destruct (contains marker s) eqn:E.
  - apply contains_strip; auto.
  - destruct (contains marker (strip s)) eqn:E'; [|reflexivity].
    apply strip_contains in E'; [congruence | reflexivity].
Qed.

(** A text with the marker in it has a field with the marker in it. *)
Lemma marker_field s :
  contains marker s = true ->
  exists v, In v (fields s) /\ contains marker v = true.
Proof.
  intros H.
  destruct (contains_split "|" marker s eq_refl H) as (p & Hin & Hp).
  exists (strip p). rewrite contains_marker_strip. split; [|exact Hp].
  unfold fields. apply filter_In. split.
  - apply in_map, Hin.
  - apply (contains_truthy marker); [reflexivity|].
    rewrite contains_marker_strip. exact Hp.
Qed.

Lemma header_fields_not_nil s : contains marker s = true -> fields s <> [].
Proof.
  intros H E. destruct (marker_field s H) as (v & Hin & _).
  rewrite E in Hin. contradiction.
Qed.

End StrFacts.

(** ** The loop agrees with the specified reading *)

Section Loop.
Context {conv : Conversions}.

Lemma floats_some vals xs :
  all_floats vals = Some xs -> floats vals = Ok (map VFloat xs).
Proof.
  revert xs. induction vals as [|v vals IH]; intros xs H; simpl in *.
  - injection H as <-. reflexivity.
  - destruct (float v) as [x|]; [|discriminate].
    destruct (all_floats vals) as [ys|]; [|discriminate].
    injection H as <-. rewrite (IH ys eq_refl). reflexivity.
Qed.

Lemma floats_none vals :
  all_floats vals = None ->
  exists v, In v vals /\ float v = None /\
            floats vals = Raised (ValueError (InvalidLiteral ToFloat v)).
Proof.
  induction vals as [|v vals IH]; intros H; simpl in *; [discriminate|].
  destruct (float v) as [x|] eqn:Ev.
  - destruct (all_floats vals) as [ys|]; [discriminate|].
    destruct (IH eq_refl) as (w & Hin & Hw & E).
    exists w. rewrite E. auto.
  - exists v. auto.
Qed.

Lemma parsed_values_some values row :
  convert values = Some row -> parsed_values values = Ok row.
Proof.
  destruct values as [|v0 vals]; simpl; [discriminate|].
  destruct (int v0) as [z|]; [|discriminate].
  destruct (all_floats vals) as [xs|] eqn:E; [|discriminate].
  intros H. injection H as <-. rewrite (floats_some _ _ E). reflexivity.
Qed.

Lemma parsed_values_none values :
  values <> [] -> convert values = None ->
  exists c v, In v values /\ parsed_values values
                             = Raised (ValueError (InvalidLiteral c v)).
Proof.
  destruct values as [|v0 vals]; simpl; [congruence|]. intros _.
  destruct (int v0) as [z|] eqn:Ez.
  - destruct (all_floats vals) as [xs|] eqn:E; [discriminate|]. intros _.
    destruct (floats_none _ E) as (w & Hin & _ & Ew).
    exists ToFloat, w. rewrite Ew. auto.
  - intros _. exists ToInt, v0. auto.
Qed.

Lemma convert_length values row :
  convert values = Some row -> length row = length values.
Proof.
  destruct values as [|v0 vals]; simpl; [discriminate|].
  destruct (int v0) as [z|]; [|discriminate].
  destruct (all_floats vals) as [xs|] eqn:E; [|discriminate].
  intros H. injection H as <-. simpl. f_equal. rewrite length_map.
  clear -E. revert xs E. induction vals as [|v vals IH]; intros xs E.
  - injection E as <-. reflexivity.
  - simpl in E. destruct (float v); [|discriminate].
    destruct (all_floats vals) as [ys|]; [|discriminate].
    injection E as <-. simpl. f_equal. apply IH. reflexivity.
Qed.

(** One turn of the loop in the data section. *)
Lemma for_body_data line s cols :
  columns s = Some cols -> in_data_section s = true -> cols <> [] ->
  for_body line s
  = (mkState (f s) (data s ++ row_list cols line) (Some cols) true
             (S (line_number s))
             (stdout s ++ complaint_list cols (S (line_number s)) line),
     None).
Proof.
  destruct s as [f0 d c i n o]. cbn [columns in_data_section].
  intros -> -> Hcols.
  unfold for_body, row_list, complaint_list, row_of, valid_row, complaint,
    blank_or_rule, line_fields.
  cbn [set_line_number in_data_section line_number columns f data stdout
       negb].
  rewrite andb_false_r.
  destruct (negb (truthy (strip line)) || startswith "+" (strip line));
    cbn [negb andb]; [rewrite !app_nil_r; reflexivity|].
  destruct (length (fields (strip line)) =? length cols)%nat eqn:El;
    cbn [negb andb]; [|unfold print; cbn; rewrite !app_nil_r; reflexivity].
  destruct (convert (fields (strip line))) as [row|] eqn:Ec.
  - rewrite (parsed_values_some _ _ Ec). unfold data_append. cbn.
    rewrite !app_nil_r. reflexivity.
  - destruct (parsed_values_none (fields (strip line))) as (k & v & _ & E).
    + apply Nat.eqb_eq in El. intros E0. rewrite E0 in El.
      destruct cols; [congruence | discriminate].
    + exact Ec.
    + rewrite E. unfold print. cbn. rewrite !app_nil_r. reflexivity.
Qed.

Lemma complaints_cons cols n line rest :
  complaints cols n (line :: rest)
  = complaint_list cols (S n) line ++ complaints cols (S n) rest.
Proof.
  unfold complaint_list. simpl.
  destruct (complaint cols (S n) line); reflexivity.
Qed.

(** The loop in the data section: it reads every line left. *)
Lemma for_loop_data lines : forall fuel s cols,
  f s = lines -> columns s = Some cols -> in_data_section s = true ->
  cols <> [] -> length lines < fuel ->
  for_loop fuel s
  = Some (mkState [] (data s ++ rows cols lines) (Some cols) true
                  (line_number s + length lines)
                  (stdout s ++ complaints cols (line_number s) lines),
          None).
Proof.
  induction lines as [|line rest IH]; intros fuel s cols Hf Hc Hi Hne Hfuel;
    (destruct fuel as [|fuel]; [inversion Hfuel|]);
    destruct s as [f0 d c i n o]; cbn [f columns in_data_section] in *;
    subst f0 c i.
  - unfold for_loop, next. cbn. rewrite !app_nil_r, Nat.add_0_r. reflexivity.
  - simpl in Hfuel. apply Nat.succ_lt_mono in Hfuel.
    cbn [for_loop]. unfold next, set_f.
    cbn [f data columns in_data_section line_number stdout].
    rewrite (for_body_data line (mkState rest d (Some cols) true n o) cols
               eq_refl eq_refl Hne).
    cbn [f data columns in_data_section line_number stdout].
    rewrite (IH fuel (mkState rest (d ++ row_list cols line) (Some cols) true
                        (S n) (o ++ complaint_list cols (S n) line))
               cols eq_refl eq_refl eq_refl Hne Hfuel).
    cbn [f data columns in_data_section line_number stdout].
    rewrite complaints_cons, <- !app_assoc.
    unfold rows. cbn [flat_map length]. fold (row_list cols line).
    replace (S n + length rest) with (n + S (length rest)) by lia.
    reflexivity.
Qed.

(** One turn of the loop on the header line. *)
Lemma for_body_header line s :
  in_data_section s = false -> is_header line = true ->
  for_body line s
  = (mkState (tl (f s)) (data s) (Some (line_fields line)) true
             (S (line_number s))
             (stdout s ++ [HeaderFound (S (line_number s))
                                       (line_fields line)]),
     None).
Proof.
  destruct s as [f0 d c i n o]. cbn [in_data_section]. intros -> Eh.
  unfold for_body, is_header in *.
  cbn [set_line_number in_data_section line_number]. rewrite Eh.
  cbn [negb andb]. unfold next, print, set_columns, set_in_data_section.
  cbn [f data columns in_data_section line_number stdout].
  destruct f0; reflexivity.
Qed.

(** One turn of the loop on a line before the header. *)
Lemma for_body_seek line s :
  in_data_section s = false -> is_header line = false ->
  for_body line s = (set_line_number (S (line_number s)) s, None).
Proof.
  destruct s as [f0 d c i n o]. cbn [in_data_section]. intros -> Eh.
  unfold for_body, is_header in *.
  cbn [set_line_number in_data_section line_number]. rewrite Eh.
  reflexivity.
Qed.

(** The loop before the header: it reads every line, and never raises. *)
Lemma for_loop_seek file : forall fuel s,
  f s = file -> columns s = None -> in_data_section s = false ->
  length file < fuel ->
  for_loop fuel s = Some (final_state s file, None).
Proof.
  induction file as [|line rest IH]; intros fuel s Hf Hc Hi Hfuel;
    (destruct fuel as [|fuel]; [inversion Hfuel|]);
    destruct s as [f0 d c i n o]; cbn [f columns in_data_section] in *;
    subst f0 c i.
  - unfold for_loop, next, final_state. cbn. rewrite Nat.add_0_r.
    reflexivity.
  - simpl in Hfuel. apply Nat.succ_lt_mono in Hfuel.
    cbn [for_loop]. unfold next, set_f, final_state.
    cbn [f data columns in_data_section line_number stdout split_at_header].
    destruct (is_header line) eqn:Eh.
    + rewrite (for_body_header line (mkState rest d None false n o)
                 eq_refl Eh).
      cbn [f data columns in_data_section line_number stdout].
      rewrite (for_loop_data (tl rest) fuel
                 (mkState (tl rest) d (Some (line_fields line)) true (S n)
                          (o ++ [HeaderFound (S n) (line_fields line)]))
                 (line_fields line) eq_refl eq_refl eq_refl).
      * cbn [f data columns in_data_section line_number stdout length].
        rewrite <- app_assoc. replace (n + 1) with (S n) by lia.
        reflexivity.
      * apply StrFacts.header_fields_not_nil, Eh.
      * destruct rest; simpl in *; lia.
    + rewrite (for_body_seek line (mkState rest d None false n o)
                 eq_refl Eh). unfold set_line_number.
      cbn [f data columns in_data_section line_number stdout].
      rewrite (IH fuel (mkState rest d None false (S n) o)
                 eq_refl eq_refl eq_refl Hfuel).
      unfold final_state.
      cbn [f data columns in_data_section line_number stdout].
      destruct (split_at_header rest) as [[[pre hdr] post]|];
        cbn [length];
        [replace (S n + S (length pre)) with (n + S (S (length pre)))
           by lia
        |replace (S n + length rest) with (n + S (length rest)) by lia];
        reflexivity.
Qed.

(** The call agrees with the specified parse, in what it returns and in
    what it prints; in particular the loop ends within the fuel given. *)
Lemma rows_width cols lines :
  forallb (fun row => (length row =? length cols)%nat) (rows cols lines)
  = true.
Proof.
  apply forallb_forall. intros row Hin. unfold rows in Hin.
  apply in_flat_map in Hin as (line & _ & Hin).
  unfold row_of, valid_row in Hin.
  destruct (blank_or_rule line); [contradiction|].
  destruct (length (line_fields line) =? length cols)%nat eqn:El;
    [|contradiction].
  cbn [negb andb] in Hin.
  destruct (convert (line_fields line)) as [r|] eqn:Ec; [|contradiction].
  destruct Hin as [<-|[]].
  rewrite (convert_length _ _ Ec). exact El.
Qed.

Lemma read_with_parse fuel file :
  length file < fuel ->
  read_with fuel file
  = Some {| printed := parse_log file; outcome := parse file |}.
Proof.
  intros Hfuel. unfold read_with.
  rewrite (for_loop_seek file fuel (initial file) eq_refl eq_refl eq_refl
             Hfuel).
  unfold final_state, parse, parse_log, table_of, table, after_loop.
  destruct (split_at_header file) as [[[pre hdr] post]|];
    cbn [initial f data columns in_data_section line_number stdout app
         Nat.add]; [|reflexivity].
  pose proof (rows_width (line_fields hdr) (tl post)) as Hw.
  destruct (rows (line_fields hdr) (tl post)) as [|row more];
    [reflexivity|].
  unfold pd_DataFrame. rewrite Hw. reflexivity.
Qed.

Lemma read_and_parse_dat_parse file :
  read_and_parse_dat file
  = Some {| printed := parse_log file; outcome := parse file |}.
Proof. apply read_with_parse. apply Nat.lt_succ_diag_r. Qed.

End Loop.

(** ** Facts about the decimal conversions: no text with the marker in it
    is a number *)

Module DecimalFacts.
Import Decimal.

Lemma startswith_chars m s c :
  startswith m s = true -> In c (chars m) -> In c (chars s).
Proof.
  revert s. induction m as [|a m IH]; intros s H Hin; [contradiction|].
  destruct s as [|b s]; [discriminate|].
  simpl in H. apply andb_true_iff in H as [Hab H].
  apply Ascii.eqb_eq in Hab. subst b.
  destruct Hin as [<-|Hin]; [left; reflexivity|right; eauto].
Qed.

Lemma contains_chars m s c :
  contains m s = true -> In c (chars m) -> In c (chars s).
Proof.
  intros H Hin. induction s as [|b s IH].
  - simpl in H. rewrite orb_false_r in H.
    eapply startswith_chars; eauto.
  - cbn [contains] in H. apply orb_true_iff in H as [H|H].
    + eapply startswith_chars; eauto.
    + right. auto.
Qed.

Lemma digitpart_chars s : forall b acc n r c,
  digitpart b acc n s = Some r -> In c (chars s) ->
  is_digit c || Ascii.eqb c "_" = true.
Proof.
  induction s as [|a s IH]; intros b acc n r c H Hin; [contradiction|].
  simpl in H. destruct (is_digit a) eqn:Ed.
  - destruct Hin as [<-|Hin]; [rewrite Ed; reflexivity|eauto].
  - destruct (Ascii.eqb a "_") eqn:Eu; [|discriminate].
    destruct b; [|discriminate]. simpl in H.
    destruct Hin as [<-|Hin]; [rewrite Eu; apply orb_true_r|eauto].
Qed.

Lemma opt_digitpart_chars s r c :
  opt_digitpart s = Some r -> In c (chars s) ->
  is_digit c || Ascii.eqb c "_" = true.
Proof.
  destruct s as [|a s]; [contradiction|]. apply digitpart_chars.
Qed.

Lemma span_digits_chars s : forall d rest c,
  span_digits s = (d, rest) -> In c (chars s) ->
  In c (chars d) \/ In c (chars rest).
Proof.
  induction s as [|a s IH]; intros d rest c H Hin; [contradiction|].
  simpl in H. destruct (is_digit a || Ascii.eqb a "_").
  - destruct (span_digits s) as [d' rest'] eqn:E.
    injection H as <- <-. destruct Hin as [<-|Hin].
    + left. left. reflexivity.
    + destruct (IH _ _ _ eq_refl Hin); [left; right|right]; assumption.
  - injection H as <- <-. right. exact Hin.
Qed.

Lemma sign_chars s neg body c :
  sign s = (neg, body) -> In c (chars s) ->
  Ascii.eqb c "+" || Ascii.eqb c "-" = true \/ In c (chars body).
Proof.
  destruct s as [|a s]; [contradiction|]. simpl.
  destruct (Ascii.eqb a "+") eqn:Ep; [|destruct (Ascii.eqb a "-") eqn:Em];
    intros H Hin; injection H as <- <-; try (right; exact Hin);
    (destruct Hin as [<-|Hin]; [left|right; exact Hin]).
  - rewrite Ep. reflexivity.
  - rewrite Em. apply orb_true_r.
Qed.

Ltac number_char_by H :=
  unfold number_char; rewrite ?H, ?orb_true_r; reflexivity.

Lemma digit_number_char c :
  is_digit c || Ascii.eqb c "_" = true -> number_char c = true.
Proof.
  intros H. unfold number_char. rewrite H. reflexivity.
Qed.

Lemma sign_number_char c :
  Ascii.eqb c "+" || Ascii.eqb c "-" = true -> number_char c = true.
Proof.
  intros H. unfold number_char. rewrite <- !orb_assoc, H.
  rewrite !orb_true_r. reflexivity.
Qed.

Lemma exponent_part_chars s e c :
  exponent_part s = Some e -> In c (chars s) -> number_char c = true.
Proof.
  destruct s as [|a s]; [contradiction|]. simpl.
  destruct (Ascii.eqb (lower a) "e") eqn:Ee; [|discriminate].
  destruct (sign s) as [neg digits] eqn:Es.
  destruct (digitpart false 0 0 digits) as [[n k]|] eqn:Ed; [|discriminate].
  intros _ [<-|Hin].
  - number_char_by Ee.
  - destruct (sign_chars _ _ _ _ Es Hin) as [H|H].
    + apply sign_number_char, H.
    + eapply digit_number_char, digitpart_chars; eauto.
Qed.

Lemma pointless_chars neg ip rest x c :
  pointless neg ip rest = Some x ->
  In c (chars ip) \/ In c (chars rest) -> number_char c = true.
Proof.
  unfold pointless.
  destruct (digitpart false 0 0 ip) as [[i k]|] eqn:Ei; [|discriminate].
  destruct (exponent_part rest) as [e|] eqn:Ee; [|discriminate].
  intros _ [H|H].
  - eapply digit_number_char, digitpart_chars; eauto.
  - eapply exponent_part_chars; eauto.
Qed.

Lemma pointed_chars neg ip rest x c :
  pointed neg ip rest = Some x ->
  In c (chars ip) \/ In c (chars rest) -> number_char c = true.
Proof.
  unfold pointed. destruct (span_digits rest) as [fp rest'] eqn:Es.
  destruct (opt_digitpart ip) as [[i ni]|] eqn:Ei; [|discriminate].
  destruct (opt_digitpart fp) as [[fr nf]|] eqn:Ef; [|discriminate].
  destruct (exponent_part rest') as [e|] eqn:Ee; [|discriminate].
  intros _ [H|H].
  - apply digit_number_char, (opt_digitpart_chars _ _ _ Ei H).
  - destruct (span_digits_chars _ _ _ _ Es H) as [H'|H'].
    + apply digit_number_char, (opt_digitpart_chars _ _ _ Ef H').
    + apply (exponent_part_chars _ _ _ Ee H').
Qed.

Lemma floatnumber_chars neg s x c :
  floatnumber neg s = Some x -> In c (chars s) -> number_char c = true.
Proof.
  unfold floatnumber. destruct (span_digits s) as [ip rest] eqn:Es.
  intros H Hin. destruct (span_digits_chars _ _ _ _ Es Hin) as [Hc|Hc].
  - destruct rest as [|a rest'].
    + apply (pointless_chars _ _ _ _ _ H). left. exact Hc.
    + destruct (Ascii.eqb a ".").
      * apply (pointed_chars _ _ _ _ _ H). left. exact Hc.
      * apply (pointless_chars _ _ _ _ _ H). left. exact Hc.
  - destruct rest as [|a rest']; [contradiction|].
    destruct (Ascii.eqb a ".") eqn:Ea.
    + destruct Hc as [<-|Hc]; [number_char_by Ea|].
      apply (pointed_chars _ _ _ _ _ H). right. exact Hc.
    + apply (pointless_chars _ _ _ _ _ H). right. exact Hc.
Qed.

Lemma lowercase_chars s c :
  In c (chars s) -> In (lower c) (chars (lowercase s)).
Proof.
  induction s as [|a s IH]; intros Hin; [contradiction|].
  destruct Hin as [<-|Hin]; [left; reflexivity|right; auto].
Qed.

Lemma marker_letter s :
  contains marker s = true -> In letter (chars (strip s)).
Proof.
  intros H. apply (contains_chars marker).
  - rewrite StrFacts.contains_marker_strip. exact H.
  - cbv. tauto.
Qed.

Lemma letter_not_in (l : list ascii) :
  forallb (fun c => negb (Ascii.eqb c letter)) l = true -> ~ In letter l.
Proof.
  intros H Hin. rewrite forallb_forall in H. specialize (H _ Hin).
  rewrite Ascii.eqb_refl in H. discriminate.
Qed.

Lemma py_int_marker s : contains marker s = true -> py_int s = None.
Proof.
  intros H. apply marker_letter in H. unfold py_int.
  destruct (sign (strip s)) as [neg body] eqn:Es.
  destruct (digitpart false 0 0 body) as [[n k]|] eqn:Ed; [|reflexivity].
  destruct (sign_chars _ _ _ _ Es H) as [Hc|Hc]; [discriminate|].
  pose proof (digitpart_chars _ _ _ _ _ _ Ed Hc). discriminate.
Qed.

Lemma py_float_marker s : contains marker s = true -> py_float s = None.
Proof.
  intros H. apply marker_letter in H. unfold py_float.
  destruct (sign (strip s)) as [neg body] eqn:Es.
  destruct (sign_chars _ _ _ _ Es H) as [Hc|Hc]; [discriminate|].
  pose proof (lowercase_chars _ _ Hc) as Hl.
  destruct (String.eqb (lowercase body) "inf") eqn:E1.
  { apply String.eqb_eq in E1. rewrite E1 in Hl.
    exfalso. revert Hl. apply letter_not_in. reflexivity. }
  destruct (String.eqb (lowercase body) "infinity") eqn:E2.
  { apply String.eqb_eq in E2. rewrite E2 in Hl.
    exfalso. revert Hl. apply letter_not_in. reflexivity. }
  destruct (String.eqb (lowercase body) "nan") eqn:E3.
  { apply String.eqb_eq in E3. rewrite E3 in Hl.
    exfalso. revert Hl. apply letter_not_in. reflexivity. }
  cbn [orb]. destruct (floatnumber neg body) as [x|] eqn:Ef; [|reflexivity].
  pose proof (floatnumber_chars _ _ _ _ Ef Hc). discriminate.
Qed.

End DecimalFacts.

(** ** The properties of the parser *)

Section Properties.
Context {conv : Conversions}.

Lemma is_header_contains line : is_header line = contains marker line.
Proof. apply StrFacts.contains_marker_strip. Qed.

Lemma no_header_no_marker lines : no_header lines = no_marker lines.
Proof.
  unfold no_header, no_marker. induction lines as [|l ls IH]; [reflexivity|].
  simpl. rewrite is_header_contains, IH. reflexivity.
Qed.

Lemma split_at_header_none file :
  no_header file = true -> split_at_header file = None.
Proof.
  induction file as [|l ls IH]; [reflexivity|]. simpl. intros H.
  apply andb_true_iff in H as [Hl H]. apply negb_true_iff in Hl.
  rewrite Hl, (IH H). reflexivity.
Qed.

Lemma split_at_header_app pre hdr post :
  no_header pre = true -> is_header hdr = true ->
  split_at_header (pre ++ hdr :: post) = Some (pre, hdr, post).
Proof.
  intros Hpre Hh. induction pre as [|l ls IH]; simpl.
  - rewrite Hh. reflexivity.
  - simpl in Hpre. apply andb_true_iff in Hpre as [Hl Hpre].
    apply negb_true_iff in Hl. rewrite Hl, (IH Hpre). reflexivity.
Qed.

Lemma split_at_header_some file pre hdr post :
  split_at_header file = Some (pre, hdr, post) ->
  file = pre ++ hdr :: post /\ no_header pre = true /\ is_header hdr = true.
Proof.
  revert pre. induction file as [|l ls IH]; intros pre H; [discriminate|].
  simpl in H. destruct (is_header l) eqn:El.
  - injection H as <- <- <-. auto.
  - destruct (split_at_header ls) as [[[p h] q]|]; [|discriminate].
    injection H as <- <- <-. destruct (IH p eq_refl) as (-> & Hp & Hh).
    simpl. rewrite El. auto.
Qed.

Lemma split_at_header_none_inv file :
  split_at_header file = None -> no_header file = true.
Proof.
  induction file as [|l ls IH]; [reflexivity|]. simpl.
  destruct (is_header l); [discriminate|].
  destruct (split_at_header ls) as [[[p h] q]|]; [discriminate|].
  intros _. apply IH. reflexivity.
Qed.

Lemma result_of_parse file : result_of file = Some (parse file).
Proof.
  unfold result_of. rewrite read_and_parse_dat_parse. reflexivity.
Qed.

Lemma log_of_parse file : log_of file = Some (parse_log file).
Proof.
  unfold log_of. rewrite read_and_parse_dat_parse. reflexivity.
Qed.

Lemma parse_app pre hdr post :
  no_header pre = true -> is_header hdr = true ->
  parse (pre ++ hdr :: post) = table_of hdr post.
Proof.
  intros Hp Hh. unfold parse. rewrite split_at_header_app; auto.
Qed.

Lemma result_of_app pre hdr post :
  no_header pre = true -> is_header hdr = true ->
  result_of (pre ++ hdr :: post)
  = Some (table (line_fields hdr) (rows (line_fields hdr) (tl post))).
Proof.
  intros Hp Hh. rewrite result_of_parse, parse_app; auto.
Qed.

Lemma rows_app cols a b : rows cols (a ++ b) = rows cols a ++ rows cols b.
Proof. apply flat_map_app. Qed.

Lemma rows_cons cols line rest :
  rows cols (line :: rest) = row_list cols line ++ rows cols rest.
Proof. reflexivity. Qed.

(** C1. The loop itself never raises; after it, the call raises the
    missing-header error exactly when no line of the input has the marker
    in it, whatever the rows (there are none then); it raises the no-data
    error exactly when there is a header and the loop converted no row;
    in every other case it returns the table of the converted rows, so
    that it raises nothing but these two errors. The rows the loop
    converts are those of the lines after the line under the first header
    line. *)
Theorem structural_failures (file : list string) :
  exists s,
    for_loop (S (length file)) (initial file) = Some (s, None)
    /\ (columns s = None <-> no_marker file = true)
    /\ result_of file
       = Some match columns s with
              | None => Raised header_not_found
              | Some cols =>
                  match data s with
                  | [] => Raised no_valid_data
                  | _ :: _ => Ok {| df_columns := cols; df_data := data s |}
                  end
              end
    /\ (forall e,
          result_of file = Some (Raised e) ->
          e = header_not_found \/ e = no_valid_data)
    /\ (forall pre hdr post,
          file = pre ++ hdr :: post ->
          no_marker pre = true -> contains marker hdr = true ->
          columns s = Some (line_fields hdr)
          /\ data s = rows (line_fields hdr) (tl post)).
Proof.
  exists (final_state (initial file) file).
  split; [apply for_loop_seek; auto|].
  rewrite result_of_parse. unfold final_state, parse, table_of, table.
  destruct (split_at_header file) as [[[pre hdr] post]|] eqn:E.
  - apply split_at_header_some in E as (-> & Hp & Hh).
    cbn [initial columns data app].
    split; [split; [discriminate|]|split; [|split]].
    + intros H. exfalso. rewrite <- no_header_no_marker in H.
      apply split_at_header_none in H.
      rewrite split_at_header_app in H; auto. discriminate.
    + destruct (rows (line_fields hdr) (tl post)); reflexivity.
    + intros e He.
      destruct (rows (line_fields hdr) (tl post)); [|discriminate].
      injection He as <-. right. reflexivity.
    + intros pre' hdr' post' E' Hp' Hh'.
      rewrite <- no_header_no_marker in Hp'.
      rewrite <- is_header_contains in Hh'.
      pose proof (split_at_header_app pre hdr post Hp Hh) as E1.
      rewrite E' in E1. rewrite split_at_header_app in E1; auto.
      injection E1 as -> -> ->. auto.
  - cbn [initial columns data].
    split; [split; [intros _|reflexivity]|split; [reflexivity|split]].
    + rewrite <- no_header_no_marker. apply split_at_header_none_inv, E.
    + intros e He. injection He as <-. left. reflexivity.
    + intros pre hdr post -> Hp Hh. exfalso.
      rewrite <- no_header_no_marker in Hp.
      rewrite <- is_header_contains in Hh.
      rewrite split_at_header_app in E; auto. discriminate.
Qed.

Lemma row_of_valid cols line :
  valid_row cols line = true ->
  exists row, convert (line_fields line) = Some row
              /\ row_of cols line = Some row.
Proof.
  intros H. unfold row_of. rewrite H. unfold valid_row in H.
  apply andb_true_iff in H as [_ H].
  destruct (convert (line_fields line)) as [row|]; [|discriminate].
  exists row. auto.
Qed.

Lemma row_of_invalid cols line :
  valid_row cols line = false -> row_of cols line = None.
Proof. intros H. unfold row_of. rewrite H. reflexivity. Qed.

Lemma row_of_some cols line row :
  row_of cols line = Some row -> valid_row cols line = true.
Proof.
  unfold row_of. destruct (valid_row cols line); [reflexivity|discriminate].
Qed.

Lemma rows_filter cols lines :
  map Some (rows cols lines)
  = map (fun line => convert (line_fields line))
        (filter (valid_row cols) lines).
Proof.
  induction lines as [|l ls IH]; [reflexivity|].
  rewrite rows_cons. unfold row_list. cbn [filter].
  destruct (valid_row cols l) eqn:Ev.
  - destruct (row_of_valid _ _ Ev) as (row & Ec & Er).
    rewrite Er. cbn [app map]. rewrite Ec, IH. reflexivity.
  - rewrite (row_of_invalid _ _ Ev). exact IH.
Qed.

Lemma rows_length cols lines :
  length (rows cols lines) = length (filter (valid_row cols) lines).
Proof.
  rewrite <- (length_map Some), rows_filter, length_map. reflexivity.
Qed.

Lemma rows_In cols lines line row :
  In line lines -> row_of cols line = Some row -> In row (rows cols lines).
Proof.
  intros Hin Hr. unfold rows. apply in_flat_map. exists line.
  split; [exact Hin|]. rewrite Hr. left. reflexivity.
Qed.

Lemma table_In cols rs row :
  In row rs -> exists df, table cols rs = Ok df /\ In row (df_data df).
Proof.
  intros Hin. destruct rs as [|r rs]; [contradiction|].
  eexists. split; [reflexivity|exact Hin].
Qed.

(** C2. For an input made of lines without the marker, a header line, the
    line under it and a data section with at least one valid row, the call
    returns a table; its column names are the non-empty trimmed pieces of
    the header line in their order, it has as many rows as the data
    section has valid rows, and the rows are the conversions of the valid
    rows in the order of the input, none merged and none moved. *)
Theorem table_of_well_formed_input (pre : list string) (hdr sep : string)
    (body : list string) :
  no_header pre = true -> is_header hdr = true ->
  filter (valid_row (line_fields hdr)) body <> [] ->
  exists df,
    result_of (pre ++ hdr :: sep :: body) = Some (Ok df)
    /\ df_columns df = filter truthy (map strip (split "|" (strip hdr)))
    /\ Forall (fun name => truthy name = true) (df_columns df)
    /\ length (df_data df)
       = length (filter (valid_row (line_fields hdr)) body)
    /\ map Some (df_data df)
       = map (fun line => convert (line_fields line))
             (filter (valid_row (line_fields hdr)) body).
Proof.
  intros Hp Hh Hv. rewrite result_of_app by assumption. cbn [tl].
  pose proof (rows_length (line_fields hdr) body) as Hlen.
  pose proof (rows_filter (line_fields hdr) body) as Hmap.
  destruct (rows (line_fields hdr) body) as [|row more] eqn:E.
  - exfalso. apply Hv. apply length_zero_iff_nil. symmetry. exact Hlen.
  - eexists. split; [reflexivity|]. cbn [df_columns df_data].
    repeat split; try assumption.
    apply Forall_forall. intros name Hin.
    apply filter_In in Hin. apply Hin.
Qed.

Lemma all_floats_none vals v :
  In v vals -> float v = None -> all_floats vals = None.
Proof.
  induction vals as [|w vals IH]; intros Hin Hv; [contradiction|].
  simpl. destruct Hin as [->|Hin].
  - rewrite Hv. reflexivity.
  - rewrite (IH Hin Hv). destruct (float w); reflexivity.
Qed.

Lemma malformed_invalid cols line :
  malformed cols line -> valid_row cols line = false.
Proof.
  unfold valid_row.
  intros [H|[(v0 & vs & E & H)|(v0 & vs & v & E & Hin & H)]].
  - apply Nat.eqb_neq in H. rewrite H, andb_false_r. reflexivity.
  - rewrite E. simpl. rewrite H. apply andb_false_r.
  - rewrite E. simpl. rewrite (all_floats_none _ _ Hin H).
    destruct (int v0); apply andb_false_r.
Qed.

Lemma rows_without cols before line after :
  valid_row cols line = false ->
  rows cols (before ++ line :: after)
  = rows cols before ++ rows cols after.
Proof.
  intros H. rewrite rows_app, rows_cons. unfold row_list.
  rewrite (row_of_invalid _ _ H). reflexivity.
Qed.

(** C3. A line of the data section with a wrong number of fields, or with
    a first field that is not an integer or a later field that is not a
    floating-point number, gives no row and does not stop the parse: the
    call returns what it returns without that line, and every valid row
    after it is in the table returned. *)
Theorem malformed_line_dropped (pre : list string) (hdr sep : string)
    (before : list string) (bad : string) (after : list string) :
  no_header pre = true -> is_header hdr = true ->
  malformed (line_fields hdr) bad ->
  result_of (pre ++ hdr :: sep :: before ++ bad :: after)
  = Some (table (line_fields hdr)
                (rows (line_fields hdr) before
                 ++ rows (line_fields hdr) after))
  /\ result_of (pre ++ hdr :: sep :: before ++ bad :: after)
     = result_of (pre ++ hdr :: sep :: before ++ after)
  /\ forall line,
       In line after -> valid_row (line_fields hdr) line = true ->
       exists df row,
         result_of (pre ++ hdr :: sep :: before ++ bad :: after)
         = Some (Ok df)
         /\ convert (line_fields line) = Some row
         /\ In row (df_data df).
Proof.
  intros Hp Hh Hbad. apply malformed_invalid in Hbad.
  rewrite !result_of_app by assumption. cbn [tl].
  rewrite (rows_without _ _ _ _ Hbad), rows_app.
  split; [reflexivity|]. split; [reflexivity|].
  intros line Hin Hv. destruct (row_of_valid _ _ Hv) as (row & Ec & Er).
  destruct (table_In (line_fields hdr)
              (rows (line_fields hdr) before ++ rows (line_fields hdr) after)
              row) as (df & Edf & Hdf).
  - apply in_or_app. right. eapply rows_In; eauto.
  - exists df, row. rewrite Edf. auto.
Qed.

Lemma blank_or_rule_invalid cols line :
  blank_or_rule line = true -> valid_row cols line = false.
Proof. intros H. unfold valid_row. rewrite H. reflexivity. Qed.

Lemma complaints_app cols n a b :
  complaints cols n (a ++ b)
  = complaints cols n a ++ complaints cols (n + length a) b.
Proof.
  revert n. induction a as [|l a IH]; intros n.
  - simpl. rewrite Nat.add_0_r. reflexivity.
  - cbn [app length]. rewrite !complaints_cons, IH, <- app_assoc.
    replace (S n + length a) with (n + S (length a)) by lia. reflexivity.
Qed.

Lemma log_of_app pre hdr post :
  no_header pre = true -> is_header hdr = true ->
  log_of (pre ++ hdr :: post)
  = Some (HeaderFound (S (length pre)) (line_fields hdr)
          :: complaints (line_fields hdr) (S (length pre)) (tl post)).
Proof.
  intros Hp Hh. rewrite log_of_parse. unfold parse_log.
  rewrite split_at_header_app; auto.
Qed.

(** C6. A line of the data section that is empty after trimming, or
    starts with [+] then, gives no row, no message and no error, and the
    lines after it are read as if it were not there: the call returns what
    it returns without that line, and prints about the lines before and
    after it only. *)
Theorem blank_and_rule_lines_skipped (pre : list string) (hdr sep : string)
    (before : list string) (skip : string) (after : list string) :
  no_header pre = true -> is_header hdr = true ->
  truthy (strip skip) = false \/ startswith "+" (strip skip) = true ->
  result_of (pre ++ hdr :: sep :: before ++ skip :: after)
  = Some (table (line_fields hdr)
                (rows (line_fields hdr) before
                 ++ rows (line_fields hdr) after))
  /\ result_of (pre ++ hdr :: sep :: before ++ skip :: after)
     = result_of (pre ++ hdr :: sep :: before ++ after)
  /\ log_of (pre ++ hdr :: sep :: before ++ skip :: after)
     = Some (HeaderFound (S (length pre)) (line_fields hdr)
             :: complaints (line_fields hdr) (S (length pre)) before
             ++ complaints (line_fields hdr)
                           (S (length pre) + length before + 1) after).
Proof.
  intros Hp Hh Hskip.
  assert (Hb : blank_or_rule skip = true).
  { unfold blank_or_rule. destruct Hskip as [H|H]; rewrite H;
      [reflexivity|apply orb_true_r]. }
  rewrite !result_of_app, log_of_app by assumption. cbn [tl].
  rewrite (rows_without _ _ _ _ (blank_or_rule_invalid _ _ Hb)), rows_app.
  split; [reflexivity|]. split; [reflexivity|].
  rewrite complaints_app, complaints_cons. unfold complaint_list, complaint.
  rewrite Hb. cbn [app].
  replace (S (S (length pre) + length before))
    with (S (length pre) + length before + 1) by lia.
  reflexivity.
Qed.

(** C5. The line under the header line is read away whatever it is: the
    call returns the table of the lines after it, so neither that line nor
    the header line gives a row, and what is returned and printed does not
    depend on that line. A header line followed by a single line, even a
    valid row, leaves no data; a header line that ends the input leaves no
    data either, and nothing fails on the missing line. *)
Theorem line_under_header_consumed (pre : list string) (hdr : string) :
  no_header pre = true -> is_header hdr = true ->
  (forall sep body,
     result_of (pre ++ hdr :: sep :: body)
     = Some (table (line_fields hdr) (rows (line_fields hdr) body)))
  /\ (forall sep sep' body,
        read_and_parse_dat (pre ++ hdr :: sep :: body)
        = read_and_parse_dat (pre ++ hdr :: sep' :: body))
  /\ (forall sep,
        valid_row (line_fields hdr) sep = true ->
        result_of (pre ++ [hdr; sep]) = Some (Raised no_valid_data))
  /\ read_and_parse_dat (pre ++ [hdr])
     = Some {| printed := [HeaderFound (S (length pre)) (line_fields hdr)];
               outcome := Raised no_valid_data |}.
Proof.
  intros Hp Hh. repeat split.
  - intros sep body. apply result_of_app; assumption.
  - intros sep sep' body. rewrite !read_and_parse_dat_parse.
    unfold parse, parse_log. rewrite !split_at_header_app by assumption.
    reflexivity.
  - intros sep _. rewrite result_of_app by assumption. reflexivity.
  - rewrite read_and_parse_dat_parse. unfold parse, parse_log.
    rewrite split_at_header_app by assumption. reflexivity.
Qed.

Lemma all_floats_Forall2 vals xs :
  all_floats vals = Some xs -> Forall2 (fun v x => float v = Some x) vals xs.
Proof.
  revert xs. induction vals as [|v vals IH]; intros xs H; simpl in H.
  - injection H as <-. constructor.
  - destruct (float v) as [x|] eqn:Ev; [|discriminate].
    destruct (all_floats vals) as [ys|]; [|discriminate].
    injection H as <-. constructor; auto.
Qed.

Lemma convert_some values row :
  convert values = Some row ->
  exists v0 vs z xs,
    values = v0 :: vs /\ int v0 = Some z
    /\ Forall2 (fun v x => float v = Some x) vs xs
    /\ row = VInt z :: map VFloat xs.
Proof.
  destruct values as [|v0 vs]; simpl; [discriminate|].
  destruct (int v0) as [z|] eqn:Ez; [|discriminate].
  destruct (all_floats vs) as [xs|] eqn:Ex; [|discriminate].
  intros H. injection H as <-.
  exists v0, vs, z, xs. repeat split; auto using all_floats_Forall2.
Qed.

Lemma valid_row_length cols line :
  valid_row cols line = true -> length (line_fields line) = length cols.
Proof.
  unfold valid_row. intros H. apply andb_true_iff in H as [H _].
  apply andb_true_iff in H as [_ H]. apply Nat.eqb_eq, H.
Qed.

Lemma table_rows_typed (file : list string) (df : DataFrame) :
  result_of file = Some (Ok df) ->
  Forall (fun row =>
            length row = length (df_columns df)
            /\ exists line v0 vs z xs,
                 In line file
                 /\ line_fields line = v0 :: vs
                 /\ int v0 = Some z
                 /\ Forall2 (fun v x => float v = Some x) vs xs
                 /\ row = VInt z :: map VFloat xs)
         (df_data df).
Proof.
  rewrite result_of_parse. unfold parse. intros H.
  destruct (split_at_header file) as [[[pre hdr] post]|] eqn:E;
    [|discriminate].
  apply split_at_header_some in E as (-> & _ & _).
  unfold table_of, table in H.
  destruct (rows (line_fields hdr) (tl post)) as [|r rs] eqn:Er;
    [discriminate|].
  injection H as <-. cbn [df_columns df_data]. rewrite <- Er.
  apply Forall_forall. intros row Hin.
  apply in_flat_map in Hin as (line & Hline & Hin).
  destruct (row_of (line_fields hdr) line) as [row'|] eqn:Erow;
    [|contradiction].
  destruct Hin as [<-|[]].
  pose proof (row_of_some _ _ _ Erow) as Hv.
  destruct (row_of_valid _ _ Hv) as (row'' & Ec & Er').
  rewrite Er' in Erow. injection Erow as ->.
  split.
  - rewrite (convert_length _ _ Ec). apply valid_row_length, Hv.
  - destruct (convert_some _ _ Ec) as (v0 & vs & z & xs & Ef & Hz & Hx & ->).
    exists line, v0, vs, z, xs. repeat split; auto.
    apply in_or_app. right. right.
    destruct post; [contradiction|right; exact Hline].
Qed.

(** C7. Every row of a table the call returns has as many values as the
    table has column names; it comes from a line of the input whose first
    field [int] converts to the first value of the row and whose other
    fields [float] converts, one by one, to the other values. *)
Theorem rows_of_table_typed (file : list string) (df : DataFrame) :
  result_of file = Some (Ok df) ->
  Forall (fun row =>
            length row = length (df_columns df)
            /\ exists line v0 vs z xs,
                 In line file
                 /\ line_fields line = v0 :: vs
                 /\ int v0 = Some z
                 /\ Forall2 (fun v x => float v = Some x) vs xs
                 /\ row = VInt z :: map VFloat xs)
         (df_data df).
Proof. apply table_rows_typed. Qed.

Lemma for_body_forward line s :
  f (fst (for_body line s)) = f s \/ f (fst (for_body line s)) = tl (f s).
Proof.
  destruct s as [f0 d c i n o]. unfold for_body.
  cbn [set_line_number in_data_section line_number columns f].
  destruct (contains marker (strip line) && negb i).
  - right. unfold next, print, set_columns, set_in_data_section, set_f.
    cbn [f]. destruct f0; reflexivity.
  - left. destruct i; [|reflexivity].
    destruct (negb (truthy (strip line)) || startswith "+" (strip line));
      [reflexivity|].
    destruct c as [cols|]; [|reflexivity].
    destruct (negb (length (fields (strip line)) =? length cols)%nat);
      [reflexivity|].
    destruct (parsed_values (fields (strip line))) as [row|[m| |]];
      reflexivity.
Qed.

(** C8. On every input the loop is left after at most one turn per line,
    without an exception and with no line unread; the call then returns a
    table or raises one of the two errors. Fuel beyond one unit per line
    and one for the end of the input changes nothing. A turn of the loop
    moves the iterator forward only, by no line or by one. *)
Theorem parse_terminates (file : list string) :
  exists s r,
    for_loop (S (length file)) (initial file) = Some (s, None)
    /\ f s = []
    /\ read_and_parse_dat file = Some r
    /\ (forall fuel, length file < fuel -> read_with fuel file = Some r)
    /\ ((exists df, outcome r = Ok df)
        \/ outcome r = Raised header_not_found
        \/ outcome r = Raised no_valid_data)
    /\ (forall line s0,
          f (fst (for_body line s0)) = f s0
          \/ f (fst (for_body line s0)) = tl (f s0)).
Proof.
  exists (final_state (initial file) file),
         {| printed := parse_log file; outcome := parse file |}.
  split; [apply for_loop_seek; auto|].
  split; [unfold final_state;
          destruct (split_at_header file) as [[[pre hdr] post]|];
          reflexivity|].
  split; [apply read_and_parse_dat_parse|].
  split; [intros fuel Hfuel; apply read_with_parse, Hfuel|].
  split; [|apply for_body_forward].
  cbn [outcome]. unfold parse, table_of, table.
  destruct (split_at_header file) as [[[pre hdr] post]|]; [|auto].
  destruct (rows (line_fields hdr) (tl post)); eauto.
Qed.

Lemma complaints_positioned cols body : forall n,
  complaints cols n body
  = flat_map (fun pl => complaint_list cols (fst pl - 1) (snd pl))
             (positioned (n + 2) body).
Proof.
  unfold positioned.
  induction body as [|l body IH]; intros n; [reflexivity|].
  rewrite complaints_cons. cbn [length seq combine flat_map fst snd].
  replace (n + 2 - 1) with (S n) by lia.
  rewrite (IH (S n)). reflexivity.
Qed.

Lemma positioned_In body : forall pos p line,
  In (p, line) (positioned pos body)
  <-> exists i, p = pos + i /\ nth_error body i = Some line.
Proof.
  unfold positioned. induction body as [|l body IH]; intros pos p line.
  - simpl. split; [contradiction|]. intros ([|i] & _ & H); discriminate.
  - cbn [length seq combine In]. rewrite IH. split.
    + intros [H|(i & -> & H)].
      * injection H as <- <-. exists 0. split; [lia|reflexivity].
      * exists (S i). split; [lia|exact H].
    + intros ([|i] & -> & H).
      * injection H as <-. left. f_equal. lia.
      * right. exists i. split; [lia|exact H].
Qed.

Lemma line_at_app_r pre lines pos :
  line_at (pre ++ lines) (length pre + S pos) = nth_error lines pos.
Proof.
  unfold line_at. replace (length pre + S pos) with (S (length pre + pos))
    by lia.
  rewrite nth_error_app2 by lia. f_equal. lia.
Qed.

(** C9. With the header line at position [h] (positions count from 1), the
    call prints that it found the header at line [h], which is right, and
    then, for each line of the data section that it drops with a message,
    the position of that line less one: the line under the header is read
    without the counter moving. *)
Theorem skipped_rows_reported_one_early (pre : list string) (hdr sep : string)
    (body : list string) :
  no_header pre = true -> is_header hdr = true ->
  let file := pre ++ hdr :: sep :: body in
  let h := S (length pre) in
  log_of file
  = Some (HeaderFound h (line_fields hdr)
          :: flat_map (fun pl => complaint_list (line_fields hdr)
                                                (fst pl - 1) (snd pl))
                      (positioned (h + 2) body))
  /\ line_at file h = Some hdr
  /\ (forall i line,
        nth_error body i = Some line <-> In (h + 2 + i, line)
                                            (positioned (h + 2) body))
  /\ (forall i, line_at file (h + 2 + i) = nth_error body i)
  /\ (forall n line d,
        complaint (line_fields hdr) n line = Some d ->
        reported d = n /\ is_skip d = true).
Proof.
  intros Hp Hh file h. subst file h. repeat split.
  - rewrite log_of_app by assumption. cbn [tl].
    rewrite complaints_positioned. reflexivity.
  - replace (S (length pre)) with (length pre + 1) by lia.
    rewrite line_at_app_r. reflexivity.
  - intros H. apply positioned_In. exists i. auto.
  - intros H. apply positioned_In in H as (j & Hj & H).
    replace i with j by lia. exact H.
  - intros i. replace (S (length pre) + 2 + i)
      with (length pre + S (S (S i))) by lia.
    rewrite line_at_app_r. reflexivity.
  - unfold complaint in H. destruct (blank_or_rule line); [discriminate|].
    destruct (negb (length (line_fields line) =? length (line_fields hdr))%nat).
    + injection H as <-. reflexivity.
    + destruct (parsed_values (line_fields line)) as [|[m| |]];
        try discriminate. injection H as <-. reflexivity.
  - unfold complaint in H. destruct (blank_or_rule line); [discriminate|].
    destruct (negb (length (line_fields line) =? length (line_fields hdr))%nat).
    + injection H as <-. reflexivity.
    + destruct (parsed_values (line_fields line)) as [|[m| |]];
        try discriminate. injection H as <-. reflexivity.
Qed.

Lemma complaints_skip cols lines : forall n,
  forallb is_skip (complaints cols n lines) = true.
Proof.
  induction lines as [|l lines IH]; intros n; [reflexivity|].
  rewrite complaints_cons, forallb_app, IH, andb_true_r.
  unfold complaint_list, complaint.
  destruct (blank_or_rule l); [reflexivity|].
  destruct (negb (length (line_fields l) =? length cols)%nat);
    [reflexivity|].
  destruct (parsed_values (line_fields l)) as [|[m| |]]; reflexivity.
Qed.

Lemma marker_line_converts_not line :
  (forall s, contains marker s = true -> int s = None) ->
  (forall s, contains marker s = true -> float s = None) ->
  is_header line = true -> convert (line_fields line) = None.
Proof.
  intros Hint Hfloat Hh.
  destruct (StrFacts.marker_field _ Hh) as (v & Hin & Hv).
  unfold line_fields. destruct (fields (strip line)) as [|v0 vs];
    [contradiction|].
  simpl. destruct Hin as [->|Hin].
  - rewrite (Hint _ Hv). reflexivity.
  - rewrite (all_floats_none _ _ Hin (Hfloat _ Hv)).
    destruct (int v0); reflexivity.
Qed.

Lemma row_of_iff cols line row :
  row_of cols line = Some row
  <-> blank_or_rule line = false
      /\ length (line_fields line) = length cols
      /\ convert (line_fields line) = Some row.
Proof.
  unfold row_of, valid_row. split.
  - destruct (blank_or_rule line); [discriminate|].
    destruct (length (line_fields line) =? length cols)%nat eqn:El;
      [|discriminate].
    apply Nat.eqb_eq in El. cbn [negb andb].
    destruct (convert (line_fields line)); [auto|discriminate].
  - intros (-> & El & ->). apply Nat.eqb_eq in El. rewrite El. reflexivity.
Qed.

(** C4. Given that neither [int] nor [float] converts a text with the
    marker in it: after the first header line the column names are fixed
    and the header is reported once; a later line with the marker in it,
    in the data section, is read as any line there, so that it gives a row
    exactly when it has as many fields as there are column names and they
    all convert; wherever it stands after the header line, the call
    returns what it returns with an empty line in its place. *)
Theorem later_marker_lines_are_data (pre : list string) (hdr later : string) :
  (forall s, contains marker s = true -> int s = None) ->
  (forall s, contains marker s = true -> float s = None) ->
  no_header pre = true -> is_header hdr = true -> is_header later = true ->
  (forall post df,
     result_of (pre ++ hdr :: post) = Some (Ok df) ->
     df_columns df = line_fields hdr)
  /\ (forall post,
        exists log,
          log_of (pre ++ hdr :: post)
          = Some (HeaderFound (S (length pre)) (line_fields hdr) :: log)
          /\ forallb is_skip log = true)
  /\ (forall sep before after,
        result_of (pre ++ hdr :: sep :: before ++ later :: after)
        = Some (table (line_fields hdr)
                      (rows (line_fields hdr) before
                       ++ row_list (line_fields hdr) later
                       ++ rows (line_fields hdr) after)))
  /\ (forall row,
        row_of (line_fields hdr) later = Some row
        <-> length (line_fields later) = length (line_fields hdr)
            /\ convert (line_fields later) = Some row)
  /\ (forall a b,
        result_of (pre ++ hdr :: a ++ later :: b)
        = result_of (pre ++ hdr :: a ++ EmptyString :: b)).
Proof.
  intros Hint Hfloat Hp Hh Hl.
  pose proof (marker_line_converts_not later Hint Hfloat Hl) as Hc.
  assert (Hinv : valid_row (line_fields hdr) later = false).
  { unfold valid_row. rewrite Hc. apply andb_false_r. }
  split; [|split; [|split; [|split]]].
  - intros post df. rewrite result_of_app by assumption. unfold table.
    destruct (rows (line_fields hdr) (tl post)); [discriminate|].
    intros H. injection H as <-. reflexivity.
  - intros post. rewrite log_of_app by assumption.
    eexists. split; [reflexivity|apply complaints_skip].
  - intros sep before after. rewrite result_of_app by assumption.
    cbn [tl]. rewrite rows_app, rows_cons. reflexivity.
  - intros row. rewrite row_of_iff, Hc. split.
    + intros (_ & _ & H). discriminate.
    + intros (_ & H). discriminate.
  - intros [|sep before] b; rewrite !result_of_app by assumption; cbn [tl app].
    + reflexivity.
    + rewrite (rows_without _ _ _ _ Hinv).
      rewrite (rows_without _ before EmptyString b); reflexivity.
Qed.

End Properties.

(** C10. The first line with the marker anywhere in it is the header,
    whatever stands around the marker and whichever name comes first: the
    call reports it as the header found, the table returned has the fields
    of that line as column names, and every row starts with the integer
    of its first field. So the header [Residual | Inner_Iter] gives a
    table whose first column, the integers, is named [Residual], and a
    line with the marker inside a longer word is a header too. *)
Theorem header_is_any_line_with_marker :
  (forall (conv : Conversions) (pre : list string) (hdr : string)
          (post : list string),
     no_marker pre = true -> contains marker hdr = true ->
     (exists log,
        log_of (pre ++ hdr :: post)
        = Some (HeaderFound (S (length pre)) (fields (strip hdr)) :: log))
     /\ forall df,
          result_of (pre ++ hdr :: post) = Some (Ok df) ->
          df_columns df = fields (strip hdr)
          /\ Forall (fun row => exists z rest, row = VInt z :: rest)
                    (df_data df))
  /\ result_of ["Residual | Inner_Iter"; "-----"; "0 | 1.5"]
     = Some (Ok {| df_columns := ["Residual"; "Inner_Iter"];
                   df_data := [[VInt 0;
                                VFloat (Decimal.Finite false 15 (-1))]] |})
  /\ result_of ["log of My_Inner_Iterations | CFL"; "-----"; "7 | 2"]
     = Some (Ok {| df_columns := ["log of My_Inner_Iterations"; "CFL"];
                   df_data := [[VInt 7;
                                VFloat (Decimal.Finite false 2 0)]] |}).
Proof.
  split; [|split; reflexivity].
  intros conv pre hdr post Hp Hh.
  rewrite <- no_header_no_marker in Hp. rewrite <- is_header_contains in Hh.
  split.
  - rewrite log_of_app by assumption. eexists. reflexivity.
  - intros df Hdf. split.
    + rewrite result_of_app in Hdf by assumption. unfold table in Hdf.
      destruct (rows (line_fields hdr) (tl post)); [discriminate|].
      injection Hdf as <-. reflexivity.
    + pose proof (table_rows_typed _ _ Hdf) as Hrows.
      eapply Forall_impl; [|exact Hrows]. cbv beta.
      intros row (_ & line & v0 & vs & z & xs & _ & _ & _ & _ & ->).
      eauto.
Qed.

(** ** The theorems on the example log *)

Lemma table_of_well_formed_input_example :
  no_header Example.pre = true
  /\ is_header Example.hdr = true
  /\ filter (valid_row (line_fields Example.hdr))
            (Example.before ++ Example.bad :: Example.after) <> []
  /\ exists df,
       result_of (Example.pre ++ Example.hdr :: Example.sep
                  :: Example.before ++ Example.bad :: Example.after)
       = Some (Ok df)
       /\ df_columns df
          = filter truthy (map strip (split "|" (strip Example.hdr)))
       /\ Forall (fun name => truthy name = true) (df_columns df)
       /\ length (df_data df)
          = length (filter (valid_row (line_fields Example.hdr))
                           (Example.before ++ Example.bad :: Example.after))
       /\ map Some (df_data df)
          = map (fun line => convert (line_fields line))
                (filter (valid_row (line_fields Example.hdr))
                        (Example.before ++ Example.bad :: Example.after)).
Proof.
  assert (H : filter (valid_row (line_fields Example.hdr))
                     (Example.before ++ Example.bad :: Example.after) <> [])
    by (vm_compute; discriminate).
  split; [reflexivity|]. split; [reflexivity|]. split; [exact H|].
  exact (table_of_well_formed_input Example.pre Example.hdr Example.sep
           (Example.before ++ Example.bad :: Example.after)
           eq_refl eq_refl H).
Defined.

Lemma malformed_bad : malformed (line_fields Example.hdr) Example.bad.
Proof.
  right. left. exists "x", ["bad"]. split; reflexivity.
Defined.

Lemma malformed_line_dropped_example :
  malformed (line_fields Example.hdr) Example.bad
  /\ result_of Example.file = Some (Ok Example.frame)
  /\ result_of Example.file
     = result_of (Example.pre ++ Example.hdr :: Example.sep
                  :: Example.before ++ Example.after).
Proof.
  split; [exact malformed_bad|].
  destruct (malformed_line_dropped Example.pre Example.hdr Example.sep
              Example.before Example.bad Example.after
              eq_refl eq_refl malformed_bad) as (H1 & H2 & _).
  split; [exact H1|exact H2].
Defined.

Lemma later_marker_lines_are_data_example :
  (forall s, contains marker s = true -> int s = None)
  /\ (forall s, contains marker s = true -> float s = None)
  /\ forall a b,
       result_of (Example.pre ++ Example.hdr :: a ++ Example.hdr :: b)
       = result_of (Example.pre ++ Example.hdr :: a ++ EmptyString :: b).
Proof.
  split; [exact DecimalFacts.py_int_marker|].
  split; [exact DecimalFacts.py_float_marker|].
  exact (proj2 (proj2 (proj2 (proj2
           (later_marker_lines_are_data (conv := decimal_conversions)
              Example.pre Example.hdr Example.hdr
              DecimalFacts.py_int_marker DecimalFacts.py_float_marker
              eq_refl eq_refl eq_refl))))).
Defined.

Lemma line_under_header_consumed_example :
  no_header Example.pre = true
  /\ is_header Example.hdr = true
  /\ valid_row (line_fields Example.hdr) (Example.eol "| 5 | 0.25 |") = true
  /\ result_of (Example.pre ++ [Example.hdr; Example.eol "| 5 | 0.25 |"])
     = Some (Raised no_valid_data)
  /\ read_and_parse_dat (Example.pre ++ [Example.hdr])
     = Some {| printed := [HeaderFound 3 ["Inner_Iter"; "rms[Rho]"]];
               outcome := Raised no_valid_data |}.
Proof.
  split; [reflexivity|]. split; [reflexivity|]. split; [reflexivity|].
  destruct (line_under_header_consumed Example.pre Example.hdr
              eq_refl eq_refl) as (_ & _ & H3 & H4).
  split; [apply H3; reflexivity|exact H4].
Defined.

Lemma blank_and_rule_lines_skipped_example :
  startswith "+" (strip Example.rule) = true
  /\ result_of (Example.pre ++ Example.hdr :: Example.sep
                :: Example.before ++ Example.rule :: Example.after)
     = result_of (Example.pre ++ Example.hdr :: Example.sep
                  :: Example.before ++ Example.after)
  /\ log_of (Example.pre ++ Example.hdr :: Example.sep
             :: Example.before ++ Example.rule :: Example.after)
     = Some [HeaderFound 3 ["Inner_Iter"; "rms[Rho]"]; SkippedCount 8 2 3].
Proof.
  split; [reflexivity|].
  destruct (blank_and_rule_lines_skipped Example.pre Example.hdr Example.sep
              Example.before Example.rule Example.after
              eq_refl eq_refl (or_intror eq_refl)) as (_ & H2 & H3).
  split; [exact H2|exact H3].
Defined.

Lemma rows_of_table_typed_example :
  result_of Example.file = Some (Ok Example.frame)
  /\ Forall (fun row =>
               length row = length (df_columns Example.frame)
               /\ exists line v0 vs z xs,
                    In line Example.file
                    /\ line_fields line = v0 :: vs
                    /\ int v0 = Some z
                    /\ Forall2 (fun v x => float v = Some x) vs xs
                    /\ row = VInt z :: map VFloat xs)
            (df_data Example.frame).
Proof.
  split; [reflexivity|].
  exact (rows_of_table_typed Example.file Example.frame eq_refl).
Defined.

Lemma skipped_rows_reported_one_early_example :
  no_header Example.pre = true
  /\ is_header Example.hdr = true
  /\ log_of Example.file
     = Some [HeaderFound 3 ["Inner_Iter"; "rms[Rho]"];
             SkippedInvalid 6 (InvalidLiteral ToInt "x");
             SkippedCount 8 2 3]
  /\ line_at Example.file 3 = Some Example.hdr
  /\ line_at Example.file 7 = Some Example.bad
  /\ line_at Example.file 9 = Some (Example.eol "|   1 |   2 |   3 |").
Proof.
  split; [reflexivity|]. split; [reflexivity|].
  destruct (skipped_rows_reported_one_early Example.pre Example.hdr
              Example.sep (Example.before ++ Example.bad :: Example.after)
              eq_refl eq_refl) as (H1 & H2 & _ & H4 & _).
  split; [exact H1|].
  split; [exact H2|].
  split; [exact (H4 2)|exact (H4 4)].
Defined.

(** ** The example of the specification *)

Example specification_example :
  read_and_parse_dat
    ["Inner_Iter | Residual"; "-----"; "0 | 1.5"; "1 | 0.002"; "x | bad"]
  = Some {| printed := [HeaderFound 1 ["Inner_Iter"; "Residual"];
                        SkippedInvalid 4 (InvalidLiteral ToInt "x")];
            outcome :=
              Ok {| df_columns := ["Inner_Iter"; "Residual"];
                    df_data :=
                      [[VInt 0; VFloat (Decimal.Finite false 15 (-1))];
                       [VInt 1; VFloat (Decimal.Finite false 2 (-3))]] |} |}.
Proof. reflexivity. Qed.

Example no_header_example :
  read_and_parse_dat ["0 | 1.5"; "1 | 0.002"]
  = Some {| printed := []; outcome := Raised header_not_found |}.
Proof. reflexivity. Qed.

Example rows_not_merged_example :
  result_of ["Inner_Iter | Residual"; "-----"; "3 | 1"; "1 | 2"; "3 | 1"]
  = Some (Ok {| df_columns := ["Inner_Iter"; "Residual"];
                df_data :=
                  [[VInt 3; VFloat (Decimal.Finite false 1 0)];
                   [VInt 1; VFloat (Decimal.Finite false 2 0)];
                   [VInt 3; VFloat (Decimal.Finite false 1 0)]] |}).
Proof. reflexivity. Qed.

(** ** More about the parser: trimming, names, counts *)

Module StripFacts.

Lemma rstrip_ends_solid s : ends_solid (rstrip s) = true.
Proof.
  induction s as [|c s IH]; [reflexivity|]. simpl.
  destruct (rstrip s) as [|r0 r].
  - destruct (isspace c) eqn:Ec; [reflexivity|]. simpl. rewrite Ec.
    reflexivity.
  - exact IH.
Qed.

Lemma rstrip_starts_solid s :
  starts_solid s = true -> starts_solid (rstrip s) = true.
Proof.
  destruct s as [|c s]; [reflexivity|]. simpl. intros Hc.
  destruct (rstrip s); [|exact Hc].
  apply negb_true_iff in Hc. rewrite Hc. simpl. rewrite Hc. reflexivity.
Qed.

Lemma lstrip_starts_solid s : starts_solid (lstrip s) = true.
Proof.
  induction s as [|c s IH]; [reflexivity|]. simpl.
  destruct (isspace c) eqn:Ec; [exact IH|]. simpl. rewrite Ec. reflexivity.
Qed.

Lemma lstrip_solid s : starts_solid s = true -> lstrip s = s.
Proof.
  destruct s as [|c s]; [reflexivity|]. simpl. intros H.
  apply negb_true_iff in H. rewrite H. reflexivity.
Qed.

Lemma rstrip_solid s : ends_solid s = true -> rstrip s = s.
Proof.
  induction s as [|c s IH]; [reflexivity|]. intros H.
  destruct s as [|c' s].
  - simpl in *. apply negb_true_iff in H. rewrite H. reflexivity.
  - change (ends_solid (String c' s) = true) in H.
    change (rstrip (String c (String c' s)))
      with (match rstrip (String c' s) with
            | EmptyString =>
                if isspace c then EmptyString else String c EmptyString
            | r => String c r
            end).
    rewrite (IH H). reflexivity.
Qed.

Lemma strip_starts_solid s : starts_solid (strip s) = true.
Proof. apply rstrip_starts_solid, lstrip_starts_solid. Qed.

Lemma strip_ends_solid s : ends_solid (strip s) = true.
Proof. apply rstrip_ends_solid. Qed.

(** Trimming twice is trimming once. *)
Lemma strip_strip s : strip (strip s) = strip s.
Proof.
  unfold strip at 1.
  rewrite (lstrip_solid _ (strip_starts_solid s)).
  apply rstrip_solid, strip_ends_solid.
Qed.

Lemma lstrip_chars s c : In c (chars (lstrip s)) -> In c (chars s).
Proof.
  induction s as [|a s IH]; [auto|]. simpl.
  destruct (isspace a); [right; auto|auto].
Qed.

Lemma rstrip_chars s c : In c (chars (rstrip s)) -> In c (chars s).
Proof.
  induction s as [|a s IH]; [auto|]. simpl.
  destruct (rstrip s) as [|r0 r].
  - destruct (isspace a); [contradiction|].
    intros [H|[]]. left. exact H.
  - intros [H|H]; [left; exact H|right; apply IH, H].
Qed.

Lemma strip_free_of sep s : free_of sep s = true -> free_of sep (strip s) = true.
Proof.
  unfold free_of. rewrite !forallb_forall. intros H c Hc.
  apply H, lstrip_chars, rstrip_chars, Hc.
Qed.

Lemma split_free_of sep s p : In p (split sep s) -> free_of sep p = true.
Proof.
  revert p. induction s as [|c s IH]; intros p Hin.
  - destruct Hin as [<-|[]]. reflexivity.
  - simpl in Hin. destruct (Ascii.eqb c sep) eqn:Ec.
    + destruct Hin as [<-|Hin]; [reflexivity|auto].
    + destruct (split sep s) as [|p0 ps].
      * destruct Hin as [<-|[]]. unfold free_of. simpl. rewrite Ec.
        reflexivity.
      * destruct Hin as [<-|Hin].
        -- unfold free_of. simpl. rewrite Ec. simpl.
           apply (IH p0). left. reflexivity.
        -- apply IH. right. exact Hin.
Qed.

(** The fields of a text are clean names. *)
Lemma fields_clean s name : In name (fields s) -> clean_name name = true.
Proof.
  unfold fields. intros H. apply filter_In in H as [H Ht].
  apply in_map_iff in H as (p & <- & Hp). unfold clean_name.
  rewrite Ht, (strip_free_of _ _ (split_free_of _ _ _ Hp)),
    strip_starts_solid, strip_ends_solid. reflexivity.
Qed.

End StripFacts.

Section ParserMore.
Context {conv : Conversions}.

(** X1. A table the call returns has at least one row and at least one
    column, and one of its column names has the marker in it. *)
Theorem table_not_empty (file : list string) (df : DataFrame) :
  result_of file = Some (Ok df) ->
  df_data df <> []
  /\ df_columns df <> []
  /\ exists name, In name (df_columns df) /\ contains marker name = true.
Proof.
  rewrite result_of_parse. unfold parse. intros H.
  destruct (split_at_header file) as [[[pre hdr] post]|] eqn:E;
    [|discriminate].
  apply split_at_header_some in E as (_ & _ & Hh).
  unfold table_of, table in H.
  destruct (rows (line_fields hdr) (tl post)) as [|r rs]; [discriminate|].
  injection H as <-. cbn [df_columns df_data].
  destruct (StrFacts.marker_field _ Hh) as (v & Hin & Hv).
  split; [discriminate|]. split; [|exists v; auto].
  intros E. unfold line_fields in E. rewrite E in Hin. contradiction.
Qed.

(** X2. Every column name of a table the call returns is not empty, has
    no [|] in it and neither starts nor ends with white space. *)
Theorem column_names_clean (file : list string) (df : DataFrame) :
  result_of file = Some (Ok df) ->
  Forall (fun name => clean_name name = true) (df_columns df).
Proof.
  rewrite result_of_parse. unfold parse. intros H.
  destruct (split_at_header file) as [[[pre hdr] post]|]; [|discriminate].
  unfold table_of, table in H.
  destruct (rows (line_fields hdr) (tl post)) as [|r rs]; [discriminate|].
  injection H as <-. cbn [df_columns].
  apply Forall_forall. intros name Hin.
  apply (StripFacts.fields_clean _ _ Hin).
Qed.

Lemma complaint_or_row cols line :
  cols <> [] ->
  length (row_list cols line) + length (complaint_list cols 0 line)
  + (if blank_or_rule line then 1 else 0) = 1.
Proof.
  intros Hne. unfold row_list, complaint_list, row_of, valid_row, complaint.
  destruct (blank_or_rule line); [reflexivity|]. cbn [negb andb].
  destruct (length (line_fields line) =? length cols)%nat eqn:El;
    [|reflexivity].
  cbn [negb andb].
  destruct (convert (line_fields line)) as [row|] eqn:Ec.
  - rewrite (parsed_values_some _ _ Ec). reflexivity.
  - destruct (parsed_values_none (line_fields line)) as (k & v & _ & E).
    + apply Nat.eqb_eq in El. intros E0. rewrite E0 in El.
      destruct cols; [congruence|discriminate].
    + exact Ec.
    + rewrite E. reflexivity.
Qed.

Lemma complaint_list_length cols n m line :
  length (complaint_list cols n line) = length (complaint_list cols m line).
Proof.
  unfold complaint_list, complaint.
  destruct (blank_or_rule line); [reflexivity|].
  destruct (negb (length (line_fields line) =? length cols)%nat);
    [reflexivity|].
  destruct (parsed_values (line_fields line)) as [|[e| |]]; reflexivity.
Qed.

Lemma rows_complaints_count cols lines : forall n,
  cols <> [] ->
  length (rows cols lines) + length (complaints cols n lines)
  + length (filter blank_or_rule lines) = length lines.
Proof.
  intros n Hne. revert n.
  induction lines as [|l lines IH]; intros n; [reflexivity|].
  rewrite rows_cons, complaints_cons, !length_app. cbn [filter length].
  pose proof (complaint_or_row cols l Hne) as H1.
  rewrite (complaint_list_length cols (S n) 0 l).
  specialize (IH (S n)).
  destruct (blank_or_rule l); cbn [length]; lia.
Qed.

(** X3. Below the header and the line under it, every line is accounted
    for once: it gives a row, or a printed message that it was skipped,
    or it is a blank line or a rule. So the rows the loop holds at its
    end, the messages after the header message, and the blank and rule
    lines add up to the number of those lines. *)
Theorem data_lines_accounted (pre : list string) (hdr sep : string)
    (body : list string) :
  no_header pre = true -> is_header hdr = true ->
  exists s,
    for_loop (S (length (pre ++ hdr :: sep :: body)))
             (initial (pre ++ hdr :: sep :: body)) = Some (s, None)
    /\ log_of (pre ++ hdr :: sep :: body) = Some (stdout s)
    /\ length (data s) + (length (stdout s) - 1)
       + length (filter blank_or_rule body)
       = length body.
Proof.
  intros Hp Hh. exists (final_state (initial (pre ++ hdr :: sep :: body))
                                    (pre ++ hdr :: sep :: body)).
  split; [apply for_loop_seek; auto|].
  rewrite log_of_parse. unfold final_state, parse_log.
  rewrite split_at_header_app by assumption.
  cbn [initial data stdout line_number tl app Nat.add length].
  split; [reflexivity|].
  pose proof (rows_complaints_count (line_fields hdr) body
                (S (length pre))
                (StrFacts.header_fields_not_nil _ Hh)) as Hc.
  lia.
Qed.

Lemma split_at_header_pre pre rest :
  no_header pre = true ->
  split_at_header (pre ++ rest)
  = match split_at_header rest with
    | Some (p, hdr, post) => Some (pre ++ p, hdr, post)
    | None => None
    end.
Proof.
  intros Hp. induction pre as [|l pre IH]; simpl.
  - destruct (split_at_header rest) as [[[p h] q]|]; reflexivity.
  - simpl in Hp. apply andb_true_iff in Hp as [Hl Hp].
    apply negb_true_iff in Hl. rewrite Hl, (IH Hp).
    destruct (split_at_header rest) as [[[p h] q]|]; reflexivity.
Qed.

Lemma complaints_shift cols k lines : forall n,
  complaints cols (k + n) lines = map (shift k) (complaints cols n lines).
Proof.
  induction lines as [|l lines IH]; intros n; [reflexivity|].
  rewrite !complaints_cons, map_app.
  replace (S (k + n)) with (k + S n) by lia. rewrite IH. f_equal.
  unfold complaint_list, complaint.
  destruct (blank_or_rule l); [reflexivity|].
  destruct (negb (length (line_fields l) =? length cols)%nat);
    [reflexivity|].
  destruct (parsed_values (line_fields l)) as [|[e| |]]; reflexivity.
Qed.

(** X4. Lines without the marker in front of an input change nothing of
    what the call returns or raises; the lines it prints are the same
    with every line number moved up by the number of lines added. *)
Theorem preamble_ignored (pre rest : list string) :
  no_marker pre = true ->
  result_of (pre ++ rest) = result_of rest
  /\ log_of (pre ++ rest)
     = option_map (map (shift (length pre))) (log_of rest).
Proof.
  intros Hp. rewrite <- no_header_no_marker in Hp.
  rewrite !result_of_parse, !log_of_parse. unfold parse, parse_log.
  rewrite (split_at_header_pre _ _ Hp).
  destruct (split_at_header rest) as [[[p hdr] post]|]; [|auto].
  split; [reflexivity|]. cbn [option_map map shift]. rewrite length_app.
  replace (S (length pre + length p)) with (length pre + S (length p))
    by lia.
  rewrite complaints_shift. reflexivity.
Qed.

Lemma is_header_strip a b : strip a = strip b -> is_header a = is_header b.
Proof. unfold is_header. intros ->. reflexivity. Qed.

Lemma rows_strip cols a b :
  Forall2 (fun x y => strip x = strip y) a b -> rows cols a = rows cols b.
Proof.
  induction 1 as [|x y a b Hxy _ IH]; [reflexivity|].
  rewrite !rows_cons, IH. f_equal.
  unfold row_list, row_of, valid_row, blank_or_rule, line_fields.
  rewrite Hxy. reflexivity.
Qed.

Lemma complaints_strip cols a b :
  Forall2 (fun x y => strip x = strip y) a b ->
  forall n, complaints cols n a = complaints cols n b.
Proof.
  induction 1 as [|x y a b Hxy _ IH]; intros n; [reflexivity|].
  rewrite !complaints_cons, IH. f_equal.
  unfold complaint_list, complaint, blank_or_rule, line_fields.
  rewrite Hxy. reflexivity.
Qed.

Lemma Forall2_tl {A B} (R : A -> B -> Prop) a b :
  Forall2 R a b -> Forall2 R (tl a) (tl b).
Proof. destruct 1; [constructor|assumption]. Qed.

Lemma read_strip a b :
  Forall2 (fun x y => strip x = strip y) a b ->
  read_and_parse_dat a = read_and_parse_dat b.
Proof.
  intros H. rewrite !read_and_parse_dat_parse. unfold parse, parse_log.
  assert (Hs : match split_at_header a, split_at_header b with
               | Some (p, h, q), Some (p', h', q') =>
                   length p = length p' /\ strip h = strip h'
                   /\ Forall2 (fun x y => strip x = strip y) q q'
               | None, None => True
               | _, _ => False
               end).
  { induction H as [|x y a b Hxy H IH]; [exact I|]. simpl.
    rewrite (is_header_strip _ _ Hxy).
    destruct (is_header y); [auto|].
    destruct (split_at_header a) as [[[p h] q]|],
             (split_at_header b) as [[[p' h'] q']|]; try contradiction;
      [|exact I].
    destruct IH as (Hl & Hh & Hq). simpl. auto. }
  destruct (split_at_header a) as [[[p h] q]|],
           (split_at_header b) as [[[p' h'] q']|]; try contradiction;
    [|reflexivity].
  destruct Hs as (Hl & Hh & Hq). apply Forall2_tl in Hq.
  unfold table_of, line_fields. rewrite Hl, Hh.
  rewrite (rows_strip _ _ _ Hq), (complaints_strip _ _ _ Hq). reflexivity.
Qed.

(** X5. White space at the ends of the lines, the end of line included,
    never matters: two inputs whose lines are the same once trimmed give
    the same return value and the same printed lines, and so does an
    input and its trimmed lines. *)
Theorem surrounding_space_ignored (file : list string) :
  (forall file',
     Forall2 (fun x y => strip x = strip y) file file' ->
     read_and_parse_dat file = read_and_parse_dat file')
  /\ read_and_parse_dat (map strip file) = read_and_parse_dat file.
Proof.
  split; [intros file'; apply read_strip|].
  apply read_strip. induction file as [|l file IH]; constructor.
  - apply StripFacts.strip_strip.
  - exact IH.
Qed.

(** X6. Lines added at the end of an input that gives a table only add
    rows at the end of the table: the column names and the rows already
    there stay, and the rows of the added lines follow. *)
Theorem appended_lines_append_rows (file more : list string)
    (df : DataFrame) :
  result_of file = Some (Ok df) ->
  result_of (file ++ more)
  = Some (Ok {| df_columns := df_columns df;
                df_data := df_data df ++ rows (df_columns df) more |}).
Proof.
  rewrite !result_of_parse. unfold parse. intros H.
  destruct (split_at_header file) as [[[pre hdr] post]|] eqn:E;
    [|discriminate].
  apply split_at_header_some in E as (-> & Hp & Hh).
  rewrite <- app_assoc. cbn [app].
  rewrite (split_at_header_app _ _ _ Hp Hh).
  unfold table_of, table in *.
  destruct post as [|sep body]; [discriminate|]. cbn [tl app] in *.
  rewrite rows_app.
  destruct (rows (line_fields hdr) body) as [|r rs]; [discriminate|].
  injection H as <-. reflexivity.
Qed.

End ParserMore.

(** ** The plots of read.py: what a call of [plot_data] leaves *)

Module PlotFacts.
Import Plot.
Section PlotFacts.
Context {conv : Conversions}.

Lemma nth_error_update_nth {A : Type} (g : A -> A) (l : list A) :
  forall i k,
    nth_error (update_nth i g l) k
    = if (k =? i)%nat then option_map g (nth_error l k) else nth_error l k.
Proof.
  induction l as [|a l IH]; intros i k.
  - destruct i, k; simpl; try reflexivity.
    destruct (k =? i)%nat; reflexivity.
  - destruct i as [|i], k as [|k]; simpl; try reflexivity. apply IH.
Qed.

Lemma length_update_nth {A : Type} (g : A -> A) (l : list A) :
  forall i, length (update_nth i g l) = length l.
Proof.
  induction l as [|a l IH]; intros [|i]; simpl; auto.
Qed.

Lemma update_nth_twice {A : Type} (g h : A -> A) (l : list A) :
  forall i,
    update_nth i g (update_nth i h l) = update_nth i (fun a => g (h a)) l.
Proof.
  induction l as [|a l IH]; intros [|i]; simpl; try reflexivity.
  rewrite IH. reflexivity.
Qed.

Lemma on_on ax g h fig : on ax g (on ax h fig) = on ax (fun a => g (h a)) fig.
Proof. unfold on. simpl. rewrite update_nth_twice. reflexivity. Qed.

(** One turn of the plotting loop is one change of one subplot. *)
Lemma plot_columns_cons df log flat colors i col rest fig ax :
  nth_error flat i = Some ax ->
  existsb (String.eqb inner_iter) (df_columns df) = true ->
  colors <> [] ->
  plot_columns df log flat colors i (col :: rest) fig
  = plot_columns df log flat colors (S i) rest
                 (on ax (draw log colors i col) fig).
Proof.
  intros Hax Hin Hc. cbn [plot_columns]. rewrite Hax, Hin. cbn [negb].
  destruct colors as [|c0 cs]; [congruence|].
  f_equal. unfold draw. destruct log; rewrite ?on_on; reflexivity.
Qed.

(** Case analysis on the comparisons of a goal. *)
Ltac compare_all :=
  repeat match goal with
         | |- context [(?a <=? ?b)%nat] => destruct (Nat.leb_spec a b)
         | |- context [(?a <? ?b)%nat] => destruct (Nat.ltb_spec a b)
         | |- context [(?a =? ?b)%nat] => destruct (Nat.eqb_spec a b)
         end;
  cbn [andb orb negb]; try reflexivity; try lia.

Lemma plot_columns_ok df log flat colors cols : forall i fig,
  existsb (String.eqb inner_iter) (df_columns df) = true ->
  colors <> [] ->
  (forall k, k < length cols -> nth_error flat (i + k) = Some (i + k)) ->
  exists fig',
    plot_columns df log flat colors i cols fig = inr fig'
    /\ fig_axes fig' = fig_axes fig
    /\ length (made fig') = length (made fig)
    /\ forall k,
         nth_error (made fig') k
         = if ((i <=? k) && (k <? i + length cols))%nat
           then option_map (draw log colors k (nth (k - i) cols EmptyString))
                           (nth_error (made fig) k)
           else nth_error (made fig) k.
Proof.
  induction cols as [|col rest IH]; intros i fig Hin Hc Hflat.
  - exists fig. repeat split. intros k. cbn [length]. compare_all.
  - assert (Hax : nth_error flat i = Some i).
    { rewrite <- (Nat.add_0_r i) at 1 2. apply Hflat. simpl. lia. }
    rewrite (plot_columns_cons _ _ _ _ _ _ _ _ _ Hax Hin Hc).
    destruct (IH (S i) (on i (draw log colors i col) fig) Hin Hc)
      as (fig' & E & Ha & Hl & Hk).
    { intros k Hlt. replace (S i + k) with (i + S k) by lia.
      apply Hflat. simpl. lia. }
    exists fig'. split; [exact E|]. split; [exact Ha|].
    split; [rewrite Hl; apply length_update_nth|].
    intros k. rewrite Hk. cbn [on made length].
    rewrite nth_error_update_nth. compare_all.
    + replace (k - i) with (S (k - S i)) by lia. reflexivity.
    + subst k. rewrite Nat.sub_diag. reflexivity.
Qed.

Lemma seq_nth_error a n k : k < n -> nth_error (seq a n) k = Some (a + k).
Proof.
  revert a k. induction n as [|n IH]; intros a k Hk; [lia|].
  destruct k as [|k]; simpl.
  - f_equal. lia.
  - rewrite IH by lia. f_equal. lia.
Qed.

(** The labels of the bottom row. *)
Lemma label_bottom_seq len : forall a fig,
  (forall k, a <= k < a + len ->
             existsb (Nat.eqb k) (fig_axes fig) = true) ->
  fig_axes (label_bottom (seq a len) fig) = fig_axes fig
  /\ length (made (label_bottom (seq a len) fig)) = length (made fig)
  /\ forall k,
       nth_error (made (label_bottom (seq a len) fig)) k
       = if ((a <=? k) && (k <? a + len))%nat
         then option_map (ax_set_xlabel inner_iter) (nth_error (made fig) k)
         else nth_error (made fig) k.
Proof.
  induction len as [|len IH]; intros a fig Hin.
  - unfold label_bottom. cbn [seq fold_left]. repeat split.
    intros k. compare_all.
  - unfold label_bottom. cbn [seq fold_left].
    rewrite (Hin a) by lia.
    fold (label_bottom (seq (S a) len) (on a (ax_set_xlabel inner_iter) fig)).
    destruct (IH (S a) (on a (ax_set_xlabel inner_iter) fig))
      as (Ha & Hl & Hk).
    { intros k Hk. cbn [on fig_axes]. apply Hin. lia. }
    rewrite Ha, Hl. cbn [on fig_axes made]. rewrite length_update_nth.
    repeat split. intros k. rewrite Hk. cbn [on made].
    rewrite nth_error_update_nth. compare_all.
Qed.

Lemma filter_same {A : Type} (p q : A -> bool) (l : list A) :
  (forall x, In x l -> p x = q x) -> filter p l = filter q l.
Proof.
  induction l as [|x l IH]; intros H; [reflexivity|]. simpl.
  rewrite (H x) by (left; reflexivity).
  rewrite IH by (intros y Hy; apply H; right; exact Hy). reflexivity.
Qed.

Lemma filter_all {A : Type} (p : A -> bool) (l : list A) :
  (forall x, In x l -> p x = true) -> filter p l = l.
Proof.
  induction l as [|x l IH]; intros H; [reflexivity|]. simpl.
  rewrite (H x) by (left; reflexivity).
  rewrite IH by (intros y Hy; apply H; right; exact Hy). reflexivity.
Qed.

Lemma filter_none {A : Type} (p : A -> bool) (l : list A) :
  (forall x, In x l -> p x = false) -> filter p l = [].
Proof.
  induction l as [|x l IH]; intros H; [reflexivity|]. simpl.
  rewrite (H x) by (left; reflexivity).
  apply IH. intros y Hy. apply H. right. exact Hy.
Qed.

(** The removal of the subplots without a column. *)
Lemma remove_unused_seq total len : forall a fig,
  a + len <= total ->
  remove_unused (seq 0 total) (seq a len) fig
  = inr {| made := made fig;
           fig_axes := filter (fun x => negb ((a <=? x) && (x <? a + len))%nat)
                              (fig_axes fig) |}.
Proof.
  induction len as [|len IH]; intros a fig Hle.
  - cbn [seq remove_unused]. destruct fig as [m fa]. cbn [made fig_axes].
    rewrite filter_all; [reflexivity|]. intros x _. compare_all.
  - cbn [seq remove_unused]. rewrite seq_nth_error by lia. cbn [Nat.add].
    rewrite IH by lia. unfold delaxes. cbn [made fig_axes].
    do 2 f_equal. induction (fig_axes fig) as [|x fa IHfa]; [reflexivity|].
    cbn [filter].
    destruct (Nat.eqb_spec x a) as [->|Hne]; cbn [negb filter];
      rewrite IHfa; compare_all.
Qed.

Lemma filter_seq_below n total :
  n <= total ->
  filter (fun x => negb ((n <=? x) && (x <? n + (total - n)))%nat)
         (seq 0 total)
  = seq 0 n.
Proof.
  intros Hle.
  assert (E : seq 0 total = seq 0 n ++ seq n (total - n)).
  { rewrite <- seq_app. f_equal. lia. }
  rewrite E, filter_app.
  rewrite filter_all, filter_none; [apply app_nil_r| |].
  - intros x Hx. apply in_seq in Hx. compare_all.
  - intros x Hx. apply in_seq in Hx. compare_all.
Qed.

Lemma ceil_half_bounds n : n <= 2 * ceil_half n <= S n.
Proof.
  unfold ceil_half. pose proof (Nat.div2_odd (S n)) as H.
  destruct (Nat.odd (S n)); simpl Nat.b2n in H; lia.
Qed.

Lemma total_axes_bounds n : n <= total_axes n <= S n.
Proof.
  unfold total_axes. destruct (n <=? 2)%nat; [lia|apply ceil_half_bounds].
Qed.

Lemma existsb_seq n total :
  n < total -> existsb (Nat.eqb n) (seq 0 total) = true.
Proof.
  intros H. apply existsb_exists. exists n. split.
  - apply in_seq. lia.
  - apply Nat.eqb_refl.
Qed.

Lemma skipn_seq a b : skipn a (seq 0 (a + b)) = seq a b.
Proof.
  rewrite seq_app, skipn_app, length_seq, Nat.sub_diag.
  rewrite skipn_all2 by (rewrite length_seq; lia). reflexivity.
Qed.

Lemma firstn_seq a b : firstn b (seq a b) = seq a b.
Proof. apply firstn_all2. rewrite length_seq. lia. Qed.

(** The three loops of [plot_data] on a grid of [total] subplots whose
    bottom row starts at [b]. *)
Lemma loops_ok df log colors cols total b :
  existsb (String.eqb inner_iter) (df_columns df) = true ->
  colors <> [] ->
  length cols <= total -> b <= total ->
  exists fig1 fig,
    plot_columns df log (seq 0 total) colors 0 cols
                 {| made := repeat new_axes total; fig_axes := seq 0 total |}
    = inr fig1
    /\ remove_unused (seq 0 total)
                     (seq (length cols) (total - length cols))
                     (label_bottom (seq b (total - b)) fig1)
       = inr fig
    /\ fig_axes fig = seq 0 (length cols)
    /\ length (made fig) = total
    /\ forall k,
         k < total ->
         nth_error (made fig) k
         = Some ((if (b <=? k)%nat then ax_set_xlabel inner_iter
                  else fun x => x)
                   ((if (k <? length cols)%nat
                     then draw log colors k (nth k cols EmptyString)
                     else fun x => x) new_axes)).
Proof.
  intros Hin Hc Hn Hb.
  destruct (plot_columns_ok df log (seq 0 total) colors cols 0
              {| made := repeat new_axes total; fig_axes := seq 0 total |}
              Hin Hc) as (fig1 & E1 & Ha1 & Hl1 & Hk1).
  { intros k Hk. apply seq_nth_error. lia. }
  cbn [made fig_axes] in Ha1, Hl1, Hk1. rewrite repeat_length in Hl1.
  destruct (label_bottom_seq (total - b) b fig1) as (Ha2 & Hl2 & Hk2).
  { intros k Hk. rewrite Ha1. apply existsb_seq. lia. }
  exists fig1. eexists. split; [exact E1|].
  split; [apply remove_unused_seq; lia|].
  cbn [made fig_axes]. rewrite Ha2, Ha1, Hl2, Hl1.
  split; [apply filter_seq_below, Hn|]. split; [reflexivity|].
  intros k Hk. rewrite Hk2, Hk1, nth_error_repeat by exact Hk.
  rewrite Nat.sub_0_r. compare_all.
Qed.

Lemma has_inner_iter df :
  In inner_iter (df_columns df) ->
  existsb (String.eqb inner_iter) (df_columns df) = true.
Proof.
  intros H. apply existsb_exists. exists inner_iter.
  split; [exact H|apply String.eqb_refl].
Qed.

(** With two columns or more to plot, [plot_data] runs its three loops
    on the subplots numbered from 0, row by row. *)
Lemma plot_data_loops colors df log :
  2 <= length (columns_to_plot df) ->
  plot_data colors df log
  = let cols := columns_to_plot df in
    let total := total_axes (length cols) in
    let out := [PlottingColumns cols] in
    match plot_columns df log (seq 0 total) colors 0 cols
            {| made := repeat new_axes total; fig_axes := seq 0 total |} with
    | inl e => (out, inl e)
    | inr fig1 =>
        match remove_unused (seq 0 total)
                (seq (length cols) (total - length cols))
                (label_bottom (seq (bottom_start (length cols))
                                   (total - bottom_start (length cols)))
                              fig1) with
        | inl e => (out, inl e)
        | inr fig => (out, inr fig)
        end
    end.
Proof.
  intros Hn. unfold plot_data, total_axes, bottom_start. cbv zeta.
  destruct (columns_to_plot df) as [|c1 cols] eqn:Ecols; [simpl in Hn; lia|].
  set (all := c1 :: cols) in *.
  destruct (Nat.leb_spec (length all) 2) as [Hle|Hgt].
  - assert (Hl : length all = 2) by lia. rewrite Hl. reflexivity.
  - pose proof (ceil_half_bounds (length all)) as Hb.
    set (c := ceil_half (length all)) in *.
    assert (Hc2 : 2 <= c) by lia.
    unfold subplots.
    replace ((2 =? 0)%nat) with false by reflexivity.
    replace ((c =? 0)%nat) with false by (symmetry; apply Nat.eqb_neq; lia).
    replace ((2 =? 1)%nat) with false by reflexivity.
    replace ((c =? 1)%nat) with false by (symmetry; apply Nat.eqb_neq; lia).
    cbn [orb andb flatten seq map concat].
    assert (Hflat : seq (0 * c) c ++ seq (1 * c) c ++ [] = seq 0 (2 * c)).
    { rewrite app_nil_r. replace (2 * c) with (c + c) by lia.
      rewrite seq_app. f_equal. f_equal. lia. }
    rewrite Hflat. unfold slice, range.
    replace ((2 - 1) * c) with c by lia.
    replace (2 * c - c) with c by lia.
    replace (skipn c (seq 0 (2 * c))) with (seq c c)
      by (symmetry; replace (2 * c) with (c + c) by lia; apply skipn_seq).
    rewrite firstn_seq.
    replace (length all - 1 + 1) with (length all) by lia.
    reflexivity.
Qed.

Lemma bottom_start_le n : bottom_start n <= total_axes n.
Proof.
  unfold bottom_start, total_axes. destruct (n <=? 2)%nat; lia.
Qed.

Lemma in_bottom_row_start n k :
  in_bottom_row n k = (bottom_start n <=? k)%nat.
Proof.
  unfold in_bottom_row, bottom_start. destruct (n <=? 2)%nat; reflexivity.
Qed.

(** What [plot_data] leaves when it has two columns or more to plot, a
    column [Inner_Iter] for the other axis and a color. *)
Lemma plot_data_shown colors df log :
  2 <= length (columns_to_plot df) ->
  In inner_iter (df_columns df) ->
  colors <> [] ->
  exists fig,
    plot_data colors df log
    = ([PlottingColumns (columns_to_plot df)], inr fig)
    /\ fig_axes fig = seq 0 (length (columns_to_plot df))
    /\ length (made fig) = total_axes (length (columns_to_plot df))
    /\ forall k,
         k < total_axes (length (columns_to_plot df)) ->
         nth_error (made fig) k
         = Some (final_axes log colors (columns_to_plot df) k).
Proof.
  intros Hn Hin Hc. apply has_inner_iter in Hin.
  rewrite (plot_data_loops _ _ _ Hn). cbv zeta.
  destruct (loops_ok df log colors (columns_to_plot df)
              (total_axes (length (columns_to_plot df)))
              (bottom_start (length (columns_to_plot df))) Hin Hc)
    as (fig1 & fig & E1 & E2 & Ha & Hl & Hk).
  - apply total_axes_bounds.
  - apply bottom_start_le.
  - rewrite E1, E2. exists fig. repeat split; try assumption.
    intros k Hlt. rewrite (Hk k Hlt). unfold final_axes.
    rewrite in_bottom_row_start. reflexivity.
Qed.

Lemma plot_data_ways (colors : list string) (df : DataFrame)
    (log : bool) :
  let n := length (columns_to_plot df) in
  (n = 0 ->
   plot_data colors df log = ([NoColumnsToPlot], inl (SystemExit 1)))
  /\ (n = 1 ->
      plot_data colors df log
      = ([PlottingColumns (columns_to_plot df)], inl AttributeError))
  /\ (2 <= n -> ~ In inner_iter (df_columns df) ->
      plot_data colors df log
      = ([PlottingColumns (columns_to_plot df)], inl (KeyError inner_iter)))
  /\ (2 <= n -> In inner_iter (df_columns df) -> colors = [] ->
      plot_data colors df log
      = ([PlottingColumns (columns_to_plot df)], inl ZeroDivisionError))
  /\ (2 <= n -> In inner_iter (df_columns df) -> colors <> [] ->
      exists fig,
        plot_data colors df log
        = ([PlottingColumns (columns_to_plot df)], inr fig)).
Proof.
  cbv zeta. split; [|split; [|split; [|split]]].
  - intros Hn. apply length_zero_iff_nil in Hn. unfold plot_data.
    rewrite Hn. reflexivity.
  - intros Hn. unfold plot_data.
    destruct (columns_to_plot df) as [|c1 [|c2 cols]]; try discriminate.
    reflexivity.
  - intros Hn Hnot. rewrite (plot_data_loops _ _ _ Hn). cbv zeta.
    pose proof (total_axes_bounds (length (columns_to_plot df))) as Hb.
    destruct (columns_to_plot df) as [|c1 cols]; [simpl in Hn; lia|].
    cbn [plot_columns]. rewrite seq_nth_error by lia.
    replace (existsb (String.eqb inner_iter) (df_columns df)) with false;
      [reflexivity|].
    symmetry. apply not_true_is_false. intros H. apply Hnot.
    apply existsb_exists in H as (x & Hx & E).
    apply String.eqb_eq in E. subst x. exact Hx.
  - intros Hn Hin ->. rewrite (plot_data_loops _ _ _ Hn). cbv zeta.
    pose proof (total_axes_bounds (length (columns_to_plot df))) as Hb.
    destruct (columns_to_plot df) as [|c1 cols]; [simpl in Hn; lia|].
    cbn [plot_columns]. rewrite seq_nth_error by lia.
    rewrite (has_inner_iter _ Hin). reflexivity.
  - intros Hn Hin Hc.
    destruct (plot_data_shown colors df log Hn Hin Hc) as (fig & E & _).
    exists fig. exact E.
Qed.

(** A figure is shown only in the last of these ways. *)
Lemma shown_inv colors df log fig :
  snd (plot_data colors df log) = inr fig ->
  2 <= length (columns_to_plot df)
  /\ colors <> []
  /\ fig_axes fig = seq 0 (length (columns_to_plot df))
  /\ length (made fig) = total_axes (length (columns_to_plot df))
  /\ forall k,
       k < total_axes (length (columns_to_plot df)) ->
       nth_error (made fig) k
       = Some (final_axes log colors (columns_to_plot df) k).
Proof.
  intros Hfig.
  pose proof (plot_data_ways colors df log) as Hout. cbv zeta in Hout.
  destruct Hout as (H0 & H1 & H2 & H3 & _).
  assert (Hn : 2 <= length (columns_to_plot df)).
  { destruct (length (columns_to_plot df)) as [|[|n]]; [| |lia].
    - rewrite (H0 eq_refl) in Hfig. discriminate.
    - rewrite (H1 eq_refl) in Hfig. discriminate. }
  assert (Hin : In inner_iter (df_columns df)).
  { destruct (in_dec string_dec inner_iter (df_columns df)) as [H|H];
      [exact H|].
    rewrite (H2 Hn H) in Hfig. discriminate. }
  assert (Hc : colors <> []).
  { intros E. rewrite (H3 Hn Hin E) in Hfig. discriminate. }
  destruct (plot_data_shown colors df log Hn Hin Hc)
    as (fig' & E & Ha & Hl & Hk).
  rewrite E in Hfig. injection Hfig as <-. auto.
Qed.


Lemma final_axes_drawn log colors cols i col :
  nth_error cols i = Some col ->
  final_axes log colors cols i
  = (if in_bottom_row (length cols) i then ax_set_xlabel inner_iter
     else fun x => x) (draw log colors i col new_axes).
Proof.
  intros H. unfold final_axes.
  assert (Hi : i < length cols) by (apply nth_error_Some; congruence).
  replace ((i <? length cols)%nat) with true
    by (symmetry; apply Nat.ltb_lt; exact Hi).
  rewrite (nth_error_nth _ _ _ H). reflexivity.
Qed.

(** X8. When [plot_data] shows a figure, the subplots left in it are as
    many as the columns other than [Inner_Iter], one per column and in
    the order of the columns: the subplot of a column holds one [plot]
    call, of that column against [Inner_Iter] and labelled with its name,
    has the name as label of its vertical axis and in its title, a
    legend, a grid, and a logarithmic scale exactly when asked. *)
Theorem one_subplot_per_column (colors : list string) (df : DataFrame)
    (log : bool) (fig : figure) :
  snd (plot_data colors df log) = inr fig ->
  fig_axes fig = seq 0 (length (columns_to_plot df))
  /\ forall i col,
       nth_error (columns_to_plot df) i = Some col ->
       exists a,
         nth_error (made fig) i = Some a
         /\ plots a = [{| x_of := inner_iter; y_of := col;
                          color := nth (i mod length colors) colors
                                       EmptyString;
                          label := col |}]
         /\ ylabel a = Some col
         /\ title a = Some (String.append col " vs Inner_Iter")
         /\ yscale a = (if log then Log else Linear)
         /\ legend a = true /\ grid a = true.
Proof.
  intros Hfig. destruct (shown_inv _ _ _ _ Hfig) as (Hn & Hc & Ha & Hl & Hk).
  split; [exact Ha|]. intros i col Hcol.
  assert (Hi : i < length (columns_to_plot df))
    by (apply nth_error_Some; congruence).
  pose proof (total_axes_bounds (length (columns_to_plot df))) as Hb.
  eexists. split; [apply Hk; lia|].
  rewrite (final_axes_drawn _ _ _ _ _ Hcol).
  destruct (in_bottom_row _ i), log; repeat split.
Qed.

Lemma odd_ceil_half n : Nat.odd n = true -> 2 * ceil_half n = S n.
Proof.
  intros Ho. unfold ceil_half. pose proof (Nat.div2_odd (S n)) as H.
  rewrite Nat.odd_succ, <- Nat.negb_odd, Ho in H. simpl Nat.b2n in H. lia.
Qed.

Lemma xlabel_of_shown colors df log fig i :
  snd (plot_data colors df log) = inr fig ->
  i < length (columns_to_plot df) ->
  xlabel_of fig i
  = if in_bottom_row (length (columns_to_plot df)) i
    then Some inner_iter else None.
Proof.
  intros Hfig Hi.
  destruct (shown_inv _ _ _ _ Hfig) as (Hn & Hc & Ha & Hl & Hk).
  pose proof (total_axes_bounds (length (columns_to_plot df))) as Hb.
  unfold xlabel_of. rewrite Hk by lia. unfold final_axes.
  replace ((i <? length (columns_to_plot df))%nat) with true
    by (symmetry; apply Nat.ltb_lt; exact Hi).
  destruct (in_bottom_row _ i), log; reflexivity.
Qed.

(** X9. When [plot_data] shows a figure for [n] columns, it made [n]
    subplots or one more, and the one more is no longer in the figure.
    The label [Inner_Iter] of the horizontal axis is under every subplot
    when there is one row, and under those of the second row only when
    there are two. With an odd number of columns, three or more, the last
    column of the grid keeps its upper subplot without that label, and
    the subplot below it is the one removed. *)
Theorem bottom_row_labelled (colors : list string) (df : DataFrame)
    (log : bool) (fig : figure) :
  snd (plot_data colors df log) = inr fig ->
  let n := length (columns_to_plot df) in
  n <= length (made fig) <= S n
  /\ (forall k, In k (fig_axes fig) <-> k < n)
  /\ (forall i, i < n ->
                xlabel_of fig i
                = if in_bottom_row n i then Some inner_iter else None)
  /\ (3 <= n -> Nat.odd n = true ->
      xlabel_of fig (ceil_half n - 1) = None
      /\ In (ceil_half n - 1) (fig_axes fig)
      /\ ceil_half n - 1 + ceil_half n < length (made fig)
      /\ ~ In (ceil_half n - 1 + ceil_half n) (fig_axes fig)).
Proof.
  intros Hfig. cbv zeta.
  destruct (shown_inv _ _ _ _ Hfig) as (Hn & Hc & Ha & Hl & Hk).
  pose proof (total_axes_bounds (length (columns_to_plot df))) as Hb.
  split; [rewrite Hl; exact Hb|].
  split; [intros k; rewrite Ha, in_seq; lia|].
  split; [intros i Hi; apply (xlabel_of_shown _ _ _ _ _ Hfig Hi)|].
  intros H3 Hodd. pose proof (odd_ceil_half _ Hodd) as Hodd2.
  rewrite (xlabel_of_shown _ _ _ _ _ Hfig) by lia.
  rewrite Ha, Hl, !in_seq. unfold in_bottom_row, total_axes.
  replace ((length (columns_to_plot df) <=? 2)%nat) with false
    by (symmetry; apply Nat.leb_gt; lia).
  replace ((ceil_half (length (columns_to_plot df))
            <=? ceil_half (length (columns_to_plot df)) - 1)%nat)
    with false by (symmetry; apply Nat.leb_gt; lia).
  repeat split; lia.
Qed.

Lemma line_color_shown colors df log fig i :
  snd (plot_data colors df log) = inr fig ->
  i < length (columns_to_plot df) ->
  line_color fig i = Some (nth (i mod length colors) colors EmptyString).
Proof.
  intros Hfig Hi.
  destruct (shown_inv _ _ _ _ Hfig) as (Hn & Hc & Ha & Hl & Hk).
  pose proof (total_axes_bounds (length (columns_to_plot df))) as Hb.
  unfold line_color. rewrite Hk by lia. unfold final_axes.
  replace ((i <? length (columns_to_plot df))%nat) with true
    by (symmetry; apply Nat.ltb_lt; exact Hi).
  destruct (in_bottom_row _ i), log; reflexivity.
Qed.

(** X10. When [plot_data] shows a figure, the line of the subplot [i]
    has the color [i mod len(colors)] of the cycle. So with more columns
    than colors the first subplot and the one after the last color have
    the same color; with colors that are all different and no more
    columns than colors, no two subplots have the same. *)
Theorem subplot_colors (colors : list string) (df : DataFrame)
    (log : bool) (fig : figure) :
  snd (plot_data colors df log) = inr fig ->
  let n := length (columns_to_plot df) in
  (forall i, i < n ->
             line_color fig i
             = Some (nth (i mod length colors) colors EmptyString))
  /\ (length colors < n ->
      line_color fig 0 = line_color fig (length colors))
  /\ (NoDup colors -> n <= length colors ->
      forall i j, i < j < n -> line_color fig i <> line_color fig j).
Proof.
  intros Hfig. cbv zeta.
  destruct (shown_inv _ _ _ _ Hfig) as (Hn & Hc & _).
  assert (HL : length colors <> 0)
    by (destruct colors; [congruence|discriminate]).
  split; [intros i Hi; apply (line_color_shown _ _ _ _ _ Hfig Hi)|].
  split.
  - intros Hlt. rewrite !(line_color_shown _ _ _ _ _ Hfig) by lia.
    rewrite Nat.Div0.mod_same, Nat.Div0.mod_0_l. reflexivity.
  - intros Hnd Hle i j Hij.
    rewrite !(line_color_shown _ _ _ _ _ Hfig) by lia.
    rewrite !Nat.mod_small by lia. intros E. injection E as E.
    apply (proj1 (NoDup_nth colors EmptyString) Hnd) in E; lia.
Qed.

Lemma filter_not_inner (l : list string) :
  ~ In inner_iter l ->
  filter (fun col => negb (String.eqb col inner_iter)) l = l.
Proof.
  intros H. apply filter_all. intros x Hx.
  destruct (String.eqb_spec x inner_iter) as [->|]; [contradiction|].
  reflexivity.
Qed.

Lemma ok_columns_not_nil file df :
  result_of file = Some (Ok df) -> df_columns df <> [].
Proof.
  rewrite result_of_parse. unfold parse. intros H.
  destruct (split_at_header file) as [[[pre hdr] post]|] eqn:E;
    [|discriminate].
  apply split_at_header_some in E as (_ & _ & Hh).
  unfold table_of, table in H.
  destruct (rows (line_fields hdr) (tl post)) as [|r rs]; [discriminate|].
  injection H as <-. cbn [df_columns].
  apply StrFacts.header_fields_not_nil, Hh.
Qed.

(** X11. A table that [read_and_parse_dat] returns without a column
    named exactly [Inner_Iter] (the marker stood inside a longer name of
    the header) cannot be plotted: [plot_data] raises [AttributeError]
    when the table has one column and [KeyError] when it has more, and
    shows nothing. *)
Theorem parsed_without_inner_iter_not_plotted (colors : list string)
    (file : list string) (df : DataFrame) (log : bool) :
  result_of file = Some (Ok df) ->
  ~ In inner_iter (df_columns df) ->
  (length (df_columns df) = 1
   /\ snd (plot_data colors df log) = inl AttributeError)
  \/ (2 <= length (df_columns df)
      /\ snd (plot_data colors df log) = inl (KeyError inner_iter)).
Proof.
  intros Hdf Hnot. pose proof (ok_columns_not_nil _ _ Hdf) as Hne.
  pose proof (plot_data_ways colors df log) as Hout. cbv zeta in Hout.
  destruct Hout as (_ & H1 & H2 & _).
  unfold columns_to_plot in H1, H2.
  rewrite (filter_not_inner _ Hnot) in H1, H2.
  destruct (df_columns df) as [|c1 [|c2 cols]] eqn:E; [congruence| |].
  - left. rewrite (H1 eq_refl). auto.
  - right. split; [simpl; lia|].
    rewrite H2; [reflexivity|simpl; lia|exact Hnot].
Qed.

End PlotFacts.
End PlotFacts.

(** ** The script of read.py: how a run ends *)

Module ScriptFacts.
Import Plot Script.
Section ScriptFacts.
Context {conv : Conversions}.





End ScriptFacts.
End ScriptFacts.

(** ** The further theorems on the example logs *)

Lemma table_not_empty_example :
  result_of Example.file = Some (Ok Example.frame)
  /\ df_data Example.frame <> []
  /\ df_columns Example.frame <> []
  /\ exists name,
       In name (df_columns Example.frame) /\ contains marker name = true.
Proof.
  split; [reflexivity|].
  exact (table_not_empty Example.file Example.frame eq_refl).
Defined.

Lemma column_names_clean_example :
  result_of Example.file = Some (Ok Example.frame)
  /\ Forall (fun name => clean_name name = true)
            (df_columns Example.frame).
Proof.
  split; [reflexivity|].
  exact (column_names_clean Example.file Example.frame eq_refl).
Defined.

Lemma data_lines_accounted_example :
  no_header Example.pre = true
  /\ is_header Example.hdr = true
  /\ exists s,
       for_loop (S (length Example.file)) (initial Example.file)
       = Some (s, None)
       /\ log_of Example.file = Some (stdout s)
       /\ length (data s) + (length (stdout s) - 1)
          + length (filter blank_or_rule
                           (Example.before ++ Example.bad :: Example.after))
          = 6.
Proof.
  split; [reflexivity|]. split; [reflexivity|].
  exact (data_lines_accounted Example.pre Example.hdr Example.sep
           (Example.before ++ Example.bad :: Example.after)
           eq_refl eq_refl).
Defined.

Lemma preamble_ignored_example :
  no_marker Example.pre = true
  /\ result_of Example.file
     = result_of (Example.hdr :: Example.sep
                  :: Example.before ++ Example.bad :: Example.after)
  /\ log_of Example.file
     = option_map (map (shift 2))
         (log_of (Example.hdr :: Example.sep
                  :: Example.before ++ Example.bad :: Example.after)).
Proof.
  split; [reflexivity|].
  exact (preamble_ignored Example.pre
           (Example.hdr :: Example.sep
            :: Example.before ++ Example.bad :: Example.after) eq_refl).
Defined.

Lemma appended_lines_append_rows_example :
  result_of Example.file = Some (Ok Example.frame)
  /\ result_of (Example.file ++ ["| 3 | 0.5 |"; "| oops |"])
     = Some (Ok {| df_columns := df_columns Example.frame;
                   df_data :=
                     df_data Example.frame
                     ++ rows (df_columns Example.frame)
                             ["| 3 | 0.5 |"; "| oops |"] |}).
Proof.
  split; [reflexivity|].
  exact (appended_lines_append_rows Example.file ["| 3 | 0.5 |"; "| oops |"]
           Example.frame eq_refl).
Defined.

Lemma one_subplot_per_column_example :
  snd (Plot.plot_data PlotExample.colors PlotExample.frame true)
  = inr PlotExample.fig
  /\ Plot.fig_axes PlotExample.fig = [0; 1; 2]
  /\ length (Plot.made PlotExample.fig) = 4.
Proof.
  split; [reflexivity|].
  split; [|reflexivity].
  exact (proj1 (PlotFacts.one_subplot_per_column PlotExample.colors
                  PlotExample.frame true PlotExample.fig eq_refl)).
Defined.

Lemma bottom_row_labelled_example :
  snd (Plot.plot_data PlotExample.colors PlotExample.frame true)
  = inr PlotExample.fig
  /\ Plot.xlabel_of PlotExample.fig 0 = None
  /\ Plot.xlabel_of PlotExample.fig 1 = None
  /\ Plot.xlabel_of PlotExample.fig 2 = Some Plot.inner_iter
  /\ ~ In 3 (Plot.fig_axes PlotExample.fig).
Proof.
  split; [reflexivity|].
  destruct (PlotFacts.bottom_row_labelled PlotExample.colors
              PlotExample.frame true PlotExample.fig eq_refl)
    as (_ & _ & Hx & Hodd).
  split; [exact (Hx 0 (le_S _ _ (le_S _ _ (le_n 1))))|].
  destruct (Hodd (le_n 3) eq_refl) as (H1 & _ & _ & H3).
  split; [exact H1|].
  split; [exact (Hx 2 (le_n 3))|exact H3].
Defined.

Lemma subplot_colors_example :
  snd (Plot.plot_data PlotExample.colors PlotExample.frame true)
  = inr PlotExample.fig
  /\ Plot.line_color PlotExample.fig 0 = Plot.line_color PlotExample.fig 2.
Proof.
  split; [reflexivity|].
  destruct (PlotFacts.subplot_colors PlotExample.colors PlotExample.frame
              true PlotExample.fig eq_refl) as (_ & H & _).
  exact (H (le_n 3)).
Defined.

Lemma parsed_without_inner_iter_not_plotted_example :
  result_of PlotExample.other_lines = Some (Ok PlotExample.other_frame)
  /\ ~ In Plot.inner_iter (df_columns PlotExample.other_frame)
  /\ snd (Plot.plot_data PlotExample.colors PlotExample.other_frame false)
     = inl (Plot.KeyError Plot.inner_iter).
Proof.
  assert (H : ~ In Plot.inner_iter (df_columns PlotExample.other_frame)).
  { intros [H|[H|[]]]; discriminate. }
  split; [reflexivity|]. split; [exact H|].
  destruct (PlotFacts.parsed_without_inner_iter_not_plotted
              PlotExample.colors PlotExample.other_lines
              PlotExample.other_frame false eq_refl H) as [(E & _)|(_ & E)].
  - discriminate.
  - exact E.
Defined.

(** ** The script analyze_surface_file.py: how it ends, what it writes *)

(** Case analysis on the comparisons of numbers in a goal. *)
Ltac compare_nat :=
  repeat match goal with
         | |- context [(?a <=? ?b)%nat] => destruct (Nat.leb_spec a b)
         | |- context [(?a <? ?b)%nat] => destruct (Nat.ltb_spec a b)
         | |- context [(?a =? ?b)%nat] => destruct (Nat.eqb_spec a b)
         end;
  cbn [andb orb negb]; try reflexivity; try lia.

Module SurfaceFacts.
Import PyDict Surface.

Lemma dict_get_set {V : Type} (k k' : string) (v : V) (d : dict V) :
  dict_get k (dict_set k' v d)
  = if String.eqb k' k then Some v else dict_get k d.
Proof.
  induction d as [|[k0 v0] d IH]; [reflexivity|]. simpl.
  destruct (String.eqb_spec k0 k') as [->|Hne]; simpl.
  - destruct (String.eqb k' k); reflexivity.
  - rewrite IH. destruct (String.eqb_spec k0 k) as [->|Hne'];
      [|reflexivity].
    destruct (String.eqb_spec k' k) as [->|]; [congruence|reflexivity].
Qed.

Lemma dict_set_hd {V : Type} (k : string) (v : V) k0 v0 (d : dict V) :
  exists d',
    dict_set k v ((k0, v0) :: d)
    = (k0, if String.eqb k0 k then v else v0) :: d'.
Proof.
  simpl. destruct (String.eqb_spec k0 k) as [->|]; eauto.
Qed.

Lemma load_one_get env st s k :
  dict_get k (fst (load_one env st s))
  = if String.eqb s k
    then match loaded env s with
         | Some c => Some c
         | None => dict_get k (fst st)
         end
    else dict_get k (fst st).
Proof.
  destruct st as [data out]. unfold load_one, loaded. cbn [fst].
  destruct (env s) as [| |columns [cols|]];
    try (cbn [fst]; destruct (String.eqb s k); reflexivity).
  - destruct (existsb (String.eqb "x") columns); cbn [fst].
    + apply dict_get_set.
    + destruct (String.eqb s k); reflexivity.
  - destruct (existsb (String.eqb "x") columns); cbn [fst];
      destruct (String.eqb s k); reflexivity.
Qed.

Lemma load_get_from env subdirs : forall st k,
  dict_get k (fst (fold_left (load_one env) subdirs st))
  = match (if existsb (String.eqb k) subdirs then loaded env k else None)
    with
    | Some c => Some c
    | None => dict_get k (fst st)
    end.
Proof.
  induction subdirs as [|s subdirs IH]; intros st k; [reflexivity|].
  cbn [fold_left existsb]. rewrite IH, load_one_get.
  rewrite (String.eqb_sym k s).
  destruct (String.eqb_spec s k) as [->|Hne]; cbn [orb].
  - destruct (existsb (String.eqb k) subdirs);
      destruct (loaded env k); reflexivity.
  - reflexivity.
Qed.

(** After the first loop the dict holds, for a subdirectory, the table
    kept for it. *)
Lemma load_get env subdirs k :
  dict_get k (fst (load env subdirs))
  = if existsb (String.eqb k) subdirs then loaded env k else None.
Proof.
  unfold load. rewrite load_get_from. cbn [fst dict_get].
  destruct (existsb (String.eqb k) subdirs); [|reflexivity].
  destruct (loaded env k); reflexivity.
Qed.

Lemma load_one_hd env data out s k0 v0 :
  loaded env k0 = Some v0 ->
  exists d' out',
    load_one env ((k0, v0) :: data, out) s = ((k0, v0) :: d', out').
Proof.
  intros Hk. unfold load_one.
  destruct (env s) as [| |columns [cols|]] eqn:Es; eauto.
  - destruct (existsb (String.eqb "x") columns) eqn:Ex; eauto.
    destruct (dict_set_hd s ("x" :: cols) k0 v0 data) as (d' & E).
    rewrite E. destruct (String.eqb_spec k0 s) as [->|]; eauto.
    unfold loaded in Hk. rewrite Es, Ex in Hk. injection Hk as <-. eauto.
  - destruct (existsb (String.eqb "x") columns); eauto.
Qed.

Lemma load_hd_from env subdirs : forall data out k0 v0,
  loaded env k0 = Some v0 ->
  exists d' out',
    fold_left (load_one env) subdirs ((k0, v0) :: data, out)
    = ((k0, v0) :: d', out').
Proof.
  induction subdirs as [|s subdirs IH]; intros data out k0 v0 Hk.
  - exists data, out. reflexivity.
  - cbn [fold_left].
    destruct (load_one_hd env data out s k0 v0 Hk) as (d' & out' & E).
    rewrite E. apply IH, Hk.
Qed.

Lemma load_one_none env out s :
  loaded env s = None -> fst (load_one env ([], out) s) = [].
Proof.
  unfold loaded, load_one. destruct (env s) as [| |columns [cols|]];
    try reflexivity; destruct (existsb (String.eqb "x") columns);
    try reflexivity; discriminate.
Qed.

Lemma load_one_some env out s cols :
  loaded env s = Some cols -> load_one env ([], out) s = ([(s, cols)], out).
Proof.
  unfold loaded, load_one. destruct (env s) as [| |columns [c|]];
    try discriminate; destruct (existsb (String.eqb "x") columns);
    try discriminate.
  intros H. injection H as <-. reflexivity.
Qed.

(** The first item of the dict is the first subdirectory kept. *)
Lemma load_first env subdirs : forall out,
  match fst (fold_left (load_one env) subdirs ([], out)) with
  | [] => forall s, In s subdirs -> loaded env s = None
  | (k, v) :: _ =>
      exists a b,
        subdirs = a ++ k :: b
        /\ (forall s, In s a -> loaded env s = None)
        /\ loaded env k = Some v
  end.
Proof.
  induction subdirs as [|s subdirs IH]; intros out.
  - intros s [].
  - cbn [fold_left]. destruct (loaded env s) as [cols|] eqn:Es.
    + rewrite (load_one_some _ _ _ _ Es).
      destruct (load_hd_from env subdirs [] out s cols Es)
        as (d' & out' & E).
      rewrite E. cbn [fst]. exists [], subdirs. repeat split; auto.
      intros t [].
    + pose proof (load_one_none env out s Es) as E.
      destruct (load_one env ([], out) s) as [d o]. cbn [fst] in E. subst d.
      specialize (IH o).
      match type of IH with
      | match ?t with _ => _ end =>
          match goal with
          | |- match ?u with _ => _ end => change u with t
          end;
          destruct t as [|[k v] d]
      end.
      * intros t [<-|Ht]; auto.
      * destruct IH as (a & b & -> & Ha & Hk).
        exists (s :: a), b. repeat split; auto.
        intros t [<-|Ht]; auto.
Qed.

Lemma flat_map_none {A B : Type} (g : A -> list B) (l : list A) :
  (forall x, In x l -> g x = []) -> flat_map g l = [].
Proof.
  induction l as [|x l IH]; intros H; [reflexivity|]. simpl.
  rewrite (H x) by (left; reflexivity). apply IH.
  intros y Hy. apply H. right. exact Hy.
Qed.

(** The variables of the script are those of the first table kept. *)
Lemma load_variables env subdirs :
  match fst (load env subdirs) with
  | [] => variables_of env subdirs = []
  | (_, first_df) :: _ =>
      variables_of env subdirs
      = filter (fun col => negb (String.eqb col "x")) first_df
  end.
Proof.
  pose proof (load_first env subdirs []) as H. unfold load.
  unfold variables_of.
  destruct (fst (fold_left (load_one env) subdirs ([], []))) as [|[k v] d].
  - rewrite flat_map_none; [reflexivity|].
    intros s Hs. rewrite (H s Hs). reflexivity.
  - destruct H as (a & b & -> & Ha & Hk). rewrite flat_map_app.
    rewrite flat_map_none by (intros s Hs; rewrite (Ha s Hs); reflexivity).
    cbn [app flat_map]. rewrite Hk. reflexivity.
Qed.

(** The inner loop when every subdirectory has a table in the dict. *)
Lemma add_traces_ok data v var subdirs : forall trs,
  (forall s, In s subdirs ->
             exists cols, dict_get s data = Some ("x" :: cols)) ->
  add_traces data v var subdirs trs
  = inr (trs ++ traces_of data subdirs v var).
Proof.
  unfold traces_of.
  induction subdirs as [|s subdirs IH]; intros trs Hall.
  - cbn. rewrite app_nil_r. reflexivity.
  - destruct (Hall s (or_introl eq_refl)) as (cols & Es).
    cbn [add_traces flat_map]. unfold in_frame at 1. rewrite Es.
    destruct (existsb (String.eqb var) ("x" :: cols)).
    + cbn [existsb String.eqb Ascii.eqb Bool.eqb andb orb].
      rewrite IH by (intros t Ht; apply Hall; right; exact Ht).
      rewrite <- app_assoc. reflexivity.
    + apply IH. intros t Ht. apply Hall. right. exact Ht.
Qed.

(** The inner loop stops at the first subdirectory without a table. *)
Lemma add_traces_missing data v var a s b : forall trs,
  (forall t, In t a -> exists cols, dict_get t data = Some ("x" :: cols)) ->
  dict_get s data = None ->
  add_traces data v var (a ++ s :: b) trs = inl (KeyError s).
Proof.
  induction a as [|t a IH]; intros trs Hall Hs.
  - cbn. rewrite Hs. reflexivity.
  - destruct (Hall t (or_introl eq_refl)) as (cols & Et).
    cbn [app add_traces]. rewrite Et.
    destruct (existsb (String.eqb var) ("x" :: cols));
      [cbn [existsb String.eqb Ascii.eqb Bool.eqb andb orb]|];
      apply IH; auto; intros u Hu; apply Hall; right; exact Hu.
Qed.

Lemma add_all_traces_ok data subdirs vars : forall v trs,
  (forall s, In s subdirs ->
             exists cols, dict_get s data = Some ("x" :: cols)) ->
  add_all_traces data subdirs v vars trs
  = inr (trs ++ all_traces data subdirs v vars).
Proof.
  induction vars as [|var vars IH]; intros v trs Hall.
  - cbn. rewrite app_nil_r. reflexivity.
  - cbn [add_all_traces all_traces]. rewrite add_traces_ok by exact Hall.
    rewrite IH by exact Hall. rewrite <- app_assoc. reflexivity.
Qed.

Lemma list_set_ok {A : Type} (v d : A) (l : list A) : forall i,
  i < length l ->
  exists l',
    list_set i v l = Some l'
    /\ length l' = length l
    /\ forall t, nth t l' d = if (t =? i)%nat then v else nth t l d.
Proof.
  induction l as [|a l IH]; intros i Hi; [simpl in Hi; lia|].
  destruct i as [|i].
  - eexists. split; [reflexivity|]. split; [reflexivity|].
    intros [|t]; reflexivity.
  - destruct (IH i) as (l' & E & Hl & Hn); [simpl in Hi; lia|].
    cbn [list_set]. rewrite E. eexists. split; [reflexivity|].
    split; [simpl; rewrite Hl; reflexivity|].
    intros [|t]; [reflexivity|]. cbn [nth]. rewrite Hn. reflexivity.
Qed.

(** The assignments of [True] stay within the list. *)
Lemma set_visible_ok n : forall a l,
  a + n <= length l ->
  exists l',
    set_visible (seq a n) l = inr l'
    /\ length l' = length l
    /\ forall t,
         nth t l' false
         = (((a <=? t) && (t <? a + n))%nat || nth t l false)%bool.
Proof.
  induction n as [|n IH]; intros a l Hle.
  - exists l. split; [reflexivity|]. split; [reflexivity|].
    intros t. compare_nat.
  - cbn [seq set_visible].
    destruct (list_set_ok true false l a) as (l1 & E & Hl1 & Hn1); [lia|].
    rewrite E.
    destruct (IH (S a) l1) as (l' & E' & Hl & Hn); [lia|].
    exists l'. split; [exact E'|]. split; [lia|].
    intros t. rewrite Hn, Hn1. compare_nat.
Qed.

Lemma nth_repeat_false t n : nth t (repeat false n) false = false.
Proof.
  revert t. induction n as [|n IH]; intros [|t]; simpl; auto.
Qed.

(** The buttons: one per variable, each with a list as long as
    [total_traces] that is true on the block of its variable. *)
Lemma add_buttons_ok n total vars : forall v bts,
  (v + length vars) * n <= total ->
  exists bts',
    add_buttons n total v vars bts = inr (bts ++ bts')
    /\ length bts' = length vars
    /\ forall i var,
         nth_error vars i = Some var ->
         exists b,
           nth_error bts' i = Some b
           /\ label b = var
           /\ title b = comparison_title var
           /\ yaxis_title b = var_label var
           /\ length (shows b) = total
           /\ forall t,
                nth t (shows b) false
                = (((v + i) * n <=? t) && (t <? (v + i) * n + n))%nat.
Proof.
  induction vars as [|var vars IH]; intros v bts Hle.
  - exists []. cbn. rewrite app_nil_r. repeat split.
    intros [|i] var H; discriminate.
  - cbn [add_buttons].
    replace (v * n + n - v * n) with n by lia.
    destruct (set_visible_ok n (v * n) (repeat false total))
      as (l' & E & Hl & Hn).
    { rewrite repeat_length. cbn [length] in Hle. nia. }
    rewrite E.
    destruct (IH (S v) (bts ++ [{| label := var; shows := l';
                                    title := comparison_title var;
                                    yaxis_title := var_label var |}]))
      as (bts' & E' & Hl' & Hb).
    { cbn [length] in Hle. nia. }
    rewrite E', <- app_assoc. eexists. split; [reflexivity|].
    split; [simpl; rewrite Hl'; reflexivity|].
    intros [|i] var' Hv.
    + injection Hv as <-. eexists. split; [reflexivity|].
      cbn [label title yaxis_title shows].
      rewrite Hl, repeat_length. repeat split.
      intros t. rewrite Hn, nth_repeat_false, orb_false_r, Nat.add_0_r.
      reflexivity.
    + destruct (Hb i var' Hv) as (b & Eb & H1 & H2 & H3 & H4 & H5).
      exists b. repeat split; auto.
      intros t. rewrite H5.
      replace (S v + i) with (v + S i) by lia. reflexivity.
Qed.

Lemma loaded_x env s c :
  loaded env s = Some c -> exists cols, c = "x" :: cols.
Proof.
  unfold loaded. destruct (env s) as [| |columns [cols|]]; try discriminate.
  destruct (existsb (String.eqb "x") columns); [|discriminate].
  intros H. injection H as <-. eauto.
Qed.

Lemma In_existsb k (l : list string) :
  In k l -> existsb (String.eqb k) l = true.
Proof.
  intros H. apply existsb_exists. exists k.
  split; [exact H|apply String.eqb_refl].
Qed.

(** Every subdirectory with a table kept has it in the dict. *)
Lemma all_in_dict env subdirs s :
  In s subdirs -> loaded env s <> None ->
  exists cols, dict_get s (fst (load env subdirs)) = Some ("x" :: cols).
Proof.
  intros Hin Hs. rewrite load_get, (In_existsb _ _ Hin).
  destruct (loaded env s) as [c|] eqn:E; [|congruence].
  destruct (loaded_x _ _ _ E) as (cols & ->). eauto.
Qed.

Lemma in_frame_has_column env subdirs var s :
  In s subdirs ->
  in_frame (fst (load env subdirs)) var s = has_column env s var.
Proof.
  intros Hin. unfold in_frame, has_column.
  rewrite load_get, (In_existsb _ _ Hin). reflexivity.
Qed.

(** The script when every subdirectory has a table kept and there is a
    variable. *)
Lemma script_written env subdirs :
  variables_of env subdirs <> [] ->
  (forall s, In s subdirs -> loaded env s <> None) ->
  exists bts,
    script env subdirs
    = (snd (load env subdirs) ++ [PlotSaved],
       Written {| traces := all_traces (fst (load env subdirs)) subdirs 0
                                       (variables_of env subdirs);
                  buttons := bts;
                  fig_title :=
                    comparison_title
                      (hd EmptyString (variables_of env subdirs));
                  fig_yaxis_title :=
                    var_label (hd EmptyString (variables_of env subdirs)) |})
    /\ add_buttons (length subdirs)
                   (length subdirs * length (variables_of env subdirs)) 0
                   (variables_of env subdirs) []
       = inr bts.
Proof.
  intros Hv Hall. unfold script.
  pose proof (load_variables env subdirs) as Hvars.
  assert (Hd : forall s, In s subdirs ->
                 exists cols,
                   dict_get s (fst (load env subdirs)) = Some ("x" :: cols))
    by (intros s Hs; apply all_in_dict; auto).
  destruct (load env subdirs) as [data out]. cbn [fst snd] in *.
  destruct data as [|[k first_df] d]; [congruence|].
  rewrite <- Hvars.
  destruct (variables_of env subdirs) as [|v1 vs] eqn:Ev; [congruence|].
  rewrite (add_all_traces_ok _ _ _ 0 [] Hd). cbn [app].
  destruct (add_buttons_ok (length subdirs)
              (length subdirs * length (v1 :: vs)) (v1 :: vs) 0 [])
    as (bts & Eb & _); [lia|].
  rewrite Eb. cbn [app hd]. exists bts. split; reflexivity.
Qed.

(** X14. The script analyze_surface_file.py ends in one of four ways.
    When no subdirectory gives a table (no file, an error, or no column
    [x]) it prints that no data was found and exits. When the first table
    kept has no column but [x] it prints that there are no variables and
    exits. Otherwise, if some subdirectory gave no table, the first loop
    over the traces raises [KeyError] on the first such subdirectory, for
    it looks every subdirectory up in the dict; only when every
    subdirectory gave a table is the figure written. *)
Theorem surface_script_outcome (env : string -> csv)
    (subdirs : list string) :
  ((forall s, In s subdirs -> loaded env s = None) ->
   script env subdirs = (snd (load env subdirs) ++ [NoDataFound], Exited))
  /\ ((exists s, In s subdirs /\ loaded env s <> None) ->
      variables_of env subdirs = [] ->
      script env subdirs
      = (snd (load env subdirs) ++ [NoVariablesFound], Exited))
  /\ (variables_of env subdirs <> [] ->
      forall a s b,
        subdirs = a ++ s :: b ->
        (forall t, In t a -> loaded env t <> None) ->
        loaded env s = None ->
        script env subdirs = (snd (load env subdirs), Raised (KeyError s)))
  /\ (variables_of env subdirs <> [] ->
      (forall s, In s subdirs -> loaded env s <> None) ->
      exists fig,
        script env subdirs
        = (snd (load env subdirs) ++ [PlotSaved], Written fig)).
Proof.
  split; [|split; [|split]].
  - intros Hnone. unfold script.
    pose proof (load_first env subdirs []) as Hf. fold (load env subdirs) in Hf.
    destruct (load env subdirs) as [data out]. cbn [fst snd] in *.
    destruct data as [|[k v] d]; [reflexivity|].
    destruct Hf as (a & b & -> & _ & Hk).
    rewrite Hnone in Hk by (apply in_or_app; right; left; reflexivity).
    discriminate.
  - intros (s & Hs & Hl) Hv. unfold script.
    pose proof (load_first env subdirs []) as Hf. fold (load env subdirs) in Hf.
    pose proof (load_variables env subdirs) as Hvars.
    destruct (load env subdirs) as [data out]. cbn [fst snd] in *.
    destruct data as [|[k v] d]; [exfalso; apply Hl, Hf, Hs|].
    rewrite <- Hvars, Hv. reflexivity.
  - intros Hv a s b -> Ha Hs. unfold script.
    pose proof (load_variables env (a ++ s :: b)) as Hvars.
    assert (Hd : forall t, In t a ->
                   exists cols,
                     dict_get t (fst (load env (a ++ s :: b)))
                     = Some ("x" :: cols)).
    { intros t Ht. apply all_in_dict; auto. apply in_or_app. auto. }
    assert (Hn : dict_get s (fst (load env (a ++ s :: b))) = None).
    { rewrite load_get, Hs. destruct (existsb _ _); reflexivity. }
    destruct (load env (a ++ s :: b)) as [data out]. cbn [fst snd] in *.
    destruct data as [|[k first_df] d]; [congruence|].
    rewrite <- Hvars.
    destruct (variables_of env (a ++ s :: b)) as [|v1 vs]; [congruence|].
    cbn [add_all_traces].
    rewrite (add_traces_missing _ _ _ _ _ _ [] Hd Hn). reflexivity.
  - intros Hv Hall.
    destruct (script_written env subdirs Hv Hall) as (bts & E & _).
    eexists. exact E.
Qed.

Lemma traces_of_full data subdirs v var :
  (forall s, In s subdirs -> in_frame data var s = true) ->
  traces_of data subdirs v var = map (trace_of v var) subdirs.
Proof.
  unfold traces_of. induction subdirs as [|s subdirs IH]; intros H;
    [reflexivity|].
  cbn [flat_map map]. rewrite (H s) by (left; reflexivity).
  rewrite IH by (intros t Ht; apply H; right; exact Ht). reflexivity.
Qed.

Lemma traces_of_length data subdirs v var :
  length (traces_of data subdirs v var) <= length subdirs.
Proof.
  unfold traces_of. induction subdirs as [|s subdirs IH]; [simpl; lia|].
  cbn [flat_map]. rewrite length_app.
  destruct (in_frame data var s); simpl; lia.
Qed.

Lemma traces_of_short data subdirs v var s :
  In s subdirs -> in_frame data var s = false ->
  length (traces_of data subdirs v var) < length subdirs.
Proof.
  intros Hin Hs. apply in_split in Hin as (a & b & ->).
  unfold traces_of. rewrite flat_map_app, !length_app. cbn [flat_map].
  rewrite Hs. cbn [app length].
  pose proof (traces_of_length data a v var).
  pose proof (traces_of_length data b v var).
  unfold traces_of in *. lia.
Qed.

Lemma all_traces_length data subdirs vars : forall v,
  length (all_traces data subdirs v vars) <= length subdirs * length vars.
Proof.
  induction vars as [|var vars IH]; intros v; [simpl; lia|].
  cbn [all_traces length]. rewrite length_app.
  pose proof (traces_of_length data subdirs v var). specialize (IH (S v)).
  nia.
Qed.

Lemma all_traces_short data subdirs vars var s : forall v,
  In var vars -> In s subdirs -> in_frame data var s = false ->
  length (all_traces data subdirs v vars) < length subdirs * length vars.
Proof.
  induction vars as [|var' vars IH]; intros v Hvar Hs Hf; [contradiction|].
  cbn [all_traces length]. rewrite length_app.
  destruct Hvar as [->|Hvar].
  - pose proof (traces_of_short data subdirs v var s Hs Hf).
    pose proof (all_traces_length data subdirs vars (S v)). nia.
  - pose proof (traces_of_length data subdirs v var').
    specialize (IH (S v) Hvar Hs Hf). nia.
Qed.

Lemma all_traces_full data subdirs vars : forall v,
  (forall s var, In s subdirs -> In var vars ->
                 in_frame data var s = true) ->
  length (all_traces data subdirs v vars) = length subdirs * length vars
  /\ forall i j var sub,
       nth_error vars i = Some var -> nth_error subdirs j = Some sub ->
       nth_error (all_traces data subdirs v vars) (i * length subdirs + j)
       = Some (trace_of (v + i) var sub).
Proof.
  induction vars as [|var0 vars IH]; intros v Hfull.
  - split; [simpl; lia|]. intros [|i] j var sub H; discriminate.
  - cbn [all_traces].
    rewrite traces_of_full
      by (intros s Hs; apply Hfull; [exact Hs|left; reflexivity]).
    destruct (IH (S v)) as (Hl & Hn).
    { intros s var Hs Hv. apply Hfull; [exact Hs|right; exact Hv]. }
    split; [rewrite length_app, length_map, Hl; cbn [length]; lia|].
    intros [|i] j var sub Hv Hj.
    + injection Hv as <-. cbn [Nat.mul Nat.add].
      assert (Hlt : j < length subdirs) by (apply nth_error_Some; congruence).
      rewrite nth_error_app1 by (rewrite length_map; exact Hlt).
      rewrite nth_error_map, Hj, Nat.add_0_r. reflexivity.
    + cbn [nth_error] in Hv.
      rewrite nth_error_app2 by (rewrite length_map; lia).
      rewrite length_map.
      replace (S i * length subdirs + j - length subdirs)
        with (i * length subdirs + j) by lia.
      rewrite (Hn i j var sub Hv Hj).
      replace (S v + i) with (v + S i) by lia. reflexivity.
Qed.

(** X15. When every subdirectory gave a table and every table has all
    the variables of the first, the figure has one trace per variable and
    subdirectory, variable by variable in the order of the
    subdirectories, the traces of the first variable being the visible
    ones; the button of a variable carries a list as long as the traces
    that is true exactly on the traces of that variable. *)
Theorem buttons_select_their_traces (env : string -> csv)
    (subdirs : list string) :
  variables_of env subdirs <> [] ->
  (forall s, In s subdirs -> loaded env s <> None) ->
  (forall s var, In s subdirs -> In var (variables_of env subdirs) ->
                 has_column env s var = true) ->
  exists fig,
    snd (script env subdirs) = Written fig
    /\ length (traces fig)
       = length subdirs * length (variables_of env subdirs)
    /\ (forall i j var sub,
          nth_error (variables_of env subdirs) i = Some var ->
          nth_error subdirs j = Some sub ->
          nth_error (traces fig) (i * length subdirs + j)
          = Some {| x_of := (sub, "x"); y_of := (sub, var);
                    name := replace "wedge_" "" sub;
                    visible := (i =? 0)%nat |})
    /\ (forall i var,
          nth_error (variables_of env subdirs) i = Some var ->
          exists b,
            nth_error (buttons fig) i = Some b
            /\ label b = var
            /\ length (shows b) = length (traces fig)
            /\ forall t,
                 nth t (shows b) false = true
                 <-> i * length subdirs <= t < i * length subdirs
                                               + length subdirs).
Proof.
  intros Hv Hall Hcols.
  destruct (script_written env subdirs Hv Hall) as (bts & E & Eb).
  rewrite E. cbn [snd]. eexists. split; [reflexivity|].
  cbn [traces buttons].
  destruct (all_traces_full (fst (load env subdirs)) subdirs
              (variables_of env subdirs) 0) as (Hl & Hn).
  { intros s var Hs Hvar. rewrite in_frame_has_column by exact Hs.
    apply Hcols; assumption. }
  split; [exact Hl|]. split; [exact Hn|].
  intros i var Hvar.
  destruct (add_buttons_ok (length subdirs)
              (length subdirs * length (variables_of env subdirs))
              (variables_of env subdirs) 0 []) as (bts' & Eb' & _ & Hb);
    [lia|].
  rewrite Eb in Eb'. injection Eb' as ->. cbn [app] in *.
  destruct (Hb i var Hvar) as (b & Hnb & Hlab & _ & _ & Hlen & Ht).
  exists b. split; [exact Hnb|]. split; [exact Hlab|].
  split; [rewrite Hlen, Hl; reflexivity|].
  intros t. rewrite Ht. cbn [Nat.add].
  rewrite andb_true_iff, Nat.leb_le, Nat.ltb_lt. reflexivity.
Qed.

(** X16. When every subdirectory gave a table but one of them lacks one
    of the variables, the figure has fewer traces than its buttons
    count on: no trace is added for the missing column, while every
    button still carries a list of as many entries as there are
    subdirectories times variables. *)
Theorem missing_column_shortens_traces (env : string -> csv)
    (subdirs : list string) (s var : string) :
  (forall t, In t subdirs -> loaded env t <> None) ->
  In s subdirs -> In var (variables_of env subdirs) ->
  has_column env s var = false ->
  exists fig,
    snd (script env subdirs) = Written fig
    /\ length (traces fig)
       < length subdirs * length (variables_of env subdirs)
    /\ length (buttons fig) = length (variables_of env subdirs)
    /\ Forall (fun b => length (shows b)
                        = length subdirs
                          * length (variables_of env subdirs))
              (buttons fig).
Proof.
  intros Hall Hs Hvar Hno.
  assert (Hv : variables_of env subdirs <> [])
    by (intros E; rewrite E in Hvar; contradiction).
  destruct (script_written env subdirs Hv Hall) as (bts & E & Eb).
  rewrite E. cbn [snd]. eexists. split; [reflexivity|].
  cbn [traces buttons]. split.
  - apply (all_traces_short _ _ _ var s); auto.
    rewrite in_frame_has_column by exact Hs. exact Hno.
  - destruct (add_buttons_ok (length subdirs)
                (length subdirs * length (variables_of env subdirs))
                (variables_of env subdirs) 0 []) as (bts' & Eb' & Hl & Hb);
      [lia|].
    rewrite Eb in Eb'. injection Eb' as ->. cbn [app] in *.
    split; [exact Hl|]. apply Forall_forall. intros b Hin.
    apply In_nth_error in Hin as (i & Hi).
    assert (Hlt : i < length (variables_of env subdirs)).
    { rewrite <- Hl. apply nth_error_Some. congruence. }
    destruct (nth_error (variables_of env subdirs) i) as [v|] eqn:Ev;
      [|apply nth_error_None in Ev; lia].
    destruct (Hb i v Ev) as (b' & Hb' & _ & _ & _ & Hlen & _).
    rewrite Hi in Hb'. injection Hb' as <-. exact Hlen.
Qed.

End SurfaceFacts.

(** ** The function of heat_flux_plotter.py: label, lines and summary *)

Module HeatFluxFacts.
Import PyDict HeatFlux.
Section HeatFluxFacts.
Variable num : Type.
Variable env : string -> entry num.
Variable x_variable : string.

Abbreviation body := (body num env x_variable).
Abbreviation state := (state num).

Lemma dict_set_new {V : Type} (k : string) (v : V) (d : dict V) :
  ~ In k (map fst d) -> dict_set k v d = d ++ [(k, v)].
Proof.
  induction d as [|[k0 v0] d IH]; intros H; [reflexivity|]. simpl.
  destruct (String.eqb_spec k0 k) as [->|Hne].
  - exfalso. apply H. left. reflexivity.
  - rewrite IH; [reflexivity|]. intros Hin. apply H. right. exact Hin.
Qed.

(** The entries the loop passes over leave the label, the summary and
    the lines as they are. *)
Lemma body_skips st n :
  reaches num env n = false ->
  x_label _ (body st n) = x_label _ st
  /\ data_summary _ (body st n) = data_summary _ st
  /\ lines _ (body st n) = lines _ st.
Proof.
  unfold reaches, HeatFlux.body. intros H.
  destruct (is_dir _ (env n) && starts_wedge_r n && has_csv _ (env n));
    [|auto].
  destruct (file _ (env n)) as [|columns stats points plots]; [auto|].
  cbn [andb] in H. rewrite H. auto.
Qed.

(** An entry that gets as far as the choice of the axis sets the label. *)
Lemma body_reaches st n :
  reaches num env n = true ->
  x_label _ (body st n) = Some (label_for num env x_variable n).
Proof.
  unfold reaches, HeatFlux.body, label_for, by_index. intros H.
  destruct (is_dir _ (env n) && starts_wedge_r n && has_csv _ (env n));
    [|discriminate].
  destruct (file _ (env n)) as [|columns stats points plots];
    [discriminate|].
  cbn [andb] in H. rewrite H.
  destruct stats as [[mean max]|]; [destruct plots|]; reflexivity.
Qed.

(** What one turn of the loop does to the summary and to the lines. *)
Lemma body_summary st n :
  data_summary _ (body st n)
  = match (if summarised num env n then row_of num env n else None) with
    | Some row => dict_set n row (data_summary _ st)
    | None => data_summary _ st
    end.
Proof.
  unfold summarised, reaches, row_of, HeatFlux.body.
  destruct (is_dir _ (env n) && starts_wedge_r n && has_csv _ (env n));
    [|reflexivity].
  destruct (file _ (env n)) as [|columns stats points plots];
    [reflexivity|].
  cbn [andb]. destruct (has "Heat_Flux" columns); [|reflexivity].
  destruct stats as [[mean max]|]; [destruct plots|]; reflexivity.
Qed.

Lemma fold_label l : forall st,
  (forall n, In n l -> reaches num env n = false) ->
  x_label _ (fold_left body l st) = x_label _ st.
Proof.
  induction l as [|n l IH]; intros st H; [reflexivity|].
  cbn [fold_left]. rewrite IH by (intros m Hm; apply H; right; exact Hm).
  apply body_skips, H. left. reflexivity.
Qed.

Lemma fold_label_last a n b st :
  reaches num env n = true ->
  (forall m, In m b -> reaches num env m = false) ->
  x_label _ (fold_left body (a ++ n :: b) st)
  = Some (label_for num env x_variable n).
Proof.
  intros Hn Hb. rewrite fold_left_app. cbn [fold_left].
  rewrite fold_label by exact Hb. apply body_reaches, Hn.
Qed.

Lemma last_reaching l :
  (forall n, In n l -> reaches num env n = false)
  \/ exists a n b,
       l = a ++ n :: b /\ reaches num env n = true
       /\ forall m, In m b -> reaches num env m = false.
Proof.
  induction l as [|x l IH].
  - left. intros n [].
  - destruct IH as [H|(a & n & b & -> & Hn & Hb)].
    + destruct (reaches num env x) eqn:Ex.
      * right. exists [], x, l. auto.
      * left. intros n [<-|Hn]; auto.
    + right. exists (x :: a), n, b. auto.
Qed.

Lemma fold_summary l : forall st,
  NoDup l ->
  (forall n, In n l -> ~ In n (map fst (data_summary _ st))) ->
  data_summary _ (fold_left body l st)
  = data_summary _ st
    ++ flat_map (fun n =>
                   match (if summarised num env n then row_of num env n
                          else None) with
                   | Some row => [(n, row)]
                   | None => []
                   end) l.
Proof.
  induction l as [|n l IH]; intros st Hnd Hnew.
  - cbn. rewrite app_nil_r. reflexivity.
  - inversion Hnd as [|? ? Hn Hnd']; subst. cbn [fold_left flat_map].
    rewrite IH; [|exact Hnd'|].
    + rewrite body_summary.
      destruct (if summarised num env n then row_of num env n else None)
        as [row|]; [|reflexivity].
      rewrite dict_set_new by (apply Hnew; left; reflexivity).
      rewrite <- app_assoc. reflexivity.
    + intros m Hm. rewrite body_summary.
      destruct (if summarised num env n then row_of num env n else None)
        as [row|]; [|apply Hnew; right; exact Hm].
      rewrite dict_set_new by (apply Hnew; left; reflexivity).
      rewrite map_app, in_app_iff. cbn [map fst In].
      intros [H|[H|[]]].
      * apply (Hnew m); [right; exact Hm|exact H].
      * subst m. contradiction.
Qed.

Lemma fold_lines l : forall st,
  lines _ (fold_left body l st)
  = lines _ st
    ++ flat_map (fun n => if drawn num env n
                          then [line_of num env x_variable n] else []) l.
Proof.
  induction l as [|n l IH]; intros st.
  - cbn. rewrite app_nil_r. reflexivity.
  - cbn [fold_left flat_map]. rewrite IH, app_assoc. f_equal.
    unfold drawn, line_of, by_index, summarised, reaches, HeatFlux.body.
    destruct (is_dir _ (env n) && starts_wedge_r n && has_csv _ (env n));
      [|cbn; rewrite app_nil_r; reflexivity].
    destruct (file _ (env n)) as [|columns stats points plots];
      [cbn; rewrite app_nil_r; reflexivity|].
    cbn [andb]. destruct (has "Heat_Flux" columns);
      [|cbn; rewrite app_nil_r; reflexivity].
    destruct stats as [[mean max]|]; [destruct plots|];
      cbn [andb lines]; rewrite ?app_nil_r; reflexivity.
Qed.

End HeatFluxFacts.

(** The order of [sorted] on texts is transitive. *)
Lemma leb_trans a : forall b c,
  String.leb a b = true -> String.leb b c = true -> String.leb a c = true.
Proof.
  unfold String.leb.
  induction a as [|x a IH]; intros [|y b] [|z c]; simpl;
    try discriminate; auto.
  unfold Ascii.compare.
  destruct (N.compare_spec (N_of_ascii x) (N_of_ascii y)) as [E1|L1|G1],
           (N.compare_spec (N_of_ascii y) (N_of_ascii z)) as [E2|L2|G2],
           (N.compare_spec (N_of_ascii x) (N_of_ascii z)) as [E3|L3|G3];
    try discriminate; auto; try lia.
  apply IH.
Qed.

Lemma sort_strongly_sorted (l : list string) :
  StronglySorted (fun a b => String.leb a b = true) (StringSort.sort l).
Proof.
  apply Sorted_StronglySorted.
  - intros a b c. apply leb_trans.
  - apply StringSort.Sorted_sort.
Qed.

Lemma filter_strongly_sorted {A : Type} (R : A -> A -> Prop)
    (p : A -> bool) (l : list A) :
  StronglySorted R l -> StronglySorted R (filter p l).
Proof.
  induction 1 as [|a l Hs IH Hall]; [constructor|]. simpl.
  destruct (p a); [|exact IH]. constructor; [exact IH|].
  apply Forall_forall. intros x Hx. apply filter_In in Hx as [Hx _].
  rewrite Forall_forall in Hall. apply Hall, Hx.
Qed.

Lemma sort_In (l : list string) n : In n (StringSort.sort l) <-> In n l.
Proof.
  split; apply Permutation_in;
    [apply Permutation_sym|]; apply StringSort.Permuted_sort.
Qed.

Section HeatFluxProperties.
Variable num : Type.
Variable env : string -> entry num.

(** X17. [process_simulation_directories] raises [UnboundLocalError]
    exactly when no entry of the base directory is a directory named
    [wedge_r...] that holds a readable [surface.csv] with a column
    [Heat_Flux]: the label of the horizontal axis is then never set, and
    nothing is saved. On an empty directory it always raises. *)
Theorem no_heat_flux_table_unbound (names : list string)
    (x_variable : string) :
  (snd (process_simulation_directories num env names x_variable)
   = inl (UnboundLocalError)
   <-> forall n, In n names -> reaches num env n = false)
  /\ snd (process_simulation_directories num env [] x_variable)
     = inl (UnboundLocalError).
Proof.
  split; [|reflexivity]. unfold process_simulation_directories.
  destruct (last_reaching num env (StringSort.sort names))
    as [H|(a & n & b & E & Hn & Hb)].
  - rewrite (fold_label num env x_variable _ _ H). cbn [x_label snd].
    split; [|reflexivity]. intros _ n Hin. apply H, sort_In, Hin.
  - rewrite E, (fold_label_last num env x_variable a n b _ Hn Hb).
    cbn [snd]. split; [discriminate|]. intros H.
    rewrite H in Hn; [discriminate|].
    apply sort_In. rewrite E. apply in_or_app. right. left. reflexivity.
Qed.

Lemma flat_map_keys (l : list string) :
  map fst (flat_map (fun n =>
                       match (if summarised num env n
                              then row_of num env n else None) with
                       | Some row => [(n, row)]
                       | None => []
                       end) l)
  = filter (summarised num env) l.
Proof.
  induction l as [|n l IH]; [reflexivity|]. cbn [flat_map filter].
  rewrite map_app, IH. unfold summarised at 1 3, row_of.
  destruct (reaches num env n); [|reflexivity]. cbn [andb].
  destruct (file _ (env n)) as [|columns [[mean max]|] points plots];
    reflexivity.
Qed.

Lemma summary_of_saved names x_variable r :
  NoDup names ->
  snd (process_simulation_directories num env names x_variable) = inr r ->
  summary _ r
  = flat_map (fun n =>
                match (if summarised num env n
                       then row_of num env n else None) with
                | Some row => [(n, row)]
                | None => []
                end) (StringSort.sort names).
Proof.
  intros Hnd. unfold process_simulation_directories.
  destruct (x_label _ (fold_left (body num env x_variable)
                                 (StringSort.sort names)
                                 (mkState num None [] [] [])));
    [|discriminate].
  cbn [snd]. intros H. injection H as <-. cbn [summary].
  rewrite (fold_summary num env x_variable); [reflexivity| |].
  - apply (Permutation_NoDup (StringSort.Permuted_sort names) Hnd).
  - intros n _ [].
Qed.

(** X18. When the function returns, the summary has one row for every
    entry that is a directory named [wedge_r...] with a readable
    [surface.csv] whose [Heat_Flux] has a mean and a maximum, and no
    other row; the rows are in the ascending order of the names, and
    each holds the mean, the maximum and the number of points of its
    table. *)
Theorem summary_rows_sorted (names : list string) (x_variable : string)
    (r : saved num) :
  NoDup names ->
  snd (process_simulation_directories num env names x_variable) = inr r ->
  map fst (summary _ r) = filter (summarised num env) (StringSort.sort names)
  /\ StronglySorted (fun a b => String.leb a b = true)
                    (map fst (summary _ r))
  /\ NoDup (map fst (summary _ r))
  /\ (forall n, In n (map fst (summary _ r))
                <-> In n names /\ summarised num env n = true)
  /\ (forall n row, In (n, row) (summary _ r) ->
                    row_of num env n = Some row
                    /\ startswith "wedge_r" n = true).
Proof.
  intros Hnd Hr. rewrite (summary_of_saved _ _ _ Hnd Hr), flat_map_keys.
  split; [reflexivity|].
  split; [apply filter_strongly_sorted, sort_strongly_sorted|].
  split; [apply NoDup_filter,
            (Permutation_NoDup (StringSort.Permuted_sort names) Hnd)|].
  split.
  - intros n. rewrite filter_In, sort_In. reflexivity.
  - intros n row Hin. apply in_flat_map in Hin as (m & _ & Hin).
    destruct (summarised num env m) eqn:Es; [|contradiction].
    destruct (row_of num env m) as [row'|] eqn:Er; [|contradiction].
    destruct Hin as [Hin|[]]. injection Hin as <- <-.
    split; [exact Er|].
    unfold summarised, reaches in Es.
    destruct (is_dir _ (env m)); [|discriminate].
    cbn [andb] in Es. unfold starts_wedge_r in Es.
    destruct (startswith "wedge_r" m); [reflexivity|discriminate].
Qed.

(** X19. When the function returns, the label of the horizontal axis is
    the one chosen for the last entry, in sorted order, that has a
    [surface.csv] with a column [Heat_Flux]: the name of the column
    asked for when that table has it, and the point index otherwise,
    whatever the earlier tables were plotted against. *)
Theorem xlabel_of_last_table (names : list string) (x_variable : string)
    (r : saved num) (a : list string) (n : string) (b : list string) :
  snd (process_simulation_directories num env names x_variable) = inr r ->
  StringSort.sort names = a ++ n :: b ->
  reaches num env n = true ->
  (forall m, In m b -> reaches num env m = false) ->
  xlabel _ r = label_for num env x_variable n.
Proof.
  intros Hr E Hn Hb. unfold process_simulation_directories in Hr.
  rewrite E, (fold_label_last num env x_variable a n b _ Hn Hb) in Hr.
  cbn [snd] in Hr. injection Hr as <-. reflexivity.
Qed.

(** X20. [main] asks for the index: when it returns, the horizontal
    axis is labelled as the surface point index and every line is
    plotted against the index of its table, also when the tables have a
    column of coordinates; the lines are those of the entries in the
    summary whose plot did not raise, in sorted order. *)
Theorem main_plots_against_index (names : list string) (r : saved num) :
  snd (main num env names) = inr r ->
  xlabel _ r = "Surface Point Index"
  /\ Forall (fun l => x_data l = None) (plotted _ r)
  /\ map label (plotted _ r)
     = filter (drawn num env) (StringSort.sort names).
Proof.
  unfold main, process_simulation_directories. intros Hr.
  destruct (last_reaching num env (StringSort.sort names))
    as [H|(a & n & b & E & Hn & Hb)].
  - rewrite (fold_label num env "index" _ _ H) in Hr. discriminate.
  - rewrite E, (fold_label_last num env "index" a n b _ Hn Hb) in Hr.
    rewrite <- E in Hr. cbn [snd] in Hr. injection Hr as <-.
    cbn [xlabel plotted]. rewrite fold_lines. cbn [lines app].
    assert (Hi : forall m, by_index num env "index" m = true).
    { intros m. unfold by_index. destruct (file _ (env m)); reflexivity. }
    split; [|split].
    + unfold label_for. rewrite Hi. reflexivity.
    + apply Forall_forall. intros l Hl.
      apply in_flat_map in Hl as (m & _ & Hl).
      destruct (drawn num env m); [|contradiction].
      destruct Hl as [<-|[]]. unfold line_of. rewrite Hi. reflexivity.
    + clear E. induction (StringSort.sort names) as [|m l IH];
        [reflexivity|].
      cbn [flat_map filter]. rewrite map_app, IH.
      destruct (drawn num env m); reflexivity.
Qed.

End HeatFluxProperties.
End HeatFluxFacts.

(** ** The theorems on the example directories *)

Lemma same_all_loaded :
  forall s, In s DirExample.subdirs ->
            Surface.loaded DirExample.same s <> None.
Proof. intros s [<-|[<-|[]]]; discriminate. Defined.

Lemma uneven_all_loaded :
  forall s, In s DirExample.subdirs ->
            Surface.loaded DirExample.uneven s <> None.
Proof. intros s [<-|[<-|[]]]; discriminate. Defined.

Lemma same_all_columns :
  forall s var,
    In s DirExample.subdirs ->
    In var (Surface.variables_of DirExample.same DirExample.subdirs) ->
    Surface.has_column DirExample.same s var = true.
Proof.
  intros s var [<-|[<-|[]]] [<-|[<-|[]]]; reflexivity.
Defined.

Lemma same_variables :
  Surface.variables_of DirExample.same DirExample.subdirs <> [].
Proof. discriminate. Defined.

Lemma buttons_select_their_traces_example :
  exists fig,
    snd (Surface.script DirExample.same DirExample.subdirs)
    = Surface.Written fig
    /\ length (Surface.traces fig) = 4
    /\ nth_error (Surface.traces fig) 3
       = Some {| Surface.x_of := ("wedge_r2", "x");
                 Surface.y_of := ("wedge_r2", "Pressure");
                 Surface.name := "r2";
                 Surface.visible := false |}.
Proof.
  destruct (SurfaceFacts.buttons_select_their_traces DirExample.same
              DirExample.subdirs same_variables same_all_loaded
              same_all_columns) as (fig & E & Hl & Ht & _).
  exists fig. split; [exact E|]. split; [exact Hl|].
  exact (Ht 1 1 "Pressure" "wedge_r2" eq_refl eq_refl).
Defined.

Lemma missing_column_shortens_traces_example :
  Surface.has_column DirExample.uneven "wedge_r2" "Pressure" = false
  /\ exists fig,
       snd (Surface.script DirExample.uneven DirExample.subdirs)
       = Surface.Written fig
       /\ length (Surface.traces fig) < 4
       /\ length (Surface.buttons fig) = 2
       /\ Forall (fun b => length (Surface.shows b) = 4)
                 (Surface.buttons fig).
Proof.
  split; [reflexivity|].
  exact (SurfaceFacts.missing_column_shortens_traces DirExample.uneven
           DirExample.subdirs "wedge_r2" "Pressure" uneven_all_loaded
           (or_intror (or_introl eq_refl)) (or_intror (or_introl eq_refl))
           eq_refl).
Defined.

Lemma names_nodup : NoDup DirExample.names.
Proof.
  repeat constructor; simpl; intros H;
    repeat (destruct H as [H|H]; [discriminate|]); exact H.
Defined.

Lemma summary_rows_sorted_example :
  NoDup DirExample.names
  /\ snd (HeatFlux.process_simulation_directories Z DirExample.entries
            DirExample.names "x")
     = inr DirExample.saved_x
  /\ map fst (HeatFlux.summary Z DirExample.saved_x)
     = ["wedge_r1"; "wedge_r2"].
Proof.
  split; [exact names_nodup|]. split; [reflexivity|].
  exact (proj1 (HeatFluxFacts.summary_rows_sorted Z DirExample.entries
                  DirExample.names "x" DirExample.saved_x names_nodup
                  eq_refl)).
Defined.

Lemma xlabel_of_last_table_example :
  snd (HeatFlux.process_simulation_directories Z DirExample.entries
         DirExample.names "x")
  = inr DirExample.saved_x
  /\ StringSort.sort DirExample.names
     = ["notes.txt"; "wedge_r1"] ++ "wedge_r2" :: []
  /\ HeatFlux.xlabel Z DirExample.saved_x = "Surface Point Index"
  /\ map (@HeatFlux.x_data) (HeatFlux.plotted Z DirExample.saved_x)
     = [Some "x"; None].
Proof.
  split; [reflexivity|]. split; [reflexivity|]. split; [|reflexivity].
  apply (HeatFluxFacts.xlabel_of_last_table Z DirExample.entries
           DirExample.names "x" DirExample.saved_x
           ["notes.txt"; "wedge_r1"] "wedge_r2" [] eq_refl eq_refl eq_refl).
  intros m [].
Defined.

Lemma main_plots_against_index_example :
  snd (HeatFlux.main Z DirExample.entries DirExample.names)
  = inr DirExample.saved_index
  /\ HeatFlux.xlabel Z DirExample.saved_index = "Surface Point Index"
  /\ Forall (fun l => HeatFlux.x_data l = None)
            (HeatFlux.plotted Z DirExample.saved_index).
Proof.
  split; [reflexivity|].
  destruct (HeatFluxFacts.main_plots_against_index Z DirExample.entries
              DirExample.names DirExample.saved_index eq_refl)
    as (H1 & H2 & _).
  split; [exact H1|exact H2].
Defined.
